(** * Document conversion command (convert-document.tsx)

  A shallow embedding of the Raycast "convert document" command: the
  format catalog, the derivation of output paths, the conversion
  pipeline over an explicit file store with an event trace, and the
  clipboard command that is handed to the shell.

  JavaScript strings are modelled by [string] (a sequence of 8-bit
  characters standing for code units); [toLowerCase] acts on the ASCII
  letters, which is all that the catalog keys [.doc] and [.docx] can be
  matched by.  The functions of Node's [path] module that the command
  calls ([extname], [basename], [dirname], POSIX flavour) are embedded
  loop for loop from Node's implementation. *)

From Stdlib Require Import ZArith Ascii String List Lia Bool.
From stdpp Require Import base strings gmap list.

(** ** JavaScript string primitives *)

Module JS.

Definition chars (s : string) : list ascii := list_ascii_of_string s.
Definition of_chars (l : list ascii) : string := string_of_list_ascii l.

Definition is_upper (c : ascii) : bool :=
  let n := nat_of_ascii c in (65 <=? n)%nat && (n <=? 90)%nat.

Definition lower_char (c : ascii) : ascii :=
  if is_upper c then ascii_of_nat (nat_of_ascii c + 32) else c.

(** [String.prototype.toLowerCase] *)
Fixpoint toLowerCase (s : string) : string :=
  match s with
  | EmptyString => EmptyString
  | String c rest => String (lower_char c) (toLowerCase rest)
  end.

(** [s.includes(c)] for a one-character needle *)
Fixpoint includes (c : ascii) (s : string) : bool :=
  match s with
  | EmptyString => false
  | String d rest => Ascii.eqb d c || includes c rest
  end.

(** [s.split(sep)] for a one-character separator: never empty, the
    empty string splits into one empty piece. *)
Fixpoint split (sep : ascii) (s : string) : list string :=
  match s with
  | EmptyString => [EmptyString]
  | String c rest =>
      if Ascii.eqb c sep then EmptyString :: split sep rest
      else match split sep rest with
           | piece :: pieces => String c piece :: pieces
           | [] => [String c EmptyString]
           end
  end.

(** [parts.join(sep)] *)
Fixpoint join (sep : string) (parts : list string) : string :=
  match parts with
  | [] => EmptyString
  | [p] => p
  | p :: rest => p +:+ sep +:+ join sep rest
  end.

(** [s.slice(a, b)], negative indices counting from the end *)
Definition slice (s : string) (a b : Z) : string :=
  let len := Z.of_nat (String.length s) in
  let from := if (a <? 0)%Z then Z.max (len + a) 0 else Z.min a len in
  let to := if (b <? 0)%Z then Z.max (len + b) 0 else Z.min b len in
  substring (Z.to_nat from) (Z.to_nat (Z.max (to - from) 0)) s.

(** [s.includes(needle)] for an arbitrary needle *)
Fixpoint contains (needle s : string) : bool :=
  String.prefix needle s ||
  match s with
  | EmptyString => false
  | String _ rest => contains needle rest
  end.

(** *** The regular expression [/\.[^.]+$/]

    [tail_class s] is the match of [[^.]+$] at the start of [s]: the
    class is greedy and [$] (no [m] flag) holds at the end of input
    only, so the match exists when [s] is a non-empty run of characters
    other than the dot. *)
Fixpoint tail_class (s : string) : bool :=
  match s with
  | EmptyString => false
  | String c EmptyString => negb (Ascii.eqb c ".")
  | String c rest => negb (Ascii.eqb c ".") && tail_class rest
  end.

(** The leftmost match: the text before it and the text matched. *)
Fixpoint exec_ext (s : string) : option (string * string) :=
  match s with
  | EmptyString => None
  | String c rest =>
      if Ascii.eqb c "." && tail_class rest then Some (EmptyString, s)
      else match exec_ext rest with
           | Some (before, matched) => Some (String c before, matched)
           | None => None
           end
  end.

(** [GetSubstitution] for a pattern without capture groups: [$$], [$&],
    [$`] and [$'] are expanded, every other character (a [$] before a
    digit or [<] included) is copied. *)
Fixpoint getSubstitution (matched before after replacement : string) : string :=
  match replacement with
  | EmptyString => EmptyString
  | String "$" (String "$" rest) =>
      String "$" (getSubstitution matched before after rest)
  | String "$" (String "&" rest) =>
      matched +:+ getSubstitution matched before after rest
  | String "$" (String "`" rest) =>
      before +:+ getSubstitution matched before after rest
  | String "$" (String "'" rest) =>
      after +:+ getSubstitution matched before after rest
  | String c rest => String c (getSubstitution matched before after rest)
  end.

(** [s.replace(/\.[^.]+$/, replacement)] *)
Definition replace_ext (s replacement : string) : string :=
  match exec_ext s with
  | Some (before, matched) =>
      before +:+ getSubstitution matched before EmptyString replacement
  | None => s
  end.

End JS.

(** ** Node's [path] module (POSIX) *)

Module NodePath.

Definition is_slash (c : ascii) : bool := Ascii.eqb c "/".
Definition is_dot (c : ascii) : bool := Ascii.eqb c ".".

(** The result of one iteration of a [for] loop that may [break]. *)
Inductive ctl (S : Type) : Type :=
| Continue (s : S)
| Break (s : S).
Arguments Continue {S} s.
Arguments Break {S} s.

(** *** [path.extname] *)

Record ext_state : Type := ExtState {
  startDot : Z;
  startPart : Z;
  end_ : Z;
  matchedSlash : bool;
  preDotState : Z
}.

Definition ext_init : ext_state := ExtState (-1) 0 (-1) true 0.

(** The loop body at index [i], where [code = path.charCodeAt(i)]. *)
Definition extname_step (code : ascii) (i : Z) (st : ext_state) : ctl ext_state :=
  if is_slash code then
    if negb (matchedSlash st)
    then Break (ExtState (startDot st) (i + 1) (end_ st) (matchedSlash st) (preDotState st))
    else Continue st
  else
    let st1 :=
      if (end_ st =? -1)%Z
      then ExtState (startDot st) (startPart st) (i + 1) false (preDotState st)
      else st in
    if is_dot code then
      if (startDot st1 =? -1)%Z
      then Continue (ExtState i (startPart st1) (end_ st1) (matchedSlash st1) (preDotState st1))
      else if negb (preDotState st1 =? 1)%Z
      then Continue (ExtState (startDot st1) (startPart st1) (end_ st1) (matchedSlash st1) 1)
      else Continue st1
    else if negb (startDot st1 =? -1)%Z
    then Continue (ExtState (startDot st1) (startPart st1) (end_ st1) (matchedSlash st1) (-1))
    else Continue st1.

(** [for (i = path.length - 1; i >= 0; --i)]: the argument is the part
    of the path not yet visited, last character first, so its head is
    the character at index [i = length before]. *)
Fixpoint extname_loop (rev_path : list ascii) (st : ext_state) : ext_state :=
  match rev_path with
  | [] => st
  | code :: before =>
      match extname_step code (Z.of_nat (length before)) st with
      | Break st' => st'
      | Continue st' => extname_loop before st'
      end
  end.

Definition extname_empty (st : ext_state) : bool :=
  (startDot st =? -1)%Z || (end_ st =? -1)%Z || (preDotState st =? 0)%Z ||
  ((preDotState st =? 1)%Z && (startDot st =? end_ st - 1)%Z &&
   (startDot st =? startPart st + 1)%Z).

Definition extname (path : string) : string :=
  let st := extname_loop (rev (JS.chars path)) ext_init in
  if extname_empty st then EmptyString
  else JS.slice path (startDot st) (end_ st).

(** *** [path.basename] with one argument *)

Record base_state : Type := BaseState {
  b_start : Z;
  b_end : Z;
  b_matchedSlash : bool
}.

Definition base_init : base_state := BaseState 0 (-1) true.

Definition basename_step (code : ascii) (i : Z) (st : base_state) : ctl base_state :=
  if is_slash code then
    if negb (b_matchedSlash st)
    then Break (BaseState (i + 1) (b_end st) (b_matchedSlash st))
    else Continue st
  else if (b_end st =? -1)%Z
  then Continue (BaseState (b_start st) (i + 1) false)
  else Continue st.

Fixpoint basename_loop (rev_path : list ascii) (st : base_state) : base_state :=
  match rev_path with
  | [] => st
  | code :: before =>
      match basename_step code (Z.of_nat (length before)) st with
      | Break st' => st'
      | Continue st' => basename_loop before st'
      end
  end.

Definition basename (path : string) : string :=
  let st := basename_loop (rev (JS.chars path)) base_init in
  if (b_end st =? -1)%Z then EmptyString
  else JS.slice path (b_start st) (b_end st).

(** *** [path.dirname] *)

Record dir_state : Type := DirState {
  d_end : Z;
  d_matchedSlash : bool
}.

Definition dir_init : dir_state := DirState (-1) true.

Definition dirname_step (code : ascii) (i : Z) (st : dir_state) : ctl dir_state :=
  if is_slash code then
    if negb (d_matchedSlash st)
    then Break (DirState i (d_matchedSlash st))
    else Continue st
  else Continue (DirState (d_end st) false).

(** [for (i = path.length - 1; i >= 1; --i)]: index 0 is not visited. *)
Fixpoint dirname_loop (rev_path : list ascii) (st : dir_state) : dir_state :=
  match rev_path with
  | [] => st
  | [_] => st
  | code :: before =>
      match dirname_step code (Z.of_nat (length before)) st with
      | Break st' => st'
      | Continue st' => dirname_loop before st'
      end
  end.

Definition dirname (path : string) : string :=
  match path with
  | EmptyString => "."
  | String c0 _ =>
      let hasRoot := is_slash c0 in
      let st := dirname_loop (rev (JS.chars path)) dir_init in
      if (d_end st =? -1)%Z then (if hasRoot then "/" else ".")
      else if hasRoot && (d_end st =? 1)%Z then "//"
      else JS.slice path 0 (d_end st)
  end.

End NodePath.

(** ** The format catalog *)

(** [SUPPORTED_FORMATS]: the own properties of the record, in source
    order.  Lookups below go through the own properties only; the keys
    come from [getExtension], whose results are empty or start with a
    dot, and no inherited property of a plain object has such a name. *)
Definition SUPPORTED_FORMATS : list (string * list string) :=
  [ (".doc",  [".pdf"; ".docx"; ".pdf+.docx"]);
    (".docx", [".pdf"; ".doc"; ".pdf+.doc"]) ].

Definition FORMAT_LABELS : list (string * string) :=
  [ (".pdf", "PDF");
    (".doc", "Word Document (.doc)");
    (".docx", "Word Document (.docx)");
    (".pdf+.docx", "Both (PDF + DOCX)");
    (".pdf+.doc", "Both (PDF + DOC)") ].

(** [record[key]], [None] standing for [undefined] *)
Fixpoint record_get {V : Type} (record : list (string * V)) (key : string) : option V :=
  match record with
  | [] => None
  | (k, v) :: rest => if String.eqb k key then Some v else record_get rest key
  end.

Definition getExtension (filePath : string) : string :=
  JS.toLowerCase (NodePath.extname filePath).

(** [ext in SUPPORTED_FORMATS] *)
Definition isSupportedFile (filePath : string) : bool :=
  let ext := getExtension filePath in
  match record_get SUPPORTED_FORMATS ext with
  | Some _ => true
  | None => false
  end.

(** [SUPPORTED_FORMATS[ext] || []]: an array is truthy, also when empty. *)
Definition getOutputFormats (filePath : string) : list string :=
  let ext := getExtension filePath in
  match record_get SUPPORTED_FORMATS ext with
  | Some formats => formats
  | None => []
  end.

(** ** The host: file store, converter, shell and Raycast UI *)

(** A [Buffer] *)
Definition bytes : Type := list Byte.byte.

(** A thrown value: an [Error] with its message, or anything else. *)
Inductive js_exn : Type :=
| JsError (message : string)
| JsOther.

(** [error instanceof Error ? error.message : "Unknown error"] *)
Definition exn_message (error : js_exn) : string :=
  match error with
  | JsError message => message
  | JsOther => "Unknown error"
  end.

Inductive toast_style : Type := Animated | Success | Failure.

(** The primary action installed on the toast; its [onAction] closure
  captures [outputPaths] and is not run when it is installed. *)
Inductive toast_action : Type :=
| RevealInFinder (outputPaths : list string).

Record Toast : Type := MkToast {
  style : toast_style;
  title : string;
  message : string;
  primaryAction : option toast_action
}.

(** Calls that leave the process, in the order they are made.  A call
  is recorded when it is made, whether it then succeeds or throws. *)
Inductive event : Type :=
| EvReadFile (path : string)
| EvConvert (input : bytes) (format : string)
| EvWriteFile (path : string) (data : bytes)
| EvExec (command : string)
| EvOpen (target : string)
| EvShowToast (t : Toast)
| EvShowHUD (text : string)
| EvPopToRoot.

(** What lies outside the program.  [file_id] gives the file a path
    names: two paths have one [file_id] when they name the same file, as
    a symbolic or hard link and its target do, or two spellings of a
    name on a file system that ignores letter case.  [libre_convert] is
    the converter behind [libre.convert].  The faults say which reads
    (a directory, a file that may not be read), writes, shell commands
    and [open] calls fail, each with the value it throws. *)
Record host : Type := Host {
  file_id : string -> string;
  libre_convert : bytes -> string -> js_exn + bytes;
  read_fault : string -> option js_exn;
  write_fault : string -> option js_exn;
  exec_fault : string -> option js_exn;
  open_fault : string -> option js_exn
}.

(** [files] holds the content of every file there is, under its
    [file_id]. *)
Record world : Type := World {
  files : gmap string bytes;
  trace : list event;
  toast : option Toast;
  isConverting : bool
}.

Definition log (e : event) (w : world) : world :=
  World (files w) (trace w ++ [e]) (toast w) (isConverting w).

Definition store (id : string) (data : bytes) (w : world) : world :=
  World (<[id := data]> (files w)) (trace w) (toast w) (isConverting w).

Definition with_toast (t : Toast) (w : world) : world :=
  World (files w) (trace w) (Some t) (isConverting w).

Definition with_converting (b : bool) (w : world) : world :=
  World (files w) (trace w) (toast w) b.

(** *** Computations that may throw *)

Inductive outcome (A : Type) : Type :=
| Return (a : A)
| Throw (e : js_exn).
Arguments Return {A} a.
Arguments Throw {A} e.

Definition M (A : Type) : Type := world -> outcome A * world.

Definition ret {A : Type} (a : A) : M A := fun w => (Return a, w).

Definition throw {A : Type} (e : js_exn) : M A := fun w => (Throw e, w).

Definition bind {A B : Type} (m : M A) (k : A -> M B) : M B :=
  fun w =>
    match m w with
    | (Return a, w') => k a w'
    | (Throw e, w') => (Throw e, w')
    end.

(** [try { body } catch (error) { handler }] *)
Definition try_catch {A : Type} (body : M A) (handler : js_exn -> M A) : M A :=
  fun w =>
    match body w with
    | (Return a, w') => (Return a, w')
    | (Throw e, w') => handler e w'
    end.

(** [try { body } finally { cleanup }], for a cleanup that returns
    normally: the outcome of the body is kept. *)
Definition try_finally {A : Type} (body : M A) (cleanup : world -> world) : M A :=
  fun w => let (r, w') := body w in (r, cleanup w').

Declare Scope js_scope.
Delimit Scope js_scope with js.
Notation "'let*' x ':=' m 'in' k" := (bind m (fun x => k))
  (at level 10, x name, m at level 100, k at level 200, only parsing) : js_scope.
Notation "m >> k" := (bind m (fun _ => k))
  (at level 100, k at level 200, only parsing, right associativity) : js_scope.
Local Open Scope js_scope.

Definition dquote : string := String "034"%char EmptyString.
Definition squote : string := String "039"%char EmptyString.

Section Command.

Context (h : host).

(** [fs.readFileSync(path)]: the content of the file the path names.
    The read throws what the host says it throws for this path, and
    [ENOENT] when the path names no file. *)
Definition readFileSync (path : string) : M bytes :=
  fun w =>
    let w' := log (EvReadFile path) w in
    match read_fault h path with
    | Some e => (Throw e, w')
    | None =>
        match files w !! file_id h path with
        | Some data => (Return data, w')
        | None =>
            (Throw (JsError ("ENOENT: no such file or directory, open " +:+
                             squote +:+ path +:+ squote)), w')
        end
    end.

(** [fs.writeFileSync(path, data)]: creates the file the path names,
    or replaces its content. *)
Definition writeFileSync (path : string) (data : bytes) : M unit :=
  fun w =>
    let w' := log (EvWriteFile path data) w in
    match write_fault h path with
    | Some e => (Throw e, w')
    | None => (Return tt, store (file_id h path) data w')
    end.

(** [convertAsync(input, format, undefined)] *)
Definition convertAsync (input : bytes) (format : string) : M bytes :=
  fun w =>
    let w' := log (EvConvert input format) w in
    match libre_convert h input format with
    | inr output => (Return output, w')
    | inl e => (Throw e, w')
    end.

(** [execSync(command)] *)
Definition execSync (command : string) : M unit :=
  fun w =>
    let w' := log (EvExec command) w in
    match exec_fault h command with
    | Some e => (Throw e, w')
    | None => (Return tt, w')
    end.

(** [open(target)] *)
Definition open (target : string) : M unit :=
  fun w =>
    let w' := log (EvOpen target) w in
    match open_fault h target with
    | Some e => (Throw e, w')
    | None => (Return tt, w')
    end.

(** [showToast(options)]: the toast returned is the one on screen.
    The calls of the Raycast UI ([showToast], [showHUD], [popToRoot])
    are taken to resolve. *)
Definition showToast (t : Toast) : M unit :=
  fun w => (Return tt, with_toast t (log (EvShowToast t) w)).

Definition showHUD (text : string) : M unit :=
  fun w => (Return tt, log (EvShowHUD text) w).

Definition popToRoot : M unit :=
  fun w => (Return tt, log EvPopToRoot w).

(** Assignments to the fields of the toast on screen. *)
Definition toast_assign (update : Toast -> Toast) : M unit :=
  fun w =>
    match toast w with
    | Some t => (Return tt, with_toast (update t) w)
    | None => (Return tt, w)
    end.

Definition setIsConverting (b : bool) : M unit :=
  fun w => (Return tt, with_converting b w).

(** *** The command's functions *)

Definition probe_command : string :=
  "which soffice || ls /Applications/LibreOffice.app 2>/dev/null".

Definition isLibreOfficeInstalled : M bool :=
  try_catch (execSync probe_command >> ret true) (fun _ => ret false).

Definition convertDocument (inputPath outputFormat : string) : M string :=
  let* inputBuffer := readFileSync inputPath in
  let* outputBuffer := convertAsync inputBuffer outputFormat in
  let outputPath := JS.replace_ext inputPath outputFormat in
  writeFileSync outputPath outputBuffer >>
  ret outputPath.

(** The [for ... of] loop, [outputPaths] being the array pushed to. *)
Fixpoint convertDocumentMultiple_loop (inputPath : string) (formats : list string)
    (outputPaths : list string) : M (list string) :=
  match formats with
  | [] => ret outputPaths
  | format :: rest =>
      let* outputPath := convertDocument inputPath format in
      convertDocumentMultiple_loop inputPath rest (outputPaths ++ [outputPath])
  end.

Definition convertDocumentMultiple (inputPath : string) (formats : list string)
    : M (list string) :=
  convertDocumentMultiple_loop inputPath formats [].

Definition posix_file (p : string) : string :=
  "POSIX file " +:+ dquote +:+ p +:+ dquote.

Definition clipboard_script (filePaths : list string) : string :=
  "set the clipboard to {" +:+ JS.join ", " (map posix_file filePaths) +:+ "}".

Definition clipboard_command (filePaths : list string) : string :=
  "osascript -e " +:+ squote +:+ clipboard_script filePaths +:+ squote.

Definition copyFilesToClipboard (filePaths : list string) : M unit :=
  execSync (clipboard_command filePaths).

(** The first statement of the [try] block of [handleConvert]: the
    choice between one conversion and one per [+]-separated part. *)
Definition convert (selectedFile outputFormat : string) : M (list string) :=
  if JS.includes "+" outputFormat then
    let formats := JS.split "+" outputFormat in
    convertDocumentMultiple selectedFile formats
  else
    let* outputPath := convertDocument selectedFile outputFormat in
    ret [outputPath].

(** [path.dirname(outputPaths[0])]: [dirname] rejects [undefined]. *)
Definition dirname_of_first (outputPaths : list string) : M string :=
  match outputPaths with
  | p :: _ => ret (NodePath.dirname p)
  | [] =>
      throw (JsError ("The " +:+ dquote +:+ "path" +:+ dquote +:+
                      " argument must be of type string. Received undefined"))
  end.

Definition is_falsy (s : string) : bool :=
  match s with
  | EmptyString => true
  | String _ _ => false
  end.

(** The [try] block of [handleConvert]. *)
Definition handleConvert_try (selectedFile outputFormat : string) : M unit :=
  let* outputPaths := convert selectedFile outputFormat in
  copyFilesToClipboard outputPaths >>
  let fileNames := JS.join ", " (map NodePath.basename outputPaths) in
  toast_assign (fun _ =>
    MkToast Success "Conversion Complete" (fileNames +:+ " (copied to clipboard)")
            (Some (RevealInFinder outputPaths))) >>
  showHUD ("âœ“ Converted: " +:+ fileNames +:+ " (copied)") >>
  let* dir := dirname_of_first outputPaths in
  open dir >>
  popToRoot.

(** The [catch] block of [handleConvert]. *)
Definition handleConvert_catch (error : js_exn) : M unit :=
  toast_assign (fun t =>
    MkToast Failure "Conversion Failed" (exn_message error) (primaryAction t)).

(** [selectedFile] is [string | null]; [None] is [null]. *)
Definition handleConvert (selectedFile : option string) (outputFormat : string) : M unit :=
  match selectedFile with
  | Some file =>
      if is_falsy file || is_falsy outputFormat then
        showToast (MkToast Failure "Missing Selection"
                           "Please select a file and output format" None)
      else
        setIsConverting true >>
        showToast (MkToast Animated "Converting..." (NodePath.basename file) None) >>
        try_finally
          (try_catch (handleConvert_try file outputFormat) handleConvert_catch)
          (with_converting false)
  | None =>
      showToast (MkToast Failure "Missing Selection"
                         "Please select a file and output format" None)
  end.

(** The state kept by the form: [selectedFile] and [outputFormat]. *)
Definition selection : Type := option string * string.

(** [handleFileChange(files)] *)
Definition handleFileChange (files : list string) (sel : selection) : selection :=
  match files with
  | filePath :: _ =>
      if isSupportedFile filePath then
        match getOutputFormats filePath with
        | first :: _ => (Some filePath, first)
        | [] => (Some filePath, snd sel)
        end
      else sel
  | [] => (None, EmptyString)
  end.

End Command.

(** ** Sample runs *)

Module Samples.

Definition doc_bytes : bytes := [Byte.x44; Byte.x4f; Byte.x43].
Definition pdf_bytes : bytes := [Byte.x25; Byte.x50; Byte.x44; Byte.x46].
Definition word_bytes : bytes := [Byte.x50; Byte.x4b].

(** A converter that answers by format and fails on anything else. *)
Definition sample_convert (input : bytes) (format : string) : js_exn + bytes :=
  if String.eqb format ".pdf" then inr pdf_bytes
  else if String.eqb format ".doc" then inr word_bytes
  else if String.eqb format ".docx" then inr word_bytes
  else inl (JsError "conversion failed").

(** Hosts without links: every path names a file of its own. *)
Definition ok_host : host :=
  Host (fun path => path) sample_convert (fun _ => None) (fun _ => None)
       (fun _ => None) (fun _ => None).

Definition start (path : string) : world :=
  World {[ path := doc_bytes ]} [] None false.

(** A host whose converter cannot produce [.doc]. *)
Definition no_doc_convert (input : bytes) (format : string) : js_exn + bytes :=
  if String.eqb format ".doc" then inl (JsError "conversion failed")
  else sample_convert input format.

Definition no_doc_host : host :=
  Host (fun path => path) no_doc_convert (fun _ => None) (fun _ => None)
       (fun _ => None) (fun _ => None).

(** A host on which every shell command fails. *)
Definition no_shell_host : host :=
  Host (fun path => path) sample_convert (fun _ => None) (fun _ => None)
       (fun _ => Some (JsError "Command failed: osascript")) (fun _ => None).

(** A host whose converter takes the sample document and nothing
    else. *)
Definition strict_convert (input : bytes) (format : string) : js_exn + bytes :=
  match input with
  | [Byte.x44; Byte.x4f; Byte.x43] => sample_convert input format
  | _ => inl (JsError "not a document")
  end.

Definition strict_host : host :=
  Host (fun path => path) strict_convert (fun _ => None) (fun _ => None)
       (fun _ => None) (fun _ => None).

(** A host on which [/docs/report.pdf] is a link to [/docs/report.docx]. *)
Definition linked_id (path : string) : string :=
  if String.eqb path "/docs/report.pdf" then "/docs/report.docx" else path.

Definition linked_host : host :=
  Host linked_id strict_convert (fun _ => None) (fun _ => None)
       (fun _ => None) (fun _ => None).

(** A host on which [/docs/folder.docx] is a directory. *)
Definition folder_fault (path : string) : option js_exn :=
  if String.eqb path "/docs/folder.docx"
  then Some (JsError "EISDIR: illegal operation on a directory, read")
  else None.

Definition folder_host : host :=
  Host (fun path => path) sample_convert folder_fault (fun _ => None)
       (fun _ => None) (fun _ => None).

End Samples.

(** ** Notions used to state the properties *)

(** A run of [n] path separators *)
Fixpoint slashes (n : nat) : string :=
  match n with
  | O => EmptyString
  | S k => String "/" (slashes k)
  end.

(** A character that is neither a dot nor a separator *)
Definition plain (c : ascii) : Prop := c <> "."%char /\ c <> "/"%char.

(** A simple specifier: a dot followed by a non-empty extension name,
    free of dots, separators, [$] and the [+] that joins the parts of a
    composite specifier. *)
Definition simple_specifier (fmt : string) : bool :=
  match fmt with
  | String "." name =>
      negb (is_falsy name) && negb (JS.includes "." name) &&
      negb (JS.includes "/" name) && negb (JS.includes "$" name) &&
      negb (JS.includes "+" name)
  | _ => false
  end.

(** The formats of the converter calls of a trace, in call order *)
Fixpoint converter_formats (tr : list event) : list string :=
  match tr with
  | [] => []
  | EvConvert _ format :: rest => format :: converter_formats rest
  | _ :: rest => converter_formats rest
  end.

(** The paths written by a trace, in call order *)
Fixpoint written_paths (tr : list event) : list string :=
  match tr with
  | [] => []
  | EvWriteFile path _ :: rest => path :: written_paths rest
  | _ :: rest => written_paths rest
  end.

(** The calls of a trace that touch the file store or leave for an
    external tool: reads, writes, converter calls and shell commands *)
Definition is_file_or_tool_call (e : event) : bool :=
  match e with
  | EvReadFile _ | EvConvert _ _ | EvWriteFile _ _ | EvExec _ => true
  | _ => false
  end.

(** The world in which the [try] block of [handleConvert] starts *)
Definition started (file : string) (w : world) : world :=
  with_toast (MkToast Animated "Converting..." (NodePath.basename file) None)
    (log (EvShowToast (MkToast Animated "Converting..." (NodePath.basename file) None))
       (with_converting true w)).

(** The toast shown for a missing selection *)
Definition missing_toast : Toast :=
  MkToast Failure "Missing Selection" "Please select a file and output format" None.

(** The toast after the [catch] block ran on [error] *)
Definition failure_toast (error : js_exn) (action : option toast_action) : Toast :=
  MkToast Failure "Conversion Failed" (exn_message error) action.

(** The toast after the assignments that follow the clipboard call *)
Definition success_toast (outputPaths : list string) : Toast :=
  MkToast Success "Conversion Complete"
    (JS.join ", " (map NodePath.basename outputPaths) +:+ " (copied to clipboard)")
    (Some (RevealInFinder outputPaths)).

Definition hud_text (outputPaths : list string) : string :=
  "âœ“ Converted: " +:+ JS.join ", " (map NodePath.basename outputPaths) +:+ " (copied)".

(** Whether a trace holds a call of [open] *)
Definition has_open (tr : list event) : bool :=
  existsb (fun e => match e with EvOpen _ => true | _ => false end) tr.

(** Whether a trace holds a call of [showHUD] *)
Definition has_hud (tr : list event) : bool :=
  existsb (fun e => match e with EvShowHUD _ => true | _ => false end) tr.

(** The last segment of a path: what follows its last separator *)
Fixpoint last_segment (p : string) : string :=
  match p with
  | EmptyString => EmptyString
  | String c rest =>
      if JS.includes "/" rest then last_segment rest
      else if Ascii.eqb c "/" then rest
      else p
  end.

(** The directory portion of a path: what precedes its last segment,
    the last separator included *)
Fixpoint dir_part (p : string) : string :=
  match p with
  | EmptyString => EmptyString
  | String c rest =>
      if JS.includes "/" rest then String c (dir_part rest)
      else if Ascii.eqb c "/" then "/"
      else EmptyString
  end.

(** The parts converted for a specifier: those between the [+] signs
    of a composite specifier, the specifier itself otherwise *)
Definition job_parts (fmt : string) : list string :=
  if JS.includes "+" fmt then JS.split "+" fmt else [fmt].

(** What the converter returns for [data] and [format] when it
    succeeds *)
Definition converted (h : host) (data : bytes) (format : string) : bytes :=
  match libre_convert h data format with
  | inr output => output
  | inl _ => []
  end.

(** The writes of a list of bindings, first to last *)
Fixpoint insert_all (writes : list (string * bytes)) (m : gmap string bytes)
    : gmap string bytes :=
  match writes with
  | [] => m
  | (path, data) :: rest => insert_all rest (<[path := data]> m)
  end.

(** The last binding of a path in a list of writes *)
Fixpoint last_write (writes : list (string * bytes)) (path : string) : option bytes :=
  match writes with
  | [] => None
  | (k, v) :: rest =>
      match last_write rest path with
      | Some v' => Some v'
      | None => if String.eqb k path then Some v else None
      end
  end.

(** The writes of a conversion of [inputPath], read as [data], to the
    formats [formats]: the file each output path names, with its new
    content *)
Definition job_writes (h : host) (inputPath : string) (data : bytes)
    (formats : list string) : list (string * bytes) :=
  map (fun f => (file_id h (JS.replace_ext inputPath f), converted h data f)) formats.

Definition backslash : string := "\".

(** POSIX shell, the body of a single-quoted word: [s] is the text after
    the opening quote; the body runs to the next single quote, no
    character being special before it.  The result is the body and the
    text after the closing quote. *)
Fixpoint sh_single_quoted (s : string) : option (string * string) :=
  match s with
  | EmptyString => None
  | String c rest =>
      if Ascii.eqb c "039" then Some (EmptyString, rest)
      else match sh_single_quoted rest with
           | Some (body, after) => Some (String c body, after)
           | None => None
           end
  end.

(** AppleScript, the character an escape sequence stands for *)
Definition as_unescape (c : ascii) : option ascii :=
  if Ascii.eqb c "\" then Some "\"%char
  else if Ascii.eqb c "034" then Some "034"%char
  else if Ascii.eqb c "n" then Some "010"%char
  else if Ascii.eqb c "r" then Some "013"%char
  else if Ascii.eqb c "t" then Some "009"%char
  else None.

(** AppleScript, a string literal: [s] is the text after the opening
    double quote; the literal runs to the next double quote that is not
    escaped by a backslash.  The result is the value of the literal and
    the text after the closing quote. *)
Fixpoint as_string_literal (s : string) : option (string * string) :=
  match s with
  | EmptyString => None
  | String c rest =>
      if Ascii.eqb c "034" then Some (EmptyString, rest)
      else if Ascii.eqb c "\" then
        match rest with
        | EmptyString => None
        | String d rest' =>
            match as_unescape d, as_string_literal rest' with
            | Some x, Some (value, after) => Some (String x value, after)
            | _, _ => None
            end
        end
      else match as_string_literal rest with
           | Some (value, after) => Some (String c value, after)
           | None => None
           end
  end.

(** A run of [k] backslashes *)
Fixpoint backslashes (k : nat) : string :=
  match k with
  | O => EmptyString
  | S k' => String "\" (backslashes k')
  end.

(** A selection the form can hold legally: no file, or a supported file
    with one of its legal outputs *)
Definition selection_legal (sel : selection) : Prop :=
  match fst sel with
  | Some file => isSupportedFile file = true /\ In (snd sel) (getOutputFormats file)
  | None => True
  end.

(** ** The form of the command *)

(** The state hooks of [Command] other than [isConverting], which the
    world keeps: [isLoading], [selectedFile], [useFilePicker] and
    [outputFormat]. *)
Record form_state : Type := FormState {
  isLoading : bool;
  selectedFile : option string;
  useFilePicker : bool;
  outputFormat : string
}.

(** The initial values given to [useState] *)
Definition initial_form : form_state := FormState true None false EmptyString.

(** What a toast button does when pressed; the closures are not run
    when the toast is shown. *)
Inductive button_effect : Type :=
| CopyThenHUD (text hud : string)
| OpenTarget (target : string).

Record toast_button : Type := ToastButton {
  button_title : string;
  button_onAction : button_effect
}.

(** The options of the toast shown when LibreOffice is missing *)
Record install_toast : Type := InstallToast {
  install_style : toast_style;
  install_title : string;
  install_message : string;
  install_primaryAction : toast_button;
  install_secondaryAction : toast_button
}.

Definition libreoffice_required : install_toast :=
  InstallToast Failure "LibreOffice Required"
    "Install with: brew install --cask libreoffice"
    (ToastButton "Copy Install Command"
       (CopyThenHUD "brew install --cask libreoffice" "Command copied to clipboard!"))
    (ToastButton "Open Homebrew" (OpenTarget "https://brew.sh")).

(** The command as a whole: the world of the host calls, the form, the
    install toast when it was shown, and the number of calls of
    [getSelectedFinderItems]. *)
Record command_state : Type := App {
  ui : world;
  form : form_state;
  installToast : option install_toast;
  finderQueries : nat
}.

(** The [try] block of [initialize], on the paths of the items that
    [getSelectedFinderItems] returned *)
Definition initialize_try (finderItems : list string) (st : form_state) : form_state :=
  let supportedFiles := List.filter isSupportedFile finderItems in
  match supportedFiles with
  | filePath :: _ =>
      match getOutputFormats filePath with
      | first :: _ => FormState (isLoading st) (Some filePath) (useFilePicker st) first
      | [] => FormState (isLoading st) (Some filePath) (useFilePicker st) (outputFormat st)
      end
  | [] => FormState (isLoading st) (selectedFile st) true (outputFormat st)
  end.

(** [initialize()], the effect run on mount.  [finder] is what
    [getSelectedFinderItems] answers: the paths of the selected items, or
    the value it throws. *)
Definition initialize (h : host) (finder : js_exn + list string) (a : command_state)
    : command_state :=
  match isLibreOfficeInstalled h (ui a) with
  | (Return true, w1) =>
      let st1 :=
        match finder with
        | inr finderItems => initialize_try finderItems (form a)
        | inl _ =>
            FormState (isLoading (form a)) (selectedFile (form a)) true
                      (outputFormat (form a))
        end in
      App w1 (FormState false (selectedFile st1) (useFilePicker st1) (outputFormat st1))
          (installToast a) (S (finderQueries a))
  | (Return false, w1) =>
      App (log EvPopToRoot w1) (form a) (Some libreoffice_required) (finderQueries a)
  | (Throw _, w1) => App w1 (form a) (installToast a) (finderQueries a)
  end.

(** [handleFileChange] on the form *)
Definition pickFiles (picked : list string) (st : form_state) : form_state :=
  let sel := handleFileChange picked (selectedFile st, outputFormat st) in
  FormState (isLoading st) (fst sel) (useFilePicker st) (snd sel).

(** [selectedFile ? getOutputFormats(selectedFile) : []] *)
Definition availableFormats (st : form_state) : list string :=
  match selectedFile st with
  | Some file => if is_falsy file then [] else getOutputFormats file
  | None => []
  end.

(** An item of the format dropdown: [key], [value] and [title], the
    title being [FORMAT_LABELS[format]] *)
Record dropdown_item : Type := DropdownItem {
  item_key : string;
  item_value : string;
  item_title : option string
}.

Definition dropdown_items (st : form_state) : list dropdown_item :=
  map (fun format => DropdownItem format format (record_get FORMAT_LABELS format))
      (availableFormats st).

(** [setOutputFormat], the [onChange] of the dropdown *)
Definition setOutputFormat (format : string) (st : form_state) : form_state :=
  FormState (isLoading st) (selectedFile st) (useFilePicker st) format.

(** The states the form can be in: the initial one, and those reached
    by [initialize], by the file picker and by choosing an item of the
    dropdown. *)
Inductive reachable : form_state -> Prop :=
| reach_initial : reachable initial_form
| reach_initialize (h : host) (finder : js_exn + list string) (a : command_state) :
    reachable (form a) -> reachable (form (initialize h finder a))
| reach_pick (picked : list string) (st : form_state) :
    reachable st -> reachable (pickFiles picked st)
| reach_choose (item : dropdown_item) (st : form_state) :
    reachable st -> In item (dropdown_items st) ->
    reachable (setOutputFormat (item_value item) st).

(** The paths read by a trace, in call order *)
Fixpoint read_paths (tr : list event) : list string :=
  match tr with
  | [] => []
  | EvReadFile path :: rest => path :: read_paths rest
  | _ :: rest => read_paths rest
  end.

(** The inputs handed to the converter by a trace, in call order *)
Fixpoint converter_inputs (tr : list event) : list bytes :=
  match tr with
  | [] => []
  | EvConvert input _ :: rest => input :: converter_inputs rest
  | _ :: rest => converter_inputs rest
  end.

(** The shell commands run by a trace, in call order *)
Fixpoint exec_commands (tr : list event) : list string :=
  match tr with
  | [] => []
  | EvExec command :: rest => command :: exec_commands rest
  | _ :: rest => exec_commands rest
  end.

(** The calls a conversion makes: reads, converter calls and writes *)
Definition is_conversion_call (e : event) : bool :=
  match e with
  | EvReadFile _ | EvConvert _ _ | EvWriteFile _ _ => true
  | _ => false
  end.

(** The footprint of converting [inputPath] with output paths among
    [outs], from world [w] to world [w'] with the calls [new]: only
    conversion calls are made, only the input path is read, only paths of
    [outs] are written, every file but those that the paths of [outs]
    name keeps its content, and no file leaves the store. *)
Definition job_effects (h : host) (inputPath : string) (outs : list string)
    (w w' : world) (new : list event) : Prop :=
  trace w' = trace w ++ new /\
  Forall (fun e => is_conversion_call e = true) new /\
  Forall (fun q => q = inputPath) (read_paths new) /\
  Forall (fun q => In q outs) (written_paths new) /\
  (forall id, ~ In id (map (file_id h) outs) -> files w' !! id = files w !! id) /\
  (forall id, is_Some (files w !! id) -> is_Some (files w' !! id)).

(** Whether a path starts with a separator, the [hasRoot] of
    [path.dirname] *)
Definition has_root (path : string) : bool :=
  match path with
  | String c0 _ => NodePath.is_slash c0
  | EmptyString => false
  end.

(** * Properties *)

(** ** Sample evaluations *)

Example extname_samples :
  map NodePath.extname
    ["index.html"; "index.coffee.md"; "index."; "index"; ".index"; ".index.md";
     "/a/b.c/file"; "a.doc/"; ".."; "..."; "..doc"; "/x/.doc"; "/x/Report.DOCX"]
  = [".html"; ".md"; "."; ""; ""; ".md"; ""; ".doc"; ""; "."; ".doc"; ""; ".DOCX"].
Proof. vm_compute. reflexivity. Qed.

Example basename_samples :
  map NodePath.basename ["/foo/bar/baz/asdf/quux.html"; "quux"; "/a/b/"; "/"; ""; "a//"]
  = ["quux.html"; "quux"; "b"; ""; ""; "a"].
Proof. vm_compute. reflexivity. Qed.

Example dirname_samples :
  map NodePath.dirname ["/foo/bar/baz/asdf/quux"; "quux"; "/a/b/"; "/"; ""; "/a"; "a/b"; "//a"]
  = ["/foo/bar/baz/asdf"; "."; "/a"; "/"; "."; "/"; "a"; "//"].
Proof. vm_compute. reflexivity. Qed.

Example replace_samples :
  map (fun p => JS.replace_ext p ".pdf")
    ["report.doc"; "/a/b.c/file"; "noext"; "a.b.docx"; "trailing."; "a.doc/"; ".doc"]
  = ["report.pdf"; "/a/b.pdf"; "noext"; "a.b.pdf"; "trailing."; "a.pdf"; ".pdf"].
Proof. vm_compute. reflexivity. Qed.

Example split_samples :
  map (JS.split "+") [".pdf+.docx"; ".pdf"; ""; "+"; "a++b"]
  = [[".pdf"; ".docx"]; [".pdf"]; [""]; [""; ""]; ["a"; ""; "b"]].
Proof. vm_compute. reflexivity. Qed.

Example run_report_pdf :
  let '(r, w) := handleConvert Samples.ok_host (Some "/docs/report.doc") ".pdf"
                   (Samples.start "/docs/report.doc") in
  r = Return tt /\
  trace w =
    [ EvShowToast (MkToast Animated "Converting..." "report.doc" None);
      EvReadFile "/docs/report.doc";
      EvConvert Samples.doc_bytes ".pdf";
      EvWriteFile "/docs/report.pdf" Samples.pdf_bytes;
      EvExec ("osascript -e " +:+ squote +:+ "set the clipboard to {POSIX file " +:+
              dquote +:+ "/docs/report.pdf" +:+ dquote +:+ "}" +:+ squote);
      EvShowHUD "âœ“ Converted: report.pdf (copied)";
      EvOpen "/docs";
      EvPopToRoot ] /\
  toast w = Some (MkToast Success "Conversion Complete" "report.pdf (copied to clipboard)"
                          (Some (RevealInFinder ["/docs/report.pdf"]))) /\
  isConverting w = false /\
  files w !! "/docs/report.pdf" = Some Samples.pdf_bytes.
Proof. vm_compute. repeat split; reflexivity. Qed.

(** ** Facts about strings *)

#[local] Arguments String.append !s1 s2 : simpl nomatch.
#[local] Arguments Ascii.eqb : simpl never.

Lemma string_app_assoc (a b c : string) : (a +:+ b) +:+ c = a +:+ b +:+ c.
Proof. induction a as [|x a IH]; simpl; [reflexivity | now rewrite IH]. Qed.

Lemma string_app_empty_r (a : string) : a +:+ "" = a.
Proof. induction a as [|x a IH]; simpl; [reflexivity | now rewrite IH]. Qed.

Lemma string_length_app (a b : string) :
  String.length (a +:+ b) = (String.length a + String.length b)%nat.
Proof. induction a as [|x a IH]; simpl; [reflexivity | now rewrite IH]. Qed.

Lemma chars_app (a b : string) : JS.chars (a +:+ b) = JS.chars a ++ JS.chars b.
Proof. induction a as [|x a IH]; simpl; [reflexivity | now f_equal]. Qed.

Lemma chars_length (s : string) : length (JS.chars s) = String.length s.
Proof. induction s as [|x s IH]; simpl; [reflexivity | now f_equal]. Qed.

Lemma substring_whole_prefix (b c : string) :
  substring 0 (String.length b) (b +:+ c) = b.
Proof.
  induction b as [|x b IH]; simpl.
  - now destruct c.
  - now rewrite IH.
Qed.

Lemma substring_middle (a b c : string) :
  substring (String.length a) (String.length b) (a +:+ b +:+ c) = b.
Proof.
  induction a as [|x a IH]; simpl; [apply substring_whole_prefix | exact IH].
Qed.

Lemma slice_middle (a b c : string) :
  JS.slice (a +:+ b +:+ c) (Z.of_nat (String.length a))
           (Z.of_nat (String.length a) + Z.of_nat (String.length b)) = b.
Proof.
  unfold JS.slice. rewrite !string_length_app.
  destruct (Z.ltb_spec (Z.of_nat (String.length a)) 0); [lia|].
  destruct (Z.ltb_spec (Z.of_nat (String.length a) + Z.of_nat (String.length b)) 0); [lia|].
  rewrite !Z.min_l by lia.
  replace (Z.to_nat (Z.of_nat (String.length a))) with (String.length a) by lia.
  replace (Z.to_nat _) with (String.length b) by lia.
  apply substring_middle.
Qed.

Lemma includes_app (c : ascii) (a b : string) :
  JS.includes c (a +:+ b) = JS.includes c a || JS.includes c b.
Proof.
  induction a as [|x a IH]; simpl; [reflexivity|].
  now rewrite IH, orb_assoc.
Qed.

Lemma chars_slashes (n : nat) : JS.chars (slashes n) = repeat "/"%char n.
Proof. induction n as [|n IH]; simpl; [reflexivity | now f_equal]. Qed.

Lemma includes_slashes (c : ascii) (n : nat) :
  c <> "/"%char -> JS.includes c (slashes n) = false.
Proof.
  intros Hc. induction n as [|n IH]; simpl; [reflexivity|].
  rewrite IH, orb_false_r. apply Ascii.eqb_neq. congruence.
Qed.

Lemma of_chars_chars (s : string) : JS.of_chars (JS.chars s) = s.
Proof. apply string_of_list_ascii_of_string. Qed.

Lemma chars_of_chars (l : list ascii) : JS.chars (JS.of_chars l) = l.
Proof. apply list_ascii_of_string_of_list_ascii. Qed.

Lemma of_chars_app (a b : list ascii) :
  JS.of_chars (a ++ b) = JS.of_chars a +:+ JS.of_chars b.
Proof. induction a as [|x a IH]; simpl; [reflexivity | now f_equal]. Qed.

Lemma of_chars_repeat_slash (n : nat) : JS.of_chars (repeat "/"%char n) = slashes n.
Proof. induction n as [|n IH]; simpl; [reflexivity | now f_equal]. Qed.

Lemma includes_false_chars (c : ascii) (l : list ascii) :
  Forall (fun x => x <> c) l -> JS.includes c (JS.of_chars l) = false.
Proof.
  induction 1 as [|x l Hx _ IH]; simpl; [reflexivity|].
  rewrite IH, orb_false_r. now apply Ascii.eqb_neq.
Qed.

(** ** Facts about the extension pattern *)

Lemma tail_class_spec (s : string) :
  JS.tail_class s = true <-> s <> "" /\ JS.includes "." s = false.
Proof.
  induction s as [|x s IH].
  - simpl. split; [discriminate | intros [H _]; congruence].
  - assert (JS.tail_class (String x s) = true <->
            Ascii.eqb x "." = false /\ (s = "" \/ JS.tail_class s = true)) as Hstep.
    { destruct s as [|y s]; simpl; destruct (Ascii.eqb x "."); simpl.
      - split; [discriminate | intros [H _]; discriminate].
      - split; auto.
      - split; [discriminate | intros [H _]; discriminate].
      - split; [intros H; auto | intros [_ [H|H]]; [discriminate | exact H]]. }
    rewrite Hstep, IH. simpl. rewrite orb_false_iff.
    split.
    + intros [Hx [-> | [_ Hs]]]; (split; [discriminate | split; [exact Hx | ]]);
        [reflexivity | exact Hs].
    + intros [_ [Hx Hs]]. split; [exact Hx|].
      destruct s as [|y s]; [left; reflexivity | right; split; [discriminate | exact Hs]].
Qed.

Lemma tail_class_false_of_dot (s : string) :
  JS.includes "." s = true -> JS.tail_class s = false.
Proof.
  intros H. destruct (JS.tail_class s) eqn:E; [|reflexivity].
  apply tail_class_spec in E. destruct E as [_ E]. congruence.
Qed.

Lemma exec_ext_none (s : string) :
  JS.includes "." s = false -> JS.exec_ext s = None.
Proof.
  induction s as [|x s IH]; simpl; [reflexivity|].
  intros H. apply orb_false_iff in H. destruct H as [Hx Hs].
  rewrite Hx. simpl. now rewrite IH.
Qed.

Lemma exec_ext_last_dot (before r : string) :
  r <> "" -> JS.includes "." r = false ->
  JS.exec_ext (before +:+ String "." r) = Some (before, String "." r).
Proof.
  intros Hr Hdot. induction before as [|x before IH].
  - simpl. assert (JS.tail_class r = true) as -> by (apply tail_class_spec; auto).
    reflexivity.
  - simpl. rewrite IH.
    rewrite tail_class_false_of_dot; [now rewrite andb_false_r|].
    rewrite includes_app. simpl. now rewrite orb_true_r.
Qed.

Lemma exec_ext_trailing_dot (before : string) :
  JS.exec_ext (before +:+ String "." "") = None.
Proof.
  induction before as [|x before IH]; simpl; [reflexivity|].
  rewrite IH. rewrite tail_class_false_of_dot; [now rewrite andb_false_r|].
  rewrite includes_app. simpl. now rewrite orb_true_r.
Qed.

Lemma getSubstitution_plain (matched before after replacement : string) :
  JS.includes "$" replacement = false ->
  JS.getSubstitution matched before after replacement = replacement.
Proof.
  induction replacement as [|x r IH]; simpl; [reflexivity|].
  intros H. apply orb_false_iff in H. destruct H as [Hx Hr].
  assert (x <> "$"%char) as Hne by (apply Ascii.eqb_neq; exact Hx).
  rewrite (IH Hr).
  destruct x as [[] [] [] [] [] [] [] []]; try reflexivity.
  congruence.
Qed.

Lemma replace_ext_no_dot (s replacement : string) :
  JS.includes "." s = false -> JS.replace_ext s replacement = s.
Proof. intros H. unfold JS.replace_ext. now rewrite exec_ext_none. Qed.

Lemma replace_ext_last_dot (before r replacement : string) :
  r <> "" -> JS.includes "." r = false ->
  JS.replace_ext (before +:+ String "." r) replacement =
  before +:+ JS.getSubstitution (String "." r) before "" replacement.
Proof.
  intros Hr Hdot. unfold JS.replace_ext. now rewrite exec_ext_last_dot.
Qed.

Lemma replace_ext_plain (before r replacement : string) :
  r <> "" -> JS.includes "." r = false -> JS.includes "$" replacement = false ->
  JS.replace_ext (before +:+ String "." r) replacement = before +:+ replacement.
Proof.
  intros Hr Hdot Hd. rewrite replace_ext_last_dot by assumption.
  now rewrite getSubstitution_plain.
Qed.

(** ** Facts about [path.extname] *)

Module ExtnameFacts.
Import NodePath.

Lemma is_slash_false (c : ascii) : c <> "/"%char -> is_slash c = false.
Proof. intros H. now apply Ascii.eqb_neq. Qed.

Lemma is_dot_false (c : ascii) : c <> "."%char -> is_dot c = false.
Proof. intros H. now apply Ascii.eqb_neq. Qed.

(** Separators at the end of the path are skipped. *)
Lemma loop_trailing_slashes (n : nat) (l : list ascii) (st : ext_state) :
  matchedSlash st = true ->
  extname_loop (repeat "/"%char n ++ l) st = extname_loop l st.
Proof.
  intros Hm. induction n as [|n IH]; [reflexivity|].
  simpl. unfold extname_step. change (is_slash "/") with true.
  now rewrite Hm.
Qed.

(** Plain characters after the end was marked and before any dot
    change nothing. *)
Lemma loop_plain_run (run l : list ascii) (st : ext_state) :
  Forall plain run -> end_ st <> (-1)%Z -> startDot st = (-1)%Z ->
  extname_loop (run ++ l) st = extname_loop l st.
Proof.
  intros Hrun He Hd. induction Hrun as [|c run [Hc1 Hc2] _ IH]; [reflexivity|].
  simpl. unfold extname_step.
  rewrite (is_slash_false c Hc2), (is_dot_false c Hc1).
  destruct (Z.eqb_spec (end_ st) (-1)); [contradiction|].
  rewrite Hd. simpl. exact IH.
Qed.

(** The first plain character marks the end of the last component. *)
Lemma loop_plain_first (c : ascii) (run l : list ascii) :
  plain c -> Forall plain run ->
  extname_loop (c :: run ++ l) ext_init =
  extname_loop l (ExtState (-1) 0 (Z.of_nat (length (run ++ l)) + 1) false 0).
Proof.
  intros [Hc1 Hc2] Hrun. simpl. unfold extname_step.
  rewrite (is_slash_false c Hc2), (is_dot_false c Hc1). simpl.
  apply loop_plain_run; simpl; [assumption | lia | reflexivity].
Qed.

(** Once a dot and the end are marked they stay, and a state that has
    seen a character before the dot keeps saying so. *)
Lemma loop_marked (l : list ascii) (st : ext_state) :
  startDot st <> (-1)%Z -> end_ st <> (-1)%Z ->
  let st' := extname_loop l st in
  startDot st' = startDot st /\ end_ st' = end_ st /\
  (preDotState st <> 0%Z -> preDotState st' <> 0%Z).
Proof.
  revert st. induction l as [|c l IH]; intros st Hd He; simpl; [auto|].
  unfold extname_step.
  destruct (is_slash c).
  - destruct (matchedSlash st); simpl; [apply IH; assumption | auto].
  - destruct (Z.eqb_spec (end_ st) (-1)); [contradiction|].
    destruct (is_dot c).
    + destruct (Z.eqb_spec (startDot st) (-1)); [contradiction|].
      destruct (Z.eqb_spec (preDotState st) 1) as [H1|H1]; simpl.
      * apply IH; assumption.
      * destruct (IH (ExtState (startDot st) (startPart st) (end_ st) (matchedSlash st) 1))
          as (A & B & C); simpl; [assumption | assumption|].
        repeat split; [exact A | exact B | intros _; apply C; simpl; lia].
    + destruct (Z.eqb_spec (startDot st) (-1)); [contradiction|]. simpl.
      destruct (IH (ExtState (startDot st) (startPart st) (end_ st) (matchedSlash st) (-1)))
        as (A & B & C); simpl; [assumption | assumption|].
      repeat split; [exact A | exact B | intros _; apply C; simpl; lia].
Qed.

(** A character other than a separator right before the dot makes
    [preDotState] non-zero for good. *)
Lemma loop_marked_char (c : ascii) (l : list ascii) (st : ext_state) :
  c <> "/"%char -> startDot st <> (-1)%Z -> end_ st <> (-1)%Z ->
  let st' := extname_loop (c :: l) st in
  startDot st' = startDot st /\ end_ st' = end_ st /\ preDotState st' <> 0%Z.
Proof.
  intros Hc Hd He. simpl. unfold extname_step.
  rewrite (is_slash_false c Hc).
  destruct (Z.eqb_spec (end_ st) (-1)); [contradiction|].
  destruct (is_dot c).
  - destruct (Z.eqb_spec (startDot st) (-1)); [contradiction|].
    destruct (Z.eqb_spec (preDotState st) 1) as [H1|H1]; simpl.
    + destruct (loop_marked l st Hd He) as (A & B & C).
      repeat split; [exact A | exact B | apply C; lia].
    + destruct (loop_marked l (ExtState (startDot st) (startPart st) (end_ st)
                                        (matchedSlash st) 1)) as (A & B & C);
        simpl; [assumption | assumption|].
      repeat split; [exact A | exact B | apply C; simpl; lia].
  - destruct (Z.eqb_spec (startDot st) (-1)); [contradiction|]. simpl.
    destruct (loop_marked l (ExtState (startDot st) (startPart st) (end_ st)
                                      (matchedSlash st) (-1))) as (A & B & C);
      simpl; [assumption | assumption|].
    repeat split; [exact A | exact B | apply C; simpl; lia].
Qed.

(** Nothing, or a separator, right before the dot: [preDotState]
    stays zero. *)
Lemma loop_marked_edge (l : list ascii) (st : ext_state) :
  matchedSlash st = false -> preDotState st = 0%Z ->
  l = [] \/ (exists l', l = "/"%char :: l') ->
  preDotState (extname_loop l st) = 0%Z.
Proof.
  intros Hm Hp [-> | [l' ->]]; simpl; [exact Hp|].
  unfold extname_step. change (is_slash "/") with true. rewrite Hm. simpl. exact Hp.
Qed.

(** The scan up to and including the last dot of the last component:
    [run] is what follows that dot, read backwards. *)
Lemma loop_candidate (run l : list ascii) :
  Forall plain run ->
  extname_loop (run ++ "."%char :: l) ext_init =
  extname_loop l (ExtState (Z.of_nat (length l)) 0
                           (Z.of_nat (length l) + 1 + Z.of_nat (length run)) false 0).
Proof.
  intros Hrun. destruct Hrun as [|c run Hc Hrun].
  - simpl. unfold extname_step. simpl. do 2 f_equal. lia.
  - change ((c :: run) ++ "."%char :: l) with (c :: run ++ "."%char :: l).
    rewrite (loop_plain_first c run _ Hc Hrun).
    simpl extname_loop. unfold extname_step. change (is_slash ".") with false.
    change (is_dot ".") with true. simpl.
    destruct (Z.eqb_spec (Z.of_nat (length (run ++ "."%char :: l)) + 1) (-1)); [lia|].
    simpl. do 2 f_equal. rewrite length_app. simpl. lia.
Qed.

(** Splitting a list at its first character that is not plain, and
    at its first character that is not a separator. *)
Lemma span_plain (l : list ascii) :
  exists run rest, l = run ++ rest /\ Forall plain run /\
    (rest = [] \/ exists rest', rest = "."%char :: rest' \/ rest = "/"%char :: rest').
Proof.
  induction l as [|c l (run & rest & -> & Hrun & Hrest)].
  - exists [], []. auto.
  - destruct (ascii_dec c ".") as [->|Hd].
    { exists [], ("."%char :: run ++ rest). split; [reflexivity|]. split; [constructor|].
      right. eexists. left. reflexivity. }
    destruct (ascii_dec c "/") as [->|Hs].
    { exists [], ("/"%char :: run ++ rest). split; [reflexivity|]. split; [constructor|].
      right. eexists. right. reflexivity. }
    exists (c :: run), rest. split; [reflexivity|]. split; [|exact Hrest].
    constructor; [split; assumption | exact Hrun].
Qed.

Lemma span_slashes (l : list ascii) :
  exists n rest, l = repeat "/"%char n ++ rest /\
    (rest = [] \/ exists c rest', rest = c :: rest' /\ c <> "/"%char).
Proof.
  induction l as [|c l (n & rest & -> & Hrest)].
  - exists 0%nat, []. auto.
  - destruct (ascii_dec c "/") as [->|Hs].
    + exists (S n), rest. auto.
    + exists 0%nat, (c :: repeat "/"%char n ++ rest). split; [reflexivity|].
      right. eauto.
Qed.

Lemma plain_of_includes (s : string) :
  JS.includes "." s = false -> JS.includes "/" s = false -> Forall plain (JS.chars s).
Proof.
  induction s as [|x s IH]; simpl; [constructor|].
  intros H1 H2. apply orb_false_iff in H1, H2. destruct H1 as [A1 B1], H2 as [A2 B2].
  constructor; [|auto]. split; apply Ascii.eqb_neq; assumption.
Qed.

Lemma includes_of_plain (l : list ascii) :
  Forall plain l ->
  JS.includes "." (JS.of_chars l) = false /\ JS.includes "/" (JS.of_chars l) = false.
Proof.
  intros H. split; apply includes_false_chars; eapply Forall_impl; try exact H;
    intros a [A B]; assumption.
Qed.

Lemma rev_repeat_slash (n : nat) : rev (repeat "/"%char n) = repeat "/"%char n.
Proof.
  induction n as [|n IH]; [reflexivity|]. simpl. rewrite IH.
  clear IH. induction n as [|n IH]; [reflexivity|]. simpl. now rewrite IH.
Qed.

End ExtnameFacts.

Section ExtnameShapes.
Import NodePath ExtnameFacts.

Lemma extname_empty_false (st : ext_state) :
  startDot st <> (-1)%Z -> end_ st <> (-1)%Z -> preDotState st <> 0%Z ->
  startDot st <> (end_ st - 1)%Z -> extname_empty st = false.
Proof.
  intros H1 H2 H3 H4. unfold extname_empty.
  destruct (Z.eqb_spec (startDot st) (-1)); [contradiction|].
  destruct (Z.eqb_spec (end_ st) (-1)); [contradiction|].
  destruct (Z.eqb_spec (preDotState st) 0); [contradiction|].
  destruct (Z.eqb_spec (startDot st) (end_ st - 1)); [contradiction|].
  now rewrite andb_false_r.
Qed.

Lemma rev_chars_shape (front : string) (run : string) (n : nat) (mid : list ascii) :
  rev (JS.chars front ++ mid ++ JS.chars run ++ repeat "/"%char n) =
  repeat "/"%char n ++ rev (JS.chars run) ++ rev mid ++ rev (JS.chars front).
Proof.
  rewrite !rev_app_distr, rev_repeat_slash. now rewrite <- !app_assoc.
Qed.

(** A last component [..c.r] with [r] non-empty and plain has
    extension [.r], whatever separators follow it. *)
Lemma extname_shape (front : string) (c : ascii) (r : string) (n : nat) :
  c <> "/"%char -> r <> "" ->
  JS.includes "." r = false -> JS.includes "/" r = false ->
  extname (front +:+ String c (String "." (r +:+ slashes n))) = String "." r.
Proof.
  intros Hc Hr Hdot Hslash. unfold extname.
  assert (rev (JS.chars (front +:+ String c (String "." (r +:+ slashes n)))) =
          repeat "/"%char n ++ rev (JS.chars r) ++ "."%char :: c :: rev (JS.chars front))
    as ->.
  { rewrite chars_app. simpl. rewrite chars_app, chars_slashes.
    exact (rev_chars_shape front r n [c; "."%char]). }
  rewrite loop_trailing_slashes by reflexivity.
  rewrite loop_candidate by (apply Forall_rev, plain_of_includes; assumption).
  match goal with |- context [extname_loop (c :: ?l) ?st] =>
    destruct (loop_marked_char c l st Hc) as (A & B & C); [simpl; lia | simpl; lia |];
    change (extname_loop (c :: l) st) with (id (extname_loop (c :: l) st)) in A, B, C |- *;
    set (final := id (extname_loop (c :: l) st)) in *
  end.
  simpl startDot in A. simpl end_ in B.
  assert (0 < String.length r)%nat as Hlen by (destruct r; [congruence | simpl; lia]).
  repeat rewrite length_rev in A. repeat rewrite length_rev in B.
  repeat rewrite chars_length in A. repeat rewrite chars_length in B.
  rewrite extname_empty_false by (try exact C; rewrite ?A, ?B; lia).
  rewrite A, B.
  replace (front +:+ String c (String "." (r +:+ slashes n)))
    with ((front +:+ String c "") +:+ String "." r +:+ slashes n)
    by (rewrite string_app_assoc; reflexivity).
  replace (Z.of_nat (S (String.length front)))
    with (Z.of_nat (String.length (front +:+ String c "")))
    by (rewrite string_length_app; simpl; lia).
  replace (Z.of_nat (String.length (front +:+ String c "")) + 1 + Z.of_nat (String.length r))%Z
    with (Z.of_nat (String.length (front +:+ String c "")) +
          Z.of_nat (String.length (String "." r)))%Z
    by (simpl String.length; lia).
  apply slice_middle.
Qed.

End ExtnameShapes.

Section ExtnameCases.
Import NodePath ExtnameFacts.

Lemma extname_of_empty_state (p : string) :
  extname_empty (extname_loop (rev (JS.chars p)) ext_init) = true -> extname p = "".
Proof. intros H. unfold extname. now rewrite H. Qed.

Lemma extname_empty_no_dot (st : ext_state) :
  startDot st = (-1)%Z -> extname_empty st = true.
Proof. intros H. unfold extname_empty. now rewrite H. Qed.

Lemma extname_empty_pre_zero (st : ext_state) :
  preDotState st = 0%Z -> extname_empty st = true.
Proof.
  intros H. unfold extname_empty. rewrite H. simpl. now rewrite orb_true_r.
Qed.

Lemma string_of_rev_chars (p : string) (l : list ascii) :
  l = rev (JS.chars p) -> p = JS.of_chars (rev l).
Proof. intros ->. now rewrite rev_involutive, of_chars_chars. Qed.

(** Every path falls under one of three cases: no extension, the
    extension [.] of a name ending in a dot, or the shape of
    [extname_shape]. *)
Theorem extname_cases (p : string) :
  extname p = "" \/ extname p = "." \/
  exists front c r n,
    c <> "/"%char /\ r <> "" /\
    JS.includes "." r = false /\ JS.includes "/" r = false /\
    p = front +:+ String c (String "." (r +:+ slashes n)).
Proof.
  remember (rev (JS.chars p)) as l eqn:Hl.
  pose proof (string_of_rev_chars p l Hl) as Hp.
  destruct (span_slashes l) as (n & l1 & El & [-> | (c1 & l1' & -> & Hc1)]).
  { left. apply extname_of_empty_state. rewrite <- Hl, El.
    now rewrite loop_trailing_slashes. }
  destruct (span_plain (c1 :: l1')) as (run & rest & Erun & Hrun & Hrest).
  assert (extname_loop l ext_init = extname_loop (run ++ rest) ext_init) as Hloop.
  { rewrite El, Erun. now apply loop_trailing_slashes. }
  destruct Hrest as [-> | (rest' & [-> | ->])].
  - (* the last component has no dot and starts the path *)
    left. apply extname_of_empty_state. rewrite <- Hl, Hloop.
    destruct Hrun as [|x run Hx Hrun]; [discriminate|].
    change ((x :: run) ++ []) with (x :: run ++ []).
    rewrite loop_plain_first by assumption. reflexivity.
  - (* a dot ends the run of plain characters *)
    rewrite loop_candidate in Hloop by assumption.
    destruct rest' as [|c l'].
    { left. apply extname_of_empty_state. rewrite <- Hl, Hloop.
      apply extname_empty_pre_zero. reflexivity. }
    destruct (ascii_dec c "/") as [->|Hc].
    { left. apply extname_of_empty_state. rewrite <- Hl, Hloop.
      apply extname_empty_pre_zero. reflexivity. }
    assert (p = JS.of_chars (rev l') +:+
                String c (String "." (JS.of_chars (rev run) +:+ slashes n))) as Hshape.
    { rewrite Hp, El, Erun. rewrite !rev_app_distr. simpl.
      rewrite rev_repeat_slash, <- !app_assoc, !of_chars_app. simpl.
      now rewrite of_chars_repeat_slash. }
    destruct run as [|x run].
    + (* the name ends in a dot *)
      unfold extname. rewrite <- Hl, Hloop.
      match goal with |- context [extname_loop (c :: l') ?st] =>
        destruct (loop_marked_char c l' st Hc) as (A & B & _);
          [simpl; lia | simpl; lia |];
        change (extname_loop (c :: l') st) with (id (extname_loop (c :: l') st))
          in A, B |- *;
        set (final := id (extname_loop (c :: l') st)) in *
      end.
      simpl startDot in A. simpl end_ in B.
      destruct (extname_empty final); [now left | right; left].
      rewrite A, B. rewrite Hshape at 1. simpl JS.of_chars.
      replace (Z.of_nat (S (length l')))
        with (Z.of_nat (String.length (JS.of_chars (rev l') +:+ String c ""))).
      2:{ rewrite string_length_app, <- chars_length, chars_of_chars, length_rev.
          simpl. lia. }
      replace (JS.of_chars (rev l') +:+ String c (String "." ("" +:+ slashes n)))
        with ((JS.of_chars (rev l') +:+ String c "") +:+ String "." "" +:+ slashes n)
        by (rewrite string_app_assoc; reflexivity).
      replace (Z.of_nat (String.length (JS.of_chars (rev l') +:+ String c "")) + 1 + Z.of_nat 0)%Z
        with (Z.of_nat (String.length (JS.of_chars (rev l') +:+ String c "")) +
              Z.of_nat (String.length (String "." "")))%Z by (simpl; lia).
      apply slice_middle.
    + (* a proper extension *)
      right. right.
      exists (JS.of_chars (rev l')), c, (JS.of_chars (rev (x :: run))), n.
      destruct (includes_of_plain (rev (x :: run)) (Forall_rev Hrun)) as [I1 I2].
      repeat split; try assumption.
      intros E. apply (f_equal String.length) in E.
      rewrite <- chars_length, chars_of_chars, length_rev in E. discriminate.
  - (* a separator ends the run of plain characters *)
    left. apply extname_of_empty_state. rewrite <- Hl, Hloop.
    destruct Hrun as [|x run Hx Hrun].
    { simpl in Erun. congruence. }
    change ((x :: run) ++ "/"%char :: rest') with (x :: run ++ "/"%char :: rest').
    rewrite loop_plain_first by assumption. reflexivity.
Qed.

End ExtnameCases.

(** ** Facts about [path.basename] *)

Section BasenameFacts.
Import NodePath ExtnameFacts.

Lemma base_trailing_slashes (n : nat) (l : list ascii) (st : base_state) :
  b_matchedSlash st = true ->
  basename_loop (repeat "/"%char n ++ l) st = basename_loop l st.
Proof.
  intros Hm. induction n as [|n IH]; [reflexivity|].
  simpl. unfold basename_step. change (is_slash "/") with true.
  now rewrite Hm.
Qed.

Lemma base_component_rest (run l : list ascii) (st : base_state) :
  Forall (fun c => c <> "/"%char) run -> b_end st <> (-1)%Z ->
  basename_loop (run ++ l) st = basename_loop l st.
Proof.
  intros Hrun He. induction Hrun as [|c run Hc _ IH]; [reflexivity|].
  simpl. unfold basename_step. rewrite (is_slash_false c Hc).
  destruct (Z.eqb_spec (b_end st) (-1)); [contradiction | exact IH].
Qed.

Lemma base_component (c : ascii) (run l : list ascii) :
  c <> "/"%char -> Forall (fun c => c <> "/"%char) run ->
  basename_loop (c :: run ++ l) base_init =
  basename_loop l (BaseState 0 (Z.of_nat (length (run ++ l)) + 1) false).
Proof.
  intros Hc Hrun. simpl. unfold basename_step. rewrite (is_slash_false c Hc). simpl.
  apply base_component_rest; simpl; [assumption | lia].
Qed.

Lemma no_slash_chars (s : string) :
  JS.includes "/" s = false -> Forall (fun c => c <> "/"%char) (JS.chars s).
Proof.
  induction s as [|x s IH]; simpl; [constructor|].
  intros H. apply orb_false_iff in H. destruct H as [A B].
  constructor; [now apply Ascii.eqb_neq | auto].
Qed.

(** The last component of a path, whatever separators follow it. *)
Lemma basename_shape (dir seg : string) (n : nat) :
  seg <> "" -> JS.includes "/" seg = false ->
  dir = "" \/ (exists d, dir = d +:+ "/") ->
  basename (dir +:+ seg +:+ slashes n) = seg.
Proof.
  intros Hseg Hslash Hdir. unfold basename.
  assert (rev (JS.chars (dir +:+ seg +:+ slashes n)) =
          repeat "/"%char n ++ rev (JS.chars seg) ++ rev (JS.chars dir)) as ->.
  { rewrite !chars_app, chars_slashes, !rev_app_distr, rev_repeat_slash.
    now rewrite <- app_assoc. }
  rewrite base_trailing_slashes by reflexivity.
  pose proof (Forall_rev (no_slash_chars seg Hslash)) as Hrun.
  assert (length (rev (JS.chars seg)) = String.length seg) as Hlen
    by (now rewrite length_rev, chars_length).
  destruct (rev (JS.chars seg)) as [|c run] eqn:E.
  { destruct seg; [congruence | discriminate]. }
  inversion Hrun as [|? ? Hc Hrun']; subst.
  change ((c :: run) ++ rev (JS.chars dir)) with (c :: run ++ rev (JS.chars dir)).
  rewrite base_component by assumption.
  assert (Z.of_nat (length (run ++ rev (JS.chars dir))) + 1 =
          Z.of_nat (String.length dir) + Z.of_nat (String.length seg))%Z as Hend.
  { rewrite length_app, length_rev, chars_length. simpl in Hlen. lia. }
  rewrite Hend. clear Hend.
  assert (exists st, basename_loop (rev (JS.chars dir))
                       (BaseState 0 (Z.of_nat (String.length dir) +
                                     Z.of_nat (String.length seg)) false)
                     = st /\ b_start st = Z.of_nat (String.length dir) /\
                     b_end st = (Z.of_nat (String.length dir) +
                                 Z.of_nat (String.length seg))%Z) as (st & -> & Hs & He).
  { destruct Hdir as [-> | [d ->]].
    - eexists. split; [reflexivity|]. simpl. split; reflexivity.
    - rewrite chars_app, rev_app_distr. simpl. unfold basename_step.
      change (is_slash "/") with true. simpl.
      eexists. split; [reflexivity|]. simpl. split; [|reflexivity].
      rewrite string_length_app, length_rev, chars_length. simpl. lia. }
  rewrite Hs, He.
  destruct (Z.eqb_spec (Z.of_nat (String.length dir) + Z.of_nat (String.length seg)) (-1));
    [lia|].
  apply slice_middle.
Qed.

(** Every string splits into a directory part, empty or ending in a
    separator, and a last component without separator. *)
Lemma split_last_component (s : string) :
  exists dir seg, s = dir +:+ seg /\ JS.includes "/" seg = false /\
    (dir = "" \/ exists d, dir = d +:+ "/").
Proof.
  induction s as [|x s (dir & seg & -> & Hseg & Hdir)].
  - exists "", "". auto.
  - destruct Hdir as [-> | [d ->]].
    + destruct (ascii_dec x "/") as [->|Hx].
      * exists "/", seg. split; [reflexivity|]. split; [exact Hseg|].
        right. exists "". reflexivity.
      * exists "", (String x seg). split; [reflexivity|]. split; [|now left].
        simpl. rewrite Hseg, orb_false_r. now apply Ascii.eqb_neq.
    + exists (String x d +:+ "/"), seg. split; [reflexivity|]. split; [exact Hseg|].
      right. exists (String x d). reflexivity.
Qed.

End BasenameFacts.

(** ** The catalog and supported paths *)

Lemma supported_extension (filePath : string) :
  isSupportedFile filePath = true ->
  getExtension filePath = ".doc" \/ getExtension filePath = ".docx".
Proof.
  unfold isSupportedFile, SUPPORTED_FORMATS. cbn [record_get].
  destruct (String.eqb_spec ".doc" (getExtension filePath)); [auto|].
  destruct (String.eqb_spec ".docx" (getExtension filePath)); [auto | discriminate].
Qed.

Lemma getOutputFormats_cases (filePath : string) :
  (getExtension filePath = ".doc" /\ isSupportedFile filePath = true /\
   getOutputFormats filePath = [".pdf"; ".docx"; ".pdf+.docx"]) \/
  (getExtension filePath = ".docx" /\ isSupportedFile filePath = true /\
   getOutputFormats filePath = [".pdf"; ".doc"; ".pdf+.doc"]) \/
  (isSupportedFile filePath = false /\ getOutputFormats filePath = []).
Proof.
  unfold isSupportedFile, getOutputFormats, SUPPORTED_FORMATS. cbn [record_get].
  destruct (String.eqb_spec ".doc" (getExtension filePath)) as [E|N1]; [left; auto|].
  destruct (String.eqb_spec ".docx" (getExtension filePath)) as [E|N2]; [right; left; auto|].
  right. right. auto.
Qed.

(** A supported path ends in a proper extension, possibly followed by
    separators. *)
Lemma supported_shape (filePath : string) :
  isSupportedFile filePath = true ->
  exists front c r n,
    c <> "/"%char /\ r <> "" /\
    JS.includes "." r = false /\ JS.includes "/" r = false /\
    filePath = front +:+ String c (String "." (r +:+ slashes n)) /\
    NodePath.extname filePath = String "." r.
Proof.
  intros Hs.
  destruct (extname_cases filePath) as [E | [E | (front & c & r & n & Hc & Hr & H1 & H2 & Hp)]].
  - unfold isSupportedFile, getExtension in Hs. rewrite E in Hs. discriminate.
  - unfold isSupportedFile, getExtension in Hs. rewrite E in Hs. discriminate.
  - exists front, c, r, n. repeat split; try assumption.
    rewrite Hp. now apply extname_shape.
Qed.

(** The result of [path.extname] is empty or starts with a dot, so a
    catalog lookup by extension never reaches an inherited property. *)
Lemma extname_dot_or_empty (p : string) :
  NodePath.extname p = "" \/ exists r, NodePath.extname p = String "." r.
Proof.
  destruct (extname_cases p) as [E | [E | (front & c & r & n & Hc & Hr & H1 & H2 & Hp)]].
  - now left.
  - right. now exists "".
  - right. exists r. rewrite Hp. now apply extname_shape.
Qed.

(** *** C6 *)

(** C6. For a supported path the legal outputs start with the simple
    specifier [.pdf] (a function of the path alone, hence the same on
    every call); for an unsupported path they are empty; and the parts of
    every composite specifier offered are themselves offered, as simple
    specifiers. *)
Theorem C6_legal_outputs (filePath : string) :
  (if isSupportedFile filePath
   then exists rest, getOutputFormats filePath = ".pdf" :: rest /\
                     JS.includes "+" ".pdf" = false
   else getOutputFormats filePath = []) /\
  (forall spec part : string,
     In spec (getOutputFormats filePath) -> JS.includes "+" spec = true ->
     In part (JS.split "+" spec) ->
     In part (getOutputFormats filePath) /\ JS.includes "+" part = false).
Proof.
  destruct (getOutputFormats_cases filePath) as [(_ & -> & ->) | [(_ & -> & ->) | (-> & ->)]].
  - split; [eexists; split; reflexivity|].
    intros spec part [<- | [<- | [<- | []]]] Hplus; try discriminate Hplus.
    intros [<- | [<- | []]]; split; simpl; auto.
  - split; [eexists; split; reflexivity|].
    intros spec part [<- | [<- | [<- | []]]] Hplus; try discriminate Hplus.
    intros [<- | [<- | []]]; split; simpl; auto.
  - split; [reflexivity|]. intros spec part [].
Qed.

Lemma C6_legal_outputs_witness :
  In ".pdf" (getOutputFormats "/docs/Report.DOCX") /\
  In ".doc" (getOutputFormats "/docs/Report.DOCX") /\
  getOutputFormats "/docs/notes.txt" = [].
Proof.
  split; [|split].
  - apply (proj2 (C6_legal_outputs "/docs/Report.DOCX") ".pdf+.doc" ".pdf");
      vm_compute; auto.
  - apply (proj2 (C6_legal_outputs "/docs/Report.DOCX") ".pdf+.doc" ".doc");
      vm_compute; auto.
  - exact (proj1 (C6_legal_outputs "/docs/notes.txt")).
Defined.

(** Equations between strings up to associativity of append *)
Ltac string_assoc :=
  repeat first [rewrite string_app_assoc | rewrite string_app_empty_r | progress simpl];
  reflexivity.

(** ** Runs of the conversion functions *)

Lemma convertDocument_ok (h : host) (inputPath fmt : string) (w : world) (data out : bytes) :
  read_fault h inputPath = None ->
  files w !! file_id h inputPath = Some data ->
  libre_convert h data fmt = inr out ->
  write_fault h (JS.replace_ext inputPath fmt) = None ->
  convertDocument h inputPath fmt w =
  (Return (JS.replace_ext inputPath fmt),
   store (file_id h (JS.replace_ext inputPath fmt)) out
     (log (EvWriteFile (JS.replace_ext inputPath fmt) out)
        (log (EvConvert data fmt) (log (EvReadFile inputPath) w)))).
Proof.
  intros Hfault Hread Hconv Hwrite.
  unfold convertDocument, bind, readFileSync, convertAsync, writeFileSync, ret.
  rewrite Hfault, Hread, Hconv, Hwrite. reflexivity.
Qed.

Lemma convertDocument_read_fails (h : host) (inputPath fmt : string) (w : world) :
  read_fault h inputPath <> None \/ files w !! file_id h inputPath = None ->
  exists e, convertDocument h inputPath fmt w = (Throw e, log (EvReadFile inputPath) w).
Proof.
  intros Hread. unfold convertDocument, bind, readFileSync.
  destruct (read_fault h inputPath) as [e|]; [eexists; reflexivity|].
  destruct Hread as [Hread | Hread]; [congruence|].
  rewrite Hread. eexists. reflexivity.
Qed.

Lemma convertDocument_convert_fails (h : host) (inputPath fmt : string) (w : world)
    (data : bytes) (e : js_exn) :
  read_fault h inputPath = None ->
  files w !! file_id h inputPath = Some data ->
  libre_convert h data fmt = inl e ->
  convertDocument h inputPath fmt w =
  (Throw e, log (EvConvert data fmt) (log (EvReadFile inputPath) w)).
Proof.
  intros Hfault Hread Hconv. unfold convertDocument, bind, readFileSync, convertAsync.
  rewrite Hfault, Hread, Hconv. reflexivity.
Qed.

Lemma simple_specifier_inv (fmt : string) :
  simple_specifier fmt = true ->
  exists name, fmt = String "." name /\ name <> "" /\
    JS.includes "." name = false /\ JS.includes "/" name = false /\
    JS.includes "$" fmt = false /\ JS.includes "+" fmt = false.
Proof.
  destruct fmt as [|c name]; [discriminate|].
  destruct (ascii_dec c ".") as [->|Hc].
  - simpl. intros H.
    repeat (apply andb_true_iff in H; destruct H as [H ?]).
    exists name. repeat split; try (now apply negb_true_iff).
    destruct name; [discriminate | congruence].
  - intros H. exfalso. revert H.
    destruct c as [[] [] [] [] [] [] [] []]; try discriminate. congruence.
Qed.

(** The output path of a supported input: the front of the path is
    kept and the extension, with any separators after it, gives way to
    the specifier. *)
Lemma replace_ext_supported (front : string) (c : ascii) (r : string) (n : nat) (fmt : string) :
  r <> "" -> JS.includes "." r = false -> JS.includes "$" fmt = false ->
  JS.replace_ext (front +:+ String c (String "." (r +:+ slashes n))) fmt =
  front +:+ String c fmt.
Proof.
  intros Hr Hdot Hfmt.
  replace (front +:+ String c (String "." (r +:+ slashes n)))
    with ((front +:+ String c "") +:+ String "." (r +:+ slashes n))
    by (rewrite string_app_assoc; reflexivity).
  rewrite replace_ext_plain; [now rewrite string_app_assoc | | | exact Hfmt].
  - destruct r; [congruence | discriminate].
  - rewrite includes_app, Hdot. now apply includes_slashes.
Qed.

(** *** C4 *)

(** C4. For a supported input path and a simple specifier, a conversion
    whose read, converter call and write succeed returns exactly one
    output path.  That path keeps everything of the input path before its
    extension and puts the specifier in place of the extension (and of
    the separators a path may carry after it, which [extname] skips), so
    its extension is the specifier and its name without extension is that
    of the input.  The write goes to the file that path names, whatever
    the store held for it. *)
Theorem C4_simple_conversion (h : host) (inputPath fmt : string) (w : world)
    (data out : bytes) :
  isSupportedFile inputPath = true ->
  simple_specifier fmt = true ->
  read_fault h inputPath = None ->
  files w !! file_id h inputPath = Some data ->
  libre_convert h data fmt = inr out ->
  write_fault h (JS.replace_ext inputPath fmt) = None ->
  exists outputPath w',
    convert h inputPath fmt w = (Return [outputPath], w') /\
    (exists front n,
       inputPath = front +:+ NodePath.extname inputPath +:+ slashes n /\
       outputPath = front +:+ fmt) /\
    NodePath.extname outputPath = fmt /\
    (exists stem,
       NodePath.basename inputPath = stem +:+ NodePath.extname inputPath /\
       NodePath.basename outputPath = stem +:+ fmt) /\
    files w' = <[file_id h outputPath := out]> (files w) /\
    trace w' = trace w ++ [EvReadFile inputPath; EvConvert data fmt;
                           EvWriteFile outputPath out].
Proof.
  intros Hsup Hfmt Hfault Hread Hconv Hwrite.
  destruct (supported_shape inputPath Hsup)
    as (front & c & r & n & Hc & Hr & Hdot & Hslash & Hp & Hext).
  destruct (simple_specifier_inv fmt Hfmt)
    as (name & -> & Hname & Hndot & Hnslash & Hdollar & Hplus).
  assert (JS.replace_ext inputPath (String "." name) = front +:+ String c (String "." name))
    as Hout by (rewrite Hp; now apply replace_ext_supported).
  exists (front +:+ String c (String "." name)).
  eexists. split.
  { unfold convert. rewrite Hplus. unfold bind.
    rewrite (convertDocument_ok h inputPath _ w data out Hfault Hread Hconv Hwrite).
    rewrite Hout. reflexivity. }
  split.
  { exists (front +:+ String c ""), n. rewrite Hext. split.
    - rewrite Hp, string_app_assoc. reflexivity.
    - rewrite string_app_assoc. reflexivity. }
  split.
  { replace (String "." name) with (String "." (name +:+ slashes 0))
      by (simpl; now rewrite string_app_empty_r).
    rewrite extname_shape by assumption.
    simpl. now rewrite string_app_empty_r. }
  split.
  { destruct (split_last_component front) as (dir & seg & -> & Hseg & Hdir).
    exists (seg +:+ String c ""). rewrite Hext. split.
    - rewrite Hp.
      replace ((dir +:+ seg) +:+ String c (String "." (r +:+ slashes n)))
        with (dir +:+ (seg +:+ String c (String "." r)) +:+ slashes n)
        by string_assoc.
      rewrite basename_shape; [now rewrite string_app_assoc | | | exact Hdir].
      + destruct seg; discriminate.
      + rewrite includes_app, Hseg. simpl. rewrite Hslash, orb_false_r.
        now apply Ascii.eqb_neq.
    - replace ((dir +:+ seg) +:+ String c (String "." name))
        with (dir +:+ (seg +:+ String c (String "." name)) +:+ slashes 0)
        by string_assoc.
      rewrite basename_shape; [now rewrite string_app_assoc | | | exact Hdir].
      + destruct seg; discriminate.
      + rewrite includes_app, Hseg. simpl. rewrite Hnslash, orb_false_r.
        now apply Ascii.eqb_neq. }
  split; [reflexivity|]. simpl. now rewrite <- !app_assoc.
Qed.

Lemma C4_simple_conversion_witness :
  exists outputPath w',
    convert Samples.ok_host "/docs/report.doc" ".pdf" (Samples.start "/docs/report.doc")
      = (Return [outputPath], w') /\
    outputPath = "/docs/report.pdf" /\
    NodePath.extname outputPath = ".pdf" /\
    files w' !! outputPath = Some Samples.pdf_bytes.
Proof.
  destruct (C4_simple_conversion Samples.ok_host "/docs/report.doc" ".pdf"
              (Samples.start "/docs/report.doc") Samples.doc_bytes Samples.pdf_bytes)
    as (outputPath & w' & Hrun & _ & Hext & _ & Hfiles & _);
    try (vm_compute; reflexivity).
  exists outputPath, w'. split; [exact Hrun|].
  assert (outputPath = "/docs/report.pdf") as Hp.
  { vm_compute in Hrun. congruence. }
  split; [exact Hp|]. split; [exact Hext|].
  rewrite Hfiles. apply lookup_insert_eq.
Defined.

(** ** Composite conversions *)

Lemma converter_formats_app (a b : list event) :
  converter_formats (a ++ b) = converter_formats a ++ converter_formats b.
Proof.
  induction a as [|e a IH]; [reflexivity|].
  destruct e; simpl; rewrite IH; reflexivity.
Qed.

Lemma written_paths_app (a b : list event) :
  written_paths (a ++ b) = written_paths a ++ written_paths b.
Proof.
  induction a as [|e a IH]; [reflexivity|].
  destruct e; simpl; rewrite IH; reflexivity.
Qed.

(** One call of the gateway: what it appends to the trace and what it
    returns. *)
Lemma convertDocument_trace (h : host) (inputPath fmt : string) (w : world) :
  exists new,
    trace (snd (convertDocument h inputPath fmt w)) = trace w ++ new /\
    match fst (convertDocument h inputPath fmt w) with
    | Return outputPath =>
        outputPath = JS.replace_ext inputPath fmt /\
        converter_formats new = [fmt] /\ written_paths new = [outputPath]
    | Throw _ =>
        (converter_formats new = [] \/ converter_formats new = [fmt]) /\
        (written_paths new = [] \/ written_paths new = [JS.replace_ext inputPath fmt])
    end.
Proof.
  unfold convertDocument, bind, readFileSync, convertAsync, writeFileSync, ret.
  destruct (read_fault h inputPath) as [e|].
  { exists [EvReadFile inputPath]. simpl. auto. }
  destruct (files w !! file_id h inputPath) as [data|].
  - destruct (libre_convert h data fmt) as [e|out].
    + exists [EvReadFile inputPath; EvConvert data fmt]. simpl.
      rewrite <- app_assoc. auto.
    + destruct (write_fault h (JS.replace_ext inputPath fmt)) as [e|].
      * exists [EvReadFile inputPath; EvConvert data fmt;
                EvWriteFile (JS.replace_ext inputPath fmt) out]. simpl.
        rewrite <- !app_assoc. auto.
      * exists [EvReadFile inputPath; EvConvert data fmt;
                EvWriteFile (JS.replace_ext inputPath fmt) out]. simpl.
        rewrite <- !app_assoc. auto.
  - exists [EvReadFile inputPath]. simpl. auto.
Qed.

(** The loop: on return every format was converted once, in order, and
    the paths were pushed in that order; on a throw the calls made are
    those of the formats up to the failing one. *)
Lemma convertDocumentMultiple_loop_trace (h : host) (inputPath : string)
    (formats acc : list string) (w : world) :
  exists new,
    trace (snd (convertDocumentMultiple_loop h inputPath formats acc w)) = trace w ++ new /\
    match fst (convertDocumentMultiple_loop h inputPath formats acc w) with
    | Return outputPaths =>
        outputPaths = acc ++ map (JS.replace_ext inputPath) formats /\
        converter_formats new = formats /\
        written_paths new = map (JS.replace_ext inputPath) formats
    | Throw _ =>
        exists k, (k < length formats)%nat /\
          (converter_formats new = take k formats \/
           converter_formats new = take (S k) formats)
    end.
Proof.
  revert acc w. induction formats as [|f formats IH]; intros acc w.
  - exists []. simpl. rewrite !app_nil_r. auto.
  - simpl. unfold bind.
    destruct (convertDocument_trace h inputPath f w) as (new1 & Ht1 & Hr1).
    destruct (convertDocument h inputPath f w) as [[outputPath|e] w1]; simpl in Ht1, Hr1.
    + destruct Hr1 as (-> & Hc1 & Hw1).
      destruct (IH (acc ++ [JS.replace_ext inputPath f]) w1) as (new2 & Ht2 & Hr2).
      exists (new1 ++ new2). split.
      { rewrite Ht2, Ht1. now rewrite app_assoc. }
      destruct (fst (convertDocumentMultiple_loop h inputPath formats
                       (acc ++ [JS.replace_ext inputPath f]) w1)) as [paths|e].
      * destruct Hr2 as (-> & Hc2 & Hw2).
        rewrite converter_formats_app, written_paths_app, Hc1, Hc2, Hw1, Hw2.
        rewrite <- app_assoc. auto.
      * destruct Hr2 as (k & Hk & Hc2). exists (S k). split; [lia|].
        rewrite converter_formats_app, Hc1. simpl.
        destruct Hc2 as [-> | ->]; auto.
    + exists new1. split; [exact Ht1|]. simpl.
      exists 0%nat. split; [lia|]. simpl. destruct Hr1 as [[-> | ->] _]; auto.
Qed.

(** *** C5 *)

(** C5. For a composite specifier, [convert] makes its converter calls
    for the parts of the specifier in their declared order, one call
    each, and returns the output paths in that same order; written paths
    follow the same order.  When a step throws, the calls made are those
    of the parts up to the failing one. *)
Theorem C5_composite_order (h : host) (inputPath outputFormat : string) (w : world) :
  JS.includes "+" outputFormat = true ->
  let formats := JS.split "+" outputFormat in
  exists new,
    trace (snd (convert h inputPath outputFormat w)) = trace w ++ new /\
    match fst (convert h inputPath outputFormat w) with
    | Return outputPaths =>
        outputPaths = map (JS.replace_ext inputPath) formats /\
        converter_formats new = formats /\
        written_paths new = outputPaths
    | Throw _ =>
        exists k, (k < length formats)%nat /\
          (converter_formats new = take k formats \/
           converter_formats new = take (S k) formats)
    end.
Proof.
  intros Hplus formats. unfold convert. rewrite Hplus. fold formats.
  unfold convertDocumentMultiple.
  destruct (convertDocumentMultiple_loop_trace h inputPath formats [] w) as (new & Ht & Hr).
  exists new. split; [exact Ht|].
  destruct (fst (convertDocumentMultiple_loop h inputPath formats [] w)); [|exact Hr].
  destruct Hr as (-> & Hc & Hw). simpl. auto.
Qed.

Lemma C5_composite_order_witness :
  fst (convert Samples.ok_host "/docs/report.docx" ".pdf+.doc"
         (Samples.start "/docs/report.docx"))
  = Return ["/docs/report.pdf"; "/docs/report.doc"] /\
  exists new,
    trace (snd (convert Samples.ok_host "/docs/report.docx" ".pdf+.doc"
                  (Samples.start "/docs/report.docx"))) = [] ++ new /\
    converter_formats new = [".pdf"; ".doc"].
Proof.
  split; [vm_compute; reflexivity|].
  destruct (C5_composite_order Samples.ok_host "/docs/report.docx" ".pdf+.doc"
              (Samples.start "/docs/report.docx")) as (new & Ht & Hr);
    [vm_compute; reflexivity|].
  exists new. split; [exact Ht|].
  replace (fst (convert Samples.ok_host "/docs/report.docx" ".pdf+.doc"
                  (Samples.start "/docs/report.docx")))
    with (@Return (list string) ["/docs/report.pdf"; "/docs/report.doc"]) in Hr
    by (vm_compute; reflexivity).
  destruct Hr as (_ & Hc & _). exact Hc.
Defined.

(** *** C7 *)

(** C7. The availability probe never throws: it returns [true] when the
    probing command succeeds and [false] when the command throws,
    whatever is thrown. *)
Theorem C7_probe_total (h : host) (w : world) :
  isLibreOfficeInstalled h w =
  (Return (match exec_fault h probe_command with None => true | Some _ => false end),
   log (EvExec probe_command) w).
Proof.
  unfold isLibreOfficeInstalled, try_catch, bind, execSync, ret.
  destruct (exec_fault h probe_command); reflexivity.
Qed.

(** ** Runs of [handleConvert] *)

Lemma convertDocument_frame (h : host) (inputPath fmt : string) (w : world) :
  toast (snd (convertDocument h inputPath fmt w)) = toast w /\
  isConverting (snd (convertDocument h inputPath fmt w)) = isConverting w.
Proof.
  unfold convertDocument, bind, readFileSync, convertAsync, writeFileSync, ret.
  destruct (read_fault h inputPath); [auto|].
  destruct (files w !! file_id h inputPath) as [data|]; [|auto].
  destruct (libre_convert h data fmt) as [e|out]; [auto|].
  destruct (write_fault h (JS.replace_ext inputPath fmt)); auto.
Qed.

Lemma convertDocumentMultiple_loop_frame (h : host) (inputPath : string)
    (formats acc : list string) (w : world) :
  toast (snd (convertDocumentMultiple_loop h inputPath formats acc w)) = toast w /\
  isConverting (snd (convertDocumentMultiple_loop h inputPath formats acc w)) = isConverting w.
Proof.
  revert acc w. induction formats as [|f formats IH]; intros acc w; [auto|].
  simpl. unfold bind.
  destruct (convertDocument_frame h inputPath f w) as [Ht Hc].
  destruct (convertDocument h inputPath f w) as [[outputPath|e] w1]; simpl in Ht, Hc; [|auto].
  destruct (IH (acc ++ [outputPath]) w1) as [Ht' Hc'].
  rewrite Ht', Hc'. auto.
Qed.

Lemma convert_frame (h : host) (file fmt : string) (w : world) :
  toast (snd (convert h file fmt w)) = toast w /\
  isConverting (snd (convert h file fmt w)) = isConverting w.
Proof.
  unfold convert. destruct (JS.includes "+" fmt).
  - apply convertDocumentMultiple_loop_frame.
  - unfold bind, ret.
    destruct (convertDocument_frame h file fmt w) as [Ht Hc].
    destruct (convertDocument h file fmt w) as [[outputPath|e] w1]; auto.
Qed.

Lemma split_nonempty (sep : ascii) (s : string) : JS.split sep s <> [].
Proof.
  destruct s as [|c s]; simpl; [discriminate|].
  destruct (Ascii.eqb c sep); [discriminate|].
  destruct (JS.split sep s); discriminate.
Qed.

(** A conversion that returns has produced at least one path. *)
Lemma convert_returns_nonempty (h : host) (file fmt : string) (w w1 : world)
    (paths : list string) :
  convert h file fmt w = (Return paths, w1) -> paths <> [].
Proof.
  unfold convert. destruct (JS.includes "+" fmt).
  - intros Hrun.
    destruct (convertDocumentMultiple_loop_trace h file (JS.split "+" fmt) [] w)
      as (new & _ & Hr).
    unfold convertDocumentMultiple in Hrun. rewrite Hrun in Hr. simpl in Hr.
    destruct Hr as (-> & _ & _).
    pose proof (split_nonempty "+" fmt) as Hne.
    destruct (JS.split "+" fmt); [congruence | discriminate].
  - unfold bind, ret. destruct (convertDocument h file fmt w) as [[outputPath|e] w1'].
    + intros [= <- _]. discriminate.
    + discriminate.
Qed.

(** Every conversion starts by reading the selected file. *)
Lemma convert_reads_first (h : host) (file fmt : string) (w : world) :
  exists rest, trace (snd (convert h file fmt w)) = trace w ++ EvReadFile file :: rest.
Proof.
  assert (forall f, exists rest,
            trace (snd (convertDocument h file f w)) = trace w ++ EvReadFile file :: rest)
    as Hone.
  { intros f. unfold convertDocument, bind, readFileSync, convertAsync, writeFileSync, ret.
    destruct (read_fault h file); [exists []; reflexivity|].
    destruct (files w !! file_id h file) as [data|]; [|exists []; reflexivity].
    destruct (libre_convert h data f) as [e|out].
    { eexists. simpl. rewrite <- app_assoc. reflexivity. }
    destruct (write_fault h (JS.replace_ext file f));
      eexists; simpl; rewrite <- !app_assoc; reflexivity. }
  unfold convert. destruct (JS.includes "+" fmt).
  - pose proof (split_nonempty "+" fmt) as Hne.
    destruct (JS.split "+" fmt) as [|f formats]; [congruence|].
    unfold convertDocumentMultiple. simpl. unfold bind.
    destruct (Hone f) as (rest & Hrest).
    destruct (convertDocument h file f w) as [[outputPath|e] w1]; simpl in Hrest.
    + destruct (convertDocumentMultiple_loop_trace h file formats [outputPath] w1)
        as (new & Ht & _).
      exists (rest ++ new). rewrite Ht, Hrest, <- app_assoc. reflexivity.
    + exists rest. exact Hrest.
  - unfold bind, ret. destruct (Hone fmt) as (rest & Hrest).
    destruct (convertDocument h file fmt w) as [[outputPath|e] w1]; exists rest; exact Hrest.
Qed.

(** [handleConvert] past the guard: the [try] block runs in the world
    with the animated toast on screen, and [isConverting] is reset. *)
Lemma handleConvert_selected (h : host) (file fmt : string) (w : world) :
  is_falsy file = false -> is_falsy fmt = false ->
  handleConvert h (Some file) fmt w =
  (let (r, w') := try_catch (handleConvert_try h file fmt) handleConvert_catch
                    (started file w) in
   (r, with_converting false w')).
Proof.
  intros Hfile Hfmt. unfold handleConvert. rewrite Hfile, Hfmt. reflexivity.
Qed.

(** The conversion throws: the [catch] block turns the toast into the
    failure toast and nothing else is called. *)
Lemma handleConvert_convert_throws (h : host) (file fmt : string) (w w1 : world)
    (e : js_exn) :
  is_falsy file = false -> is_falsy fmt = false ->
  convert h file fmt (started file w) = (Throw e, w1) ->
  handleConvert h (Some file) fmt w =
  (Return tt, with_converting false (with_toast (failure_toast e None) w1)).
Proof.
  intros Hfile Hfmt Hrun. rewrite handleConvert_selected by assumption.
  pose proof (convert_frame h file fmt (started file w)) as [Ht _].
  rewrite Hrun in Ht. simpl in Ht.
  unfold try_catch, handleConvert_try, bind. rewrite Hrun.
  unfold handleConvert_catch, toast_assign. rewrite Ht. reflexivity.
Qed.

(** The conversion returns: what follows is decided by the clipboard
    command and then by [open]. *)
Lemma handleConvert_convert_returns (h : host) (file fmt : string) (w w1 : world)
    (p : string) (paths : list string) :
  is_falsy file = false -> is_falsy fmt = false ->
  convert h file fmt (started file w) = (Return (p :: paths), w1) ->
  handleConvert h (Some file) fmt w =
  (Return tt,
   with_converting false
     (match exec_fault h (clipboard_command (p :: paths)) with
      | Some e =>
          with_toast (failure_toast e None)
            (log (EvExec (clipboard_command (p :: paths))) w1)
      | None =>
          let w2 := log (EvOpen (NodePath.dirname p))
                      (log (EvShowHUD (hud_text (p :: paths)))
                         (with_toast (success_toast (p :: paths))
                            (log (EvExec (clipboard_command (p :: paths))) w1))) in
          match open_fault h (NodePath.dirname p) with
          | Some e =>
              with_toast (failure_toast e (Some (RevealInFinder (p :: paths)))) w2
          | None => log EvPopToRoot w2
          end
      end)).
Proof.
  intros Hfile Hfmt Hrun. rewrite handleConvert_selected by assumption.
  pose proof (convert_frame h file fmt (started file w)) as [Ht _].
  rewrite Hrun in Ht. simpl in Ht.
  unfold try_catch, handleConvert_try, bind. rewrite Hrun.
  unfold copyFilesToClipboard, execSync.
  destruct (exec_fault h (clipboard_command (p :: paths))) as [e|].
  - unfold handleConvert_catch, toast_assign. simpl. rewrite Ht. reflexivity.
  - unfold toast_assign at 1. simpl toast. rewrite Ht.
    unfold showHUD, dirname_of_first, ret, open, popToRoot.
    destruct (open_fault h (NodePath.dirname p)) as [e|]; reflexivity.
Qed.

(** The file picker keeps the selection legal: only supported files
    are taken, each with the first of its legal outputs. *)
Lemma handleFileChange_legal (picked : list string) (sel : selection) :
  selection_legal sel -> selection_legal (handleFileChange picked sel).
Proof.
  intros Hsel. unfold handleFileChange.
  destruct picked as [|filePath picked]; [exact I|].
  destruct (isSupportedFile filePath) eqn:Hsup; [|exact Hsel].
  destruct (getOutputFormats_cases filePath)
    as [(_ & _ & Hf) | [(_ & _ & Hf) | (Hno & _)]]; [| | congruence];
    rewrite Hf; unfold selection_legal; simpl; rewrite Hf; split; auto; now left.
Qed.

(** *** C1 *)

(** C1, as stated, fails: a job on an unsupported extension is run like
    any other.  The file is read, converted and written, the clipboard
    command is run, and the conversion is reported as complete; a
    specifier outside the legal outputs likewise reaches the converter. *)
Lemma C1_counterexample :
  isSupportedFile "/docs/notes.txt" = false /\
  getOutputFormats "/docs/notes.txt" = [] /\
  (let w' := snd (handleConvert Samples.ok_host (Some "/docs/notes.txt") ".pdf"
                    (Samples.start "/docs/notes.txt")) in
   filter is_file_or_tool_call (trace w') =
     [ EvReadFile "/docs/notes.txt";
       EvConvert Samples.doc_bytes ".pdf";
       EvWriteFile "/docs/notes.pdf" Samples.pdf_bytes;
       EvExec (clipboard_command ["/docs/notes.pdf"]) ] /\
   toast w' = Some (success_toast ["/docs/notes.pdf"])) /\
  (let w' := snd (handleConvert Samples.ok_host (Some "/docs/report.doc") ".txt"
                    (Samples.start "/docs/report.doc")) in
   isSupportedFile "/docs/report.doc" = true /\
   ~ In ".txt" (getOutputFormats "/docs/report.doc") /\
   filter is_file_or_tool_call (trace w') =
     [ EvReadFile "/docs/report.doc"; EvConvert Samples.doc_bytes ".txt" ]).
Proof.
  split; [vm_compute; reflexivity|].
  split; [vm_compute; reflexivity|].
  split; [vm_compute; split; reflexivity|].
  split; [vm_compute; reflexivity|].
  split; [|vm_compute; reflexivity].
  vm_compute. intros [H | [H | [H | []]]]; discriminate H.
Qed.

(** C1, amended.  [handleConvert] rejects a job only when the selected
    file or the output format is missing: it then shows the "Missing
    Selection" toast and makes no call on the file store, the converter
    or the shell.  Any other job, legal or not, is started, and the first
    call after the progress toast is the read of the selected file. *)
Theorem C1_rejects_missing_selection_only (h : host) (selectedFile : option string)
    (outputFormat : string) (w : world) :
  let run := handleConvert h selectedFile outputFormat w in
  let rejected :=
    run = (Return tt, with_toast missing_toast (log (EvShowToast missing_toast) w)) /\
    files (snd run) = files w /\
    exists new, trace (snd run) = trace w ++ new /\ filter is_file_or_tool_call new = [] in
  match selectedFile with
  | Some file =>
      if is_falsy file || is_falsy outputFormat then rejected
      else
        fst run = Return tt /\
        exists rest,
          trace (snd run) =
          trace w ++
          EvShowToast (MkToast Animated "Converting..." (NodePath.basename file) None)
          :: EvReadFile file :: rest
  | None => rejected
  end.
Proof.
  assert (forall t r, r = (Return tt, with_toast t (log (EvShowToast t) w)) ->
            r = (Return tt, with_toast t (log (EvShowToast t) w)) /\
            files (snd r) = files w /\
            exists new, trace (snd r) = trace w ++ new /\
                        filter is_file_or_tool_call new = []) as Hrej.
  { intros t r ->. split; [reflexivity|]. split; [reflexivity|].
    exists [EvShowToast t]. split; reflexivity. }
  destruct selectedFile as [file|]; cbv zeta; [|apply Hrej; reflexivity].
  destruct (is_falsy file) eqn:Hfile.
  { simpl. apply Hrej. unfold handleConvert. now rewrite Hfile. }
  destruct (is_falsy outputFormat) eqn:Hfmt.
  { simpl. apply Hrej. unfold handleConvert. now rewrite Hfile, Hfmt. }
  simpl orb. cbv iota.
  destruct (convert_reads_first h file outputFormat (started file w)) as (rest & Hrest).
  destruct (convert h file outputFormat (started file w)) as [[paths|e] w1] eqn:Hrun;
    simpl in Hrest.
  - pose proof (convert_returns_nonempty h file outputFormat _ _ _ Hrun) as Hne.
    destruct paths as [|p paths]; [congruence|].
    rewrite (handleConvert_convert_returns h file outputFormat w w1 p paths Hfile Hfmt Hrun).
    split; [reflexivity|].
    destruct (exec_fault h (clipboard_command (p :: paths))).
    + eexists. simpl. rewrite Hrest, <- !app_assoc. simpl. reflexivity.
    + destruct (open_fault h (NodePath.dirname p));
        eexists; simpl; rewrite Hrest, <- !app_assoc; simpl; reflexivity.
  - rewrite (handleConvert_convert_throws h file outputFormat w w1 e Hfile Hfmt Hrun).
    split; [reflexivity|].
    exists rest. simpl. rewrite Hrest, <- app_assoc. reflexivity.
Qed.

(** *** C2 *)

(** C2, as stated, fails: when the converter fails on the second part
    of a composite specifier, after the first output was written, what
    the user is told is the converter's message alone.  Neither the
    toast nor any HUD names the file already produced, though it is in
    the store. *)
Lemma C2_counterexample :
  let run := handleConvert Samples.no_doc_host (Some "/docs/report.docx") ".pdf+.doc"
               (Samples.start "/docs/report.docx") in
  JS.split "+" ".pdf+.doc" = [".pdf"; ".doc"] /\
  files (snd run) !! "/docs/report.pdf" = Some Samples.pdf_bytes /\
  toast (snd run) = Some (MkToast Failure "Conversion Failed" "conversion failed" None) /\
  JS.contains "report.pdf" "Conversion Failed" = false /\
  JS.contains "report.pdf" "conversion failed" = false /\
  has_hud (trace (snd run)) = false /\
  fst (convert Samples.no_doc_host "/docs/report.docx" ".pdf+.doc"
         (Samples.start "/docs/report.docx")) = Throw (JsError "conversion failed").
Proof. vm_compute. repeat split; reflexivity. Qed.

(** C2, amended.  For a composite specifier [f1+f2], when the converter
    call for [f2] fails after the conversion for [f1] succeeded, the
    operation stops at once: nothing is written for [f2], and neither
    the clipboard command nor [open] is called.  The output of [f1] stays
    in the store.  The failure shown is the toast "Conversion Failed"
    with the message of the converter's error, and the value thrown by
    [convert] is that error; no output path is reported. *)
Theorem C2_stops_and_reports_error_only (h : host) (file fmt f1 f2 : string) (w : world)
    (data out1 data2 : bytes) (e : js_exn) :
  is_falsy file = false ->
  JS.includes "+" fmt = true ->
  JS.split "+" fmt = [f1; f2] ->
  read_fault h file = None ->
  files w !! file_id h file = Some data ->
  libre_convert h data f1 = inr out1 ->
  write_fault h (JS.replace_ext file f1) = None ->
  <[file_id h (JS.replace_ext file f1) := out1]> (files w) !! file_id h file = Some data2 ->
  libre_convert h data2 f2 = inl e ->
  let path1 := JS.replace_ext file f1 in
  let run := handleConvert h (Some file) fmt w in
  fst (convert h file fmt (started file w)) = Throw e /\
  fst run = Return tt /\
  trace (snd run) =
    trace w ++
    [ EvShowToast (MkToast Animated "Converting..." (NodePath.basename file) None);
      EvReadFile file; EvConvert data f1; EvWriteFile path1 out1;
      EvReadFile file; EvConvert data2 f2 ] /\
  files (snd run) = <[file_id h path1 := out1]> (files w) /\
  toast (snd run) = Some (failure_toast e None) /\
  isConverting (snd run) = false.
Proof.
  intros Hfile Hplus Hsplit Hfault Hread Hconv1 Hwrite Hread2 Hconv2 path1 run.
  assert (is_falsy fmt = false) as Hfmt by (destruct fmt; [discriminate | reflexivity]).
  assert (exists w1, convert h file fmt (started file w) = (Throw e, w1) /\
            trace w1 = trace (started file w) ++
                       [EvReadFile file; EvConvert data f1; EvWriteFile path1 out1;
                        EvReadFile file; EvConvert data2 f2] /\
            files w1 = <[file_id h path1 := out1]> (files w))
    as (w1 & Hrun & Htrace & Hfiles).
  { unfold convert. rewrite Hplus, Hsplit. unfold convertDocumentMultiple. simpl.
    unfold bind at 1.
    rewrite (convertDocument_ok h file f1 (started file w) data out1 Hfault Hread Hconv1
               Hwrite).
    unfold bind.
    erewrite convertDocument_convert_fails; [| exact Hfault | exact Hread2 | exact Hconv2].
    eexists. split; [reflexivity|]. split; [|reflexivity].
    simpl. rewrite <- !app_assoc. reflexivity. }
  subst run. rewrite Hrun.
  rewrite (handleConvert_convert_throws h file fmt w w1 e Hfile Hfmt Hrun).
  simpl. rewrite Htrace, Hfiles. simpl. rewrite <- !app_assoc.
  repeat split; reflexivity.
Qed.

Lemma C2_stops_and_reports_error_only_witness :
  let run := handleConvert Samples.no_doc_host (Some "/docs/report.docx") ".pdf+.doc"
               (Samples.start "/docs/report.docx") in
  fst run = Return tt /\
  files (snd run) =
    <[JS.replace_ext "/docs/report.docx" ".pdf" := Samples.pdf_bytes]>
      (files (Samples.start "/docs/report.docx")) /\
  toast (snd run) = Some (failure_toast (JsError "conversion failed") None).
Proof.
  destruct (C2_stops_and_reports_error_only Samples.no_doc_host
              "/docs/report.docx" ".pdf+.doc" ".pdf" ".doc"
              (Samples.start "/docs/report.docx")
              Samples.doc_bytes Samples.pdf_bytes Samples.doc_bytes
              (JsError "conversion failed"))
    as (_ & Hr & _ & Hf & Ht & _); try (vm_compute; reflexivity).
  cbv zeta. auto.
Defined.

(** *** C3 *)

(** C3, as stated, fails: when the clipboard command fails after a
    successful conversion, [open] is never called and the toast reports
    "Conversion Failed", although the output is in the store. *)
Lemma C3_counterexample :
  let run := handleConvert Samples.no_shell_host (Some "/docs/report.doc") ".pdf"
               (Samples.start "/docs/report.doc") in
  fst (convert Samples.no_shell_host "/docs/report.doc" ".pdf"
         (started "/docs/report.doc" (Samples.start "/docs/report.doc")))
    = Return ["/docs/report.pdf"] /\
  files (snd run) !! "/docs/report.pdf" = Some Samples.pdf_bytes /\
  has_open (trace (snd run)) = false /\
  toast (snd run) =
    Some (MkToast Failure "Conversion Failed" "Command failed: osascript" None).
Proof. vm_compute. repeat split; reflexivity. Qed.

(** C3, amended.  After a successful conversion the clipboard command
    is run first and [open] only after it succeeded.  A failure of
    [open] therefore leaves the clipboard action done; a failure of the
    clipboard command skips [open], and either failure is reported by
    the toast "Conversion Failed" with the message of the error.  In
    every case the converted files stay in the store. *)
Theorem C3_clipboard_then_reveal (h : host) (file fmt : string) (w w1 : world)
    (paths : list string) :
  is_falsy file = false -> is_falsy fmt = false ->
  convert h file fmt (started file w) = (Return paths, w1) ->
  let run := handleConvert h (Some file) fmt w in
  let command := clipboard_command paths in
  fst run = Return tt /\
  files (snd run) = files w1 /\
  exists first dir,
    head paths = Some first /\ dir = NodePath.dirname first /\
    match exec_fault h command with
    | Some e =>
        trace (snd run) = trace w1 ++ [EvExec command] /\
        toast (snd run) = Some (failure_toast e None)
    | None =>
        match open_fault h dir with
        | Some e =>
            trace (snd run) =
              trace w1 ++ [EvExec command; EvShowHUD (hud_text paths); EvOpen dir] /\
            toast (snd run) = Some (failure_toast e (Some (RevealInFinder paths)))
        | None =>
            trace (snd run) =
              trace w1 ++ [EvExec command; EvShowHUD (hud_text paths); EvOpen dir;
                           EvPopToRoot] /\
            toast (snd run) = Some (success_toast paths)
        end
    end.
Proof.
  intros Hfile Hfmt Hrun run command.
  pose proof (convert_returns_nonempty h file fmt _ _ _ Hrun) as Hne.
  destruct paths as [|p paths]; [congruence|].
  subst run command.
  rewrite (handleConvert_convert_returns h file fmt w w1 p paths Hfile Hfmt Hrun).
  split; [reflexivity|].
  split.
  { simpl. destruct (exec_fault h (clipboard_command (p :: paths))); [reflexivity|].
    destruct (open_fault h (NodePath.dirname p)); reflexivity. }
  exists p, (NodePath.dirname p). split; [reflexivity|]. split; [reflexivity|].
  destruct (exec_fault h (clipboard_command (p :: paths))).
  - split; reflexivity.
  - destruct (open_fault h (NodePath.dirname p)); simpl;
      rewrite <- !app_assoc; split; reflexivity.
Qed.

Lemma C3_clipboard_then_reveal_witness :
  let run := handleConvert Samples.no_shell_host (Some "/docs/report.doc") ".pdf"
               (Samples.start "/docs/report.doc") in
  fst run = Return tt /\
  toast (snd run) = Some (failure_toast (JsError "Command failed: osascript") None).
Proof.
  destruct (C3_clipboard_then_reveal Samples.no_shell_host "/docs/report.doc" ".pdf"
              (Samples.start "/docs/report.doc")
              (snd (convert Samples.no_shell_host "/docs/report.doc" ".pdf"
                      (started "/docs/report.doc" (Samples.start "/docs/report.doc"))))
              ["/docs/report.pdf"])
    as (Hr & _ & first & dir & _ & _ & Hcase); try (vm_compute; reflexivity).
  cbv zeta. split; [exact Hr|].
  change (exec_fault Samples.no_shell_host (clipboard_command ["/docs/report.pdf"]))
    with (Some (JsError "Command failed: osascript")) in Hcase.
  exact (proj2 Hcase).
Defined.

(** ** Paths without an extension in their last segment *)

Lemma dir_part_last_segment (p : string) : p = dir_part p +:+ last_segment p.
Proof.
  induction p as [|c p IH]; [reflexivity|]. simpl.
  destruct (JS.includes "/" p).
  - simpl. now rewrite <- IH.
  - destruct (Ascii.eqb_spec c "/") as [->|Hc]; reflexivity.
Qed.

Lemma last_segment_no_slash (p : string) : JS.includes "/" (last_segment p) = false.
Proof.
  induction p as [|c p IH]; [reflexivity|]. simpl.
  destruct (JS.includes "/" p) eqn:E; [exact IH|].
  destruct (Ascii.eqb c "/") eqn:Ec; [exact E|].
  simpl. now rewrite Ec, E.
Qed.

Lemma dir_part_app_no_slash (a b : string) :
  JS.includes "/" b = false -> dir_part (a +:+ b) = dir_part a.
Proof.
  intros Hb. induction a as [|c a IH]; simpl.
  - destruct b as [|x b]; [reflexivity|]. simpl in Hb |- *.
    apply orb_false_iff in Hb. destruct Hb as [Hx Hb]. now rewrite Hb, Hx.
  - rewrite includes_app, Hb, orb_false_r, IH. reflexivity.
Qed.

Lemma dir_part_length (p : string) : (String.length (dir_part p) <= String.length p)%nat.
Proof.
  induction p as [|c p IH]; simpl; [lia|].
  destruct (JS.includes "/" p); simpl; [lia|].
  destruct (Ascii.eqb c "/"); simpl; lia.
Qed.

(** A string with a dot splits at its last dot. *)
Lemma split_last_dot (s : string) :
  JS.includes "." s = true ->
  exists before after, s = before +:+ String "." after /\ JS.includes "." after = false.
Proof.
  induction s as [|c s IH]; [discriminate|]. simpl. intros H.
  destruct (JS.includes "." s) eqn:E.
  - destruct (IH eq_refl) as (before & after & -> & Hafter).
    exists (String c before), after. split; [reflexivity | exact Hafter].
  - rewrite orb_false_r in H. apply Ascii.eqb_eq in H. subst c.
    exists "", s. split; [reflexivity | exact E].
Qed.

Lemma string_snoc_inj (a b : string) (x y : ascii) :
  a +:+ String x "" = b +:+ String y "" -> a = b /\ x = y.
Proof.
  revert b. induction a as [|c a IH]; intros [|d b]; simpl; intros H.
  - injection H as ->. auto.
  - injection H as -> H. destruct b; discriminate.
  - injection H as -> H. destruct a; discriminate.
  - injection H as -> H. destruct (IH _ H) as [-> ->]. auto.
Qed.

Lemma dir_part_nonempty (p : string) :
  JS.includes "/" p = true -> dir_part p <> "".
Proof.
  intros H E. pose proof (dir_part_last_segment p) as Hp.
  rewrite E in Hp. simpl in Hp.
  pose proof (last_segment_no_slash p) as Hs. rewrite <- Hp in Hs. congruence.
Qed.

(** The directory portion is empty or ends in a separator. *)
Lemma dir_part_ends (p : string) :
  dir_part p = "" \/ exists d, dir_part p = d +:+ "/".
Proof.
  induction p as [|c p IH]; [now left|]. simpl.
  destruct (JS.includes "/" p) eqn:E.
  - right. destruct IH as [E0 | [d ->]].
    + now apply dir_part_nonempty in E.
    + exists (String c d). reflexivity.
  - destruct (Ascii.eqb c "/"); [right; exists ""; reflexivity | now left].
Qed.

(** With no dot in the last segment, the last dot of the path lies in
    its directory portion and the pattern matches from there to the end
    of the path. *)
Lemma replace_ext_dot_in_directory (inputPath fmt : string) :
  JS.includes "." (last_segment inputPath) = false ->
  JS.includes "." inputPath = true ->
  exists before after,
    dir_part inputPath = before +:+ String "." after /\
    JS.includes "." after = false /\
    JS.replace_ext inputPath fmt =
      before +:+ JS.getSubstitution (String "." (after +:+ last_segment inputPath))
                   before "" fmt /\
    (JS.includes "$" fmt = false -> JS.replace_ext inputPath fmt = before +:+ fmt).
Proof.
  intros Hseg Hdot.
  assert (JS.includes "." (dir_part inputPath) = true) as Hd.
  { rewrite (dir_part_last_segment inputPath), includes_app, Hseg, orb_false_r in Hdot.
    exact Hdot. }
  destruct (split_last_dot _ Hd) as (before & after & Hsplit & Hafter).
  exists before, after. split; [exact Hsplit|]. split; [exact Hafter|].
  assert (inputPath = before +:+ String "." (after +:+ last_segment inputPath)) as Hp.
  { rewrite (dir_part_last_segment inputPath) at 1. rewrite Hsplit. string_assoc. }
  assert (after +:+ last_segment inputPath <> "") as Hne.
  { destruct after as [|x after]; [|discriminate]. exfalso.
    destruct (dir_part_ends inputPath) as [E0 | [d Ed]].
    - rewrite E0 in Hsplit. destruct before; discriminate.
    - rewrite Ed in Hsplit. apply string_snoc_inj in Hsplit.
      destruct Hsplit as [_ Hc]. discriminate. }
  assert (JS.includes "." (after +:+ last_segment inputPath) = false) as Hnd
    by (now rewrite includes_app, Hafter, Hseg).
  split.
  - rewrite Hp at 1. now apply replace_ext_last_dot.
  - intros Hdollar. rewrite Hp at 1. now apply replace_ext_plain.
Qed.

(** *** C9 *)

(** C9. Let the last segment of the input path hold no dot.  If the
    path holds no dot at all, the derived output path is the input path,
    so a successful conversion writes its output over the input file.
    Otherwise the last dot lies in the directory portion, and the derived
    path keeps only what precedes that dot, followed by the specifier:
    the rest of the directory portion and the last segment are dropped
    and no extension is appended to the file name.  Hence, for a simple
    specifier, an output path in the directory of the input and
    different from it arises only when the last segment holds an
    extension: a dot followed by at least one character, none of them a
    dot. *)
Theorem C9_no_extension_in_last_segment (h : host) (inputPath fmt : string) :
  (JS.includes "." (last_segment inputPath) = false ->
   (JS.includes "." inputPath = false ->
    JS.replace_ext inputPath fmt = inputPath /\
    forall (w : world) (data out : bytes),
      read_fault h inputPath = None ->
      files w !! file_id h inputPath = Some data ->
      libre_convert h data fmt = inr out ->
      write_fault h inputPath = None ->
      fst (convertDocument h inputPath fmt w) = Return inputPath /\
      files (snd (convertDocument h inputPath fmt w)) =
        <[file_id h inputPath := out]> (files w)) /\
   (JS.includes "." inputPath = true ->
    exists before after,
      dir_part inputPath = before +:+ String "." after /\
      JS.includes "." after = false /\
      JS.replace_ext inputPath fmt =
        before +:+ JS.getSubstitution (String "." (after +:+ last_segment inputPath))
                     before "" fmt /\
      (JS.includes "$" fmt = false -> JS.replace_ext inputPath fmt = before +:+ fmt))) /\
  (simple_specifier fmt = true ->
   JS.replace_ext inputPath fmt <> inputPath ->
   dir_part (JS.replace_ext inputPath fmt) = dir_part inputPath ->
   exists stem ext,
     last_segment inputPath = stem +:+ String "." ext /\
     ext <> "" /\ JS.includes "." ext = false).
Proof.
  split.
  - intros Hseg. split.
    + intros Hnodot.
      pose proof (replace_ext_no_dot inputPath fmt Hnodot) as Hsame.
      split; [exact Hsame|].
      intros w data out Hfault Hread Hconv Hwrite.
      rewrite (convertDocument_ok h inputPath fmt w data out Hfault Hread Hconv)
        by (rewrite Hsame; exact Hwrite).
      rewrite Hsame. split; reflexivity.
    + now apply replace_ext_dot_in_directory.
  - intros Hfmt Hdiff Hsibling.
    destruct (JS.includes "." (last_segment inputPath)) eqn:Hseg.
    { destruct (split_last_dot _ Hseg) as (stem & ext & Hsplit & Hext).
      exists stem, ext. split; [exact Hsplit|]. split; [|exact Hext].
      intros ->. apply Hdiff. unfold JS.replace_ext.
      rewrite (dir_part_last_segment inputPath) at 1.
      rewrite Hsplit, <- string_app_assoc, exec_ext_trailing_dot.
      reflexivity. }
    exfalso.
    destruct (JS.includes "." inputPath) eqn:Hdot.
    + destruct (simple_specifier_inv fmt Hfmt)
        as (name & Efmt & _ & _ & Hnslash & Hdollar & _).
      destruct (replace_ext_dot_in_directory inputPath fmt Hseg Hdot)
        as (before & after & Hsplit & _ & _ & Hplain).
      rewrite (Hplain Hdollar) in Hsibling.
      rewrite dir_part_app_no_slash in Hsibling.
      2:{ rewrite Efmt. simpl. rewrite Hnslash. reflexivity. }
      pose proof (dir_part_length before) as Hlen.
      rewrite Hsibling, Hsplit, string_length_app in Hlen. simpl in Hlen. lia.
    + apply Hdiff. now apply replace_ext_no_dot.
Qed.

Lemma C9_no_extension_in_last_segment_witness :
  JS.replace_ext "/docs/README" ".pdf" = "/docs/README" /\
  (exists before after,
     dir_part "/docs/v1.2/README" = before +:+ String "." after /\
     JS.replace_ext "/docs/v1.2/README" ".pdf" = before +:+ ".pdf") /\
  (exists stem ext, last_segment "/docs/report.doc" = stem +:+ String "." ext /\ ext <> "").
Proof.
  split; [|split].
  - apply (proj1 (C9_no_extension_in_last_segment Samples.ok_host "/docs/README" ".pdf"));
      vm_compute; reflexivity.
  - destruct (proj1 (C9_no_extension_in_last_segment Samples.ok_host
                       "/docs/v1.2/README" ".pdf"))
      as [_ Hdir]; [vm_compute; reflexivity|].
    destruct Hdir as (before & after & Hsplit & _ & _ & Hplain); [vm_compute; reflexivity|].
    exists before, after. split; [exact Hsplit|]. apply Hplain. vm_compute. reflexivity.
  - destruct (proj2 (C9_no_extension_in_last_segment Samples.ok_host
                       "/docs/report.doc" ".pdf"))
      as (stem & ext & Hsplit & Hext & _).
    + vm_compute. reflexivity.
    + vm_compute. discriminate.
    + vm_compute. reflexivity.
    + exists stem, ext. split; [exact Hsplit | exact Hext].
Defined.

(** ** Running a job again *)

Lemma lookup_insert_all (writes : list (string * bytes)) (m : gmap string bytes)
    (path : string) :
  insert_all writes m !! path =
  match last_write writes path with
  | Some v => Some v
  | None => m !! path
  end.
Proof.
  revert m. induction writes as [|[k v] writes IH]; intros m; [reflexivity|].
  simpl. rewrite IH. destruct (last_write writes path); [reflexivity|].
  destruct (String.eqb_spec k path) as [->|Hne].
  - apply lookup_insert_eq.
  - now apply lookup_insert_ne.
Qed.

(** Writing the same list of bindings twice is writing it once. *)
Lemma insert_all_idempotent (writes : list (string * bytes)) (m : gmap string bytes) :
  insert_all writes (insert_all writes m) = insert_all writes m.
Proof.
  apply map_eq. intros path. rewrite !lookup_insert_all.
  destruct (last_write writes path); reflexivity.
Qed.

Lemma last_write_none (writes : list (string * bytes)) (path : string) :
  Forall (fun kv => fst kv <> path) writes -> last_write writes path = None.
Proof.
  induction 1 as [|[k v] writes Hk _ IH]; [reflexivity|].
  simpl. rewrite IH. simpl in Hk. destruct (String.eqb_spec k path); congruence.
Qed.

Lemma last_write_some (writes : list (string * bytes)) (path : string) :
  In path (map fst writes) -> is_Some (last_write writes path).
Proof.
  induction writes as [|[k v] writes IH]; [intros []|].
  simpl. intros [-> | Hin].
  - destruct (last_write writes path); [eauto|]. rewrite String.eqb_refl. eauto.
  - destruct (IH Hin) as [v' ->]. eauto.
Qed.

Lemma convert_as_loop (h : host) (file fmt : string) (w : world) :
  convert h file fmt w = convertDocumentMultiple_loop h file (job_parts fmt) [] w.
Proof.
  unfold convert, job_parts. destruct (JS.includes "+" fmt); [reflexivity|].
  simpl. unfold bind, ret.
  destruct (convertDocument h file fmt w) as [[outputPath|e] w1]; reflexivity.
Qed.

(** A run of the loop that returns, from a store where the input reads
    as [data] and no output path names the file of the input: every
    step succeeded, and the store received the writes of the job. *)
Lemma loop_returns_inv (h : host) (inputPath : string) (data : bytes)
    (formats acc paths : list string) (w w1 : world) :
  files w !! file_id h inputPath = Some data ->
  Forall (fun f => file_id h (JS.replace_ext inputPath f) <> file_id h inputPath) formats ->
  convertDocumentMultiple_loop h inputPath formats acc w = (Return paths, w1) ->
  Forall (fun f => (exists out, libre_convert h data f = inr out) /\
                   write_fault h (JS.replace_ext inputPath f) = None) formats /\
  files w1 = insert_all (job_writes h inputPath data formats) (files w) /\
  (formats <> [] -> read_fault h inputPath = None).
Proof.
  intros Hread Hdiff. revert acc w Hread.
  induction Hdiff as [|f formats Hf _ IH]; intros acc w Hread Hrun.
  - simpl in Hrun. injection Hrun as _ <-.
    split; [constructor | split; [reflexivity | congruence]].
  - simpl in Hrun. unfold bind in Hrun.
    destruct (read_fault h inputPath) as [e|] eqn:Hfault.
    { destruct (convertDocument_read_fails h inputPath f w) as (e' & He).
      - left. congruence.
      - rewrite He in Hrun. discriminate. }
    destruct (libre_convert h data f) as [e|out] eqn:Hconv.
    { rewrite (convertDocument_convert_fails h inputPath f w data e Hfault Hread Hconv)
        in Hrun.
      discriminate. }
    destruct (write_fault h (JS.replace_ext inputPath f)) as [e|] eqn:Hwrite.
    { unfold convertDocument, bind, readFileSync, convertAsync, writeFileSync in Hrun.
      rewrite Hfault, Hread, Hconv, Hwrite in Hrun. discriminate. }
    rewrite (convertDocument_ok h inputPath f w data out Hfault Hread Hconv Hwrite) in Hrun.
    apply IH in Hrun.
    2:{ simpl. rewrite lookup_insert_ne by exact Hf. exact Hread. }
    destruct Hrun as (Hall & Hfiles & _). split; [|split].
    + constructor; [eauto | exact Hall].
    + rewrite Hfiles. simpl. unfold converted. rewrite Hconv. reflexivity.
    + reflexivity.
Qed.

(** Conversely, when every step can succeed the loop returns. *)
Lemma loop_returns (h : host) (inputPath : string) (data : bytes)
    (formats acc : list string) (w : world) :
  read_fault h inputPath = None ->
  files w !! file_id h inputPath = Some data ->
  Forall (fun f => file_id h (JS.replace_ext inputPath f) <> file_id h inputPath) formats ->
  Forall (fun f => (exists out, libre_convert h data f = inr out) /\
                   write_fault h (JS.replace_ext inputPath f) = None) formats ->
  exists w1 new,
    convertDocumentMultiple_loop h inputPath formats acc w =
      (Return (acc ++ map (JS.replace_ext inputPath) formats), w1) /\
    files w1 = insert_all (job_writes h inputPath data formats) (files w) /\
    trace w1 = trace w ++ new /\
    written_paths new = map (JS.replace_ext inputPath) formats.
Proof.
  intros Hfault Hread Hdiff. revert acc w Hread.
  induction Hdiff as [|f formats Hf _ IH]; intros acc w Hread Hok.
  - exists w, []. simpl. rewrite !app_nil_r. auto.
  - inversion Hok as [|? ? [[out Hconv] Hwrite] Hok']; subst.
    simpl. unfold bind.
    rewrite (convertDocument_ok h inputPath f w data out Hfault Hread Hconv Hwrite).
    match goal with |- context [convertDocumentMultiple_loop _ _ _ ?acc' ?w'] =>
      destruct (IH acc' w') as (w1 & new & Hrun & Hfiles & Htrace & Hw);
        [simpl; rewrite lookup_insert_ne by exact Hf; exact Hread | exact Hok' |]
    end.
    exists w1. eexists. split; [rewrite Hrun, <- app_assoc; reflexivity|].
    split; [rewrite Hfiles; simpl; unfold converted; rewrite Hconv; reflexivity|].
    split.
    + rewrite Htrace. simpl. rewrite <- !app_assoc. simpl. reflexivity.
    + simpl. now rewrite Hw.
Qed.

Lemma string_app_inv_head (a b c : string) : a +:+ b = a +:+ c -> b = c.
Proof.
  induction a as [|x a IH]; simpl; [auto|]. intros H. injection H as H. auto.
Qed.

(** On a supported path, a simple lower-case specifier other than the
    extension of the path gives an output path other than the path. *)
Lemma replace_differs (p f : string) :
  isSupportedFile p = true -> simple_specifier f = true ->
  JS.toLowerCase f = f -> f <> getExtension p ->
  JS.replace_ext p f <> p.
Proof.
  intros Hsup Hf Hlow Hne Heq.
  destruct (supported_shape p Hsup)
    as (front & c & r & n & Hc & Hr & Hdot & Hslash & Hp & Hext).
  destruct (simple_specifier_inv f Hf) as (name & Ef & _ & _ & Hnslash & Hdollar & _).
  rewrite Hp in Heq at 1. rewrite replace_ext_supported in Heq by assumption.
  rewrite Hp in Heq. apply string_app_inv_head in Heq.
  injection Heq as Heq. rewrite Ef in Heq. injection Heq as Hname.
  destruct n as [|n].
  - simpl in Hname. rewrite string_app_empty_r in Hname. subst name.
    apply Hne. unfold getExtension. rewrite Hext, <- Ef. now rewrite Hlow.
  - rewrite Hname, includes_app in Hnslash. simpl in Hnslash.
    now rewrite orb_true_r in Hnslash.
Qed.

(** No part of a legal job on a supported path is written over the
    input. *)
Lemma legal_parts_differ (p fmt : string) :
  isSupportedFile p = true -> In fmt (getOutputFormats p) ->
  Forall (fun f => JS.replace_ext p f <> p) (job_parts fmt).
Proof.
  intros Hsup Hin.
  assert (forall f, simple_specifier f = true -> JS.toLowerCase f = f ->
                    f <> getExtension p -> JS.replace_ext p f <> p) as Hd
    by (intros; now apply replace_differs).
  destruct (getOutputFormats_cases p)
    as [(Hext & _ & Hfmts) | [(Hext & _ & Hfmts) | (Hno & _)]];
    [| | congruence];
    rewrite Hfmts in Hin; rewrite Hext in Hd;
    destruct Hin as [<- | [<- | [<- | []]]];
    repeat constructor; apply Hd; try reflexivity; discriminate.
Qed.

Lemma job_parts_nonempty (fmt : string) : job_parts fmt <> [].
Proof.
  unfold job_parts. destruct (JS.includes "+" fmt); [apply split_nonempty | discriminate].
Qed.

(** A job that returns has read its input. *)
Lemma convert_returns_read (h : host) (inputPath fmt : string) (w w1 : world)
    (paths : list string) :
  convert h inputPath fmt w = (Return paths, w1) ->
  read_fault h inputPath = None /\ is_Some (files w !! file_id h inputPath).
Proof.
  rewrite convert_as_loop. intros Hrun.
  pose proof (job_parts_nonempty fmt) as Hne.
  destruct (job_parts fmt) as [|f formats]; [congruence|].
  simpl in Hrun. unfold bind in Hrun.
  destruct (read_fault h inputPath) as [e|] eqn:Hfault.
  { destruct (convertDocument_read_fails h inputPath f w) as (e' & He).
    - left. congruence.
    - rewrite He in Hrun. discriminate. }
  split; [reflexivity|].
  destruct (files w !! file_id h inputPath) as [data|] eqn:Hread; [eauto|].
  destruct (convertDocument_read_fails h inputPath f w) as (e' & He).
  - right. exact Hread.
  - rewrite He in Hrun. discriminate.
Qed.

(** *** C8 *)

(** C8, as stated, fails.  On a path without a dot the output path is
    the input path: the first run of [/docs/README] with [.pdf] returns
    and leaves the converter's output in the input file, and the second
    run hands that output to the converter, which may refuse it.  The
    same happens to a legal job on a supported path when an output path
    is a link to the input: with [/docs/report.pdf] linked to
    [/docs/report.docx], the job [.pdf] on [/docs/report.docx] returns
    once and throws when run again. *)
Lemma C8_counterexample :
  (let w := Samples.start "/docs/README" in
   let w1 := snd (convert Samples.strict_host "/docs/README" ".pdf" w) in
   fst (convert Samples.strict_host "/docs/README" ".pdf" w) = Return ["/docs/README"] /\
   files w1 !! "/docs/README" = Some Samples.pdf_bytes /\
   fst (convert Samples.strict_host "/docs/README" ".pdf" w1) =
     Throw (JsError "not a document")) /\
  (let w := Samples.start "/docs/report.docx" in
   let w1 := snd (convert Samples.linked_host "/docs/report.docx" ".pdf" w) in
   isSupportedFile "/docs/report.docx" = true /\
   In ".pdf" (getOutputFormats "/docs/report.docx") /\
   fst (convert Samples.linked_host "/docs/report.docx" ".pdf" w) =
     Return ["/docs/report.pdf"] /\
   fst (convert Samples.linked_host "/docs/report.docx" ".pdf" w1) =
     Throw (JsError "not a document")).
Proof.
  split; cbv zeta.
  - repeat split; vm_compute; reflexivity.
  - split; [vm_compute; reflexivity|]. split; [vm_compute; auto|].
    split; vm_compute; reflexivity.
Qed.

(** C8, amended.  Let no output path of the job name the file of the
    input, and let a run of the job return.  Then the input file holds
    afterwards what it held before and every output path names a file
    in the store.  From any store in which the input file still holds
    those bytes, whatever the output files hold by then, the job
    returns again with the same output paths: it writes every output
    path anew, in order, each output file holds afterwards exactly what
    the first run had left in it, and no other file is changed.  Run
    from the store the first run left, it leaves that store as it
    is. *)
Theorem C8_rerun_overwrites (h : host) (inputPath fmt : string) (w w1 : world)
    (paths : list string) :
  Forall (fun f => file_id h (JS.replace_ext inputPath f) <> file_id h inputPath)
         (job_parts fmt) ->
  convert h inputPath fmt w = (Return paths, w1) ->
  files w1 !! file_id h inputPath = files w !! file_id h inputPath /\
  Forall (fun q => is_Some (files w1 !! file_id h q)) paths /\
  forall u : world,
    files u !! file_id h inputPath = files w !! file_id h inputPath ->
    exists u2 new,
      convert h inputPath fmt u = (Return paths, u2) /\
      trace u2 = trace u ++ new /\
      written_paths new = paths /\
      (forall q, In q paths -> files u2 !! file_id h q = files w1 !! file_id h q) /\
      (forall id, ~ In id (map (file_id h) paths) -> files u2 !! id = files u !! id) /\
      (files u = files w1 -> files u2 = files w1).
Proof.
  intros Hdiff Hrun.
  destruct (convert_returns_read h inputPath fmt w w1 paths Hrun) as [Hfault [data Hread]].
  rewrite convert_as_loop in Hrun.
  destruct (loop_returns_inv h inputPath data _ _ _ _ _ Hread Hdiff Hrun)
    as (Hok & Hfiles & _).
  destruct (loop_returns h inputPath data (job_parts fmt) [] w Hfault Hread Hdiff Hok)
    as (w1' & new1 & Hrun1 & _ & _ & _).
  rewrite Hrun in Hrun1. injection Hrun1 as Hpaths _. simpl in Hpaths.
  assert (forall q, In q paths ->
            is_Some (last_write (job_writes h inputPath data (job_parts fmt))
                       (file_id h q))) as Hwritten.
  { intros q Hq. apply last_write_some. unfold job_writes. rewrite map_map. simpl.
    rewrite Hpaths in Hq. rewrite <- (map_map (JS.replace_ext inputPath) (file_id h)).
    now apply in_map. }
  assert (forall id, ~ In id (map (file_id h) paths) ->
            last_write (job_writes h inputPath data (job_parts fmt)) id = None) as Hother.
  { intros id Hid. apply last_write_none. unfold job_writes. apply Forall_map. simpl.
    apply Forall_forall. intros f Hf E. subst id. apply Hid. rewrite Hpaths, map_map.
    apply in_map_iff. exists f. split; [reflexivity | now apply list_elem_of_In]. }
  split; [|split].
  - rewrite Hfiles, lookup_insert_all, last_write_none; [reflexivity|].
    unfold job_writes. apply Forall_map. simpl. exact Hdiff.
  - apply Forall_forall. intros q Hq. apply list_elem_of_In in Hq.
    rewrite Hfiles, lookup_insert_all.
    destruct (Hwritten q Hq) as [v ->]. eauto.
  - intros u Hu. rewrite Hread in Hu.
    destruct (loop_returns h inputPath data (job_parts fmt) [] u Hfault Hu Hdiff Hok)
      as (u2 & new & Hrun2 & Hfiles2 & Htrace2 & Hnew).
    exists u2, new. simpl in Hrun2. rewrite <- Hpaths in Hrun2, Hnew.
    rewrite convert_as_loop.
    split; [exact Hrun2|]. split; [exact Htrace2|]. split; [exact Hnew|].
    split; [|split].
    + intros q Hq. rewrite Hfiles2, Hfiles, !lookup_insert_all.
      destruct (Hwritten q Hq) as [v ->]. reflexivity.
    + intros id Hid. rewrite Hfiles2, lookup_insert_all, (Hother id Hid). reflexivity.
    + intros Hsame. rewrite Hfiles2, Hsame, Hfiles. apply insert_all_idempotent.
Qed.

Lemma C8_rerun_overwrites_witness :
  let w := Samples.start "/docs/report.docx" in
  let w1 := snd (convert Samples.strict_host "/docs/report.docx" ".pdf+.doc" w) in
  let u := store "/docs/report.pdf" Samples.doc_bytes w1 in
  files u !! "/docs/report.pdf" = Some Samples.doc_bytes /\
  exists u2,
    convert Samples.strict_host "/docs/report.docx" ".pdf+.doc" u =
      (Return ["/docs/report.pdf"; "/docs/report.doc"], u2) /\
    files u2 !! "/docs/report.pdf" = Some Samples.pdf_bytes.
Proof.
  cbv zeta. split; [vm_compute; reflexivity|].
  destruct (C8_rerun_overwrites Samples.strict_host "/docs/report.docx" ".pdf+.doc"
              (Samples.start "/docs/report.docx")
              (snd (convert Samples.strict_host "/docs/report.docx" ".pdf+.doc"
                      (Samples.start "/docs/report.docx")))
              ["/docs/report.pdf"; "/docs/report.doc"])
    as (_ & _ & Hagain).
  - vm_compute. repeat constructor; discriminate.
  - vm_compute. reflexivity.
  - destruct (Hagain (store "/docs/report.pdf" Samples.doc_bytes
                        (snd (convert Samples.strict_host "/docs/report.docx" ".pdf+.doc"
                                (Samples.start "/docs/report.docx")))))
      as (u2 & new & Hrun & _ & _ & Hout & _).
    + vm_compute. reflexivity.
    + exists u2. split; [exact Hrun|].
      pose proof (Hout "/docs/report.pdf" (or_introl eq_refl)) as Hpdf.
      change (file_id Samples.strict_host "/docs/report.pdf") with "/docs/report.pdf"
        in Hpdf.
      rewrite Hpdf. vm_compute. reflexivity.
Defined.

(** ** The clipboard command *)

Lemma sh_single_quoted_inv (s body after : string) :
  sh_single_quoted s = Some (body, after) ->
  s = body +:+ squote +:+ after /\ JS.includes "039" body = false.
Proof.
  revert body. induction s as [|c s IH]; intros body; simpl; [discriminate|].
  destruct (Ascii.eqb_spec c "039") as [->|Hc].
  - intros [= <- <-]. split; reflexivity.
  - destruct (sh_single_quoted s) as [[body' after']|]; [|discriminate].
    intros [= <- <-]. destruct (IH body' eq_refl) as [-> Hb].
    split; [reflexivity|]. simpl. rewrite Hb, orb_false_r. now apply Ascii.eqb_neq.
Qed.


Lemma backslashes_shift (k : nat) (s : string) :
  backslashes k +:+ String "\" s = String "\" (backslashes k +:+ s).
Proof. induction k as [|k IH]; simpl; [reflexivity | now rewrite IH]. Qed.

Lemma as_unescape_backslash (d : ascii) :
  as_unescape d = Some "\"%char -> d = "\"%char.
Proof.
  unfold as_unescape.
  destruct (Ascii.eqb_spec d "\"); [auto|].
  destruct (Ascii.eqb d "034"); [discriminate|].
  destruct (Ascii.eqb d "n"); [discriminate|].
  destruct (Ascii.eqb d "r"); [discriminate|].
  destruct (Ascii.eqb d "t"); discriminate.
Qed.

(** A literal never evaluates to its own source text with backslashes
    put in front: each escape consumes two characters for one. *)
Lemma literal_loses_backslashes (n : nat) :
  forall (q tail value after : string) (k : nat),
    (String.length q <= n)%nat ->
    as_string_literal (q +:+ dquote +:+ tail) = Some (value, after) ->
    value <> backslashes (S k) +:+ q.
Proof.
  unfold dquote. simpl String.append. induction n as [|n IH]; intros q tail value after k Hlen Hlit Hval.
  - destruct q; [|simpl in Hlen; lia]. simpl in Hlit.
    injection Hlit as <- _. discriminate.
  - destruct q as [|c q]; [simpl in Hlit; injection Hlit as <- _; discriminate|].
    simpl in Hlit, Hlen.
    destruct (Ascii.eqb_spec c "034") as [->|Hq].
    { injection Hlit as <- _. discriminate. }
    destruct (Ascii.eqb_spec c "\") as [->|Hb].
    + destruct q as [|d q]; simpl in Hlit.
      * change (as_unescape "034") with (Some "034"%char) in Hlit.
        destruct (as_string_literal tail) as [[v a]|]; [|discriminate].
        injection Hlit as <- _. discriminate.
      * destruct (as_unescape d) as [x|] eqn:Hx; [|discriminate].
        destruct (as_string_literal (q +:+ String "034" tail)) as [[v a]|] eqn:Hrec;
          [|discriminate].
        injection Hlit as <- _. simpl in Hval. injection Hval as -> Hv.
        apply as_unescape_backslash in Hx. subst d.
        rewrite !backslashes_shift in Hv.
        simpl in Hlen.
        apply (IH q tail v a (S k)); [lia | exact Hrec | exact Hv].
    + destruct (as_string_literal (q +:+ String "034" tail)) as [[v a]|]; [|discriminate].
      injection Hlit as <- _. simpl in Hval. injection Hval as Hc _. congruence.
Qed.

(** A literal whose value is its own source text holds neither a
    double quote nor a backslash. *)
Lemma literal_verbatim_inv (p tail after : string) :
  as_string_literal (p +:+ dquote +:+ tail) = Some (p, after) ->
  JS.includes "034" p = false /\ JS.includes "\" p = false.
Proof.
  unfold dquote. simpl String.append. induction p as [|c p IH]; [auto|]. simpl.
  destruct (Ascii.eqb_spec c "034") as [->|Hq]; [discriminate|].
  destruct (Ascii.eqb_spec c "\") as [->|Hb].
  - destruct p as [|d p]; simpl.
    + change (as_unescape "034") with (Some "034"%char).
      destruct (as_string_literal tail) as [[v a]|]; discriminate.
    + destruct (as_unescape d) as [x|] eqn:Hx; [|discriminate].
      destruct (as_string_literal (p +:+ String "034" tail)) as [[v a]|] eqn:Hrec;
        [|discriminate].
      intros [= -> -> <-]. exfalso.
      apply as_unescape_backslash in Hx. subst d.
      exact (literal_loses_backslashes (String.length p) p tail _ _ 0
               (Nat.le_refl _) Hrec eq_refl).
  - destruct (as_string_literal (p +:+ String "034" tail)) as [[v a]|] eqn:Hrec;
      [|discriminate].
    intros [= -> <-]. destruct (IH eq_refl) as [H1 H2].
    split; simpl; assumption.
Qed.


(** Every joined part occurs in the result of [join]. *)
Lemma join_occurrence (sep x : string) (parts : list string) :
  In x parts -> exists a b, JS.join sep parts = a +:+ x +:+ b.
Proof.
  induction parts as [|y parts IH]; [intros []|].
  intros Hin. destruct parts as [|z parts].
  - destruct Hin as [-> | []]. exists "", "". simpl. now rewrite string_app_empty_r.
  - change (JS.join sep (y :: z :: parts)) with (y +:+ sep +:+ JS.join sep (z :: parts)).
    destruct Hin as [-> | Hin].
    + exists "", (sep +:+ JS.join sep (z :: parts)). reflexivity.
    + destruct (IH Hin) as (a & b & ->).
      exists (y +:+ sep +:+ a), b. string_assoc.
Qed.



(** *** C10 *)

(** C10. [copyFilesToClipboard] runs the command
    [osascript -e '<script>'], in which every path stands as it is,
    between double quotes after [POSIX file], inside the single-quoted
    script.  If the shell takes the script as the single-quoted word
    ending at the last quote of the command, the path holds no single
    quote; if AppleScript reads the literal that opens before the path as
    ending right after it, with the path as its value, the path holds no
    double quote. *)
Theorem C10_clipboard_quoting (h : host) (filePaths : list string) (p : string) (w : world) :
  In p filePaths ->
  trace (snd (copyFilesToClipboard h filePaths w)) =
    trace w ++ [EvExec (clipboard_command filePaths)] /\
  clipboard_command filePaths =
    "osascript -e " +:+ squote +:+ clipboard_script filePaths +:+ squote /\
  exists head tail,
    clipboard_script filePaths =
      head +:+ ("POSIX file " +:+ dquote +:+ p +:+ dquote) +:+ tail /\
    (sh_single_quoted (clipboard_script filePaths +:+ squote) =
       Some (clipboard_script filePaths, "") ->
     JS.includes "039" p = false) /\
    (as_string_literal (p +:+ dquote +:+ tail) = Some (p, tail) ->
     JS.includes "034" p = false).
Proof.
  intros Hin. split.
  { unfold copyFilesToClipboard, execSync.
    destruct (exec_fault h (clipboard_command filePaths)); reflexivity. }
  split; [reflexivity|].
  destruct (join_occurrence ", " (posix_file p) (map posix_file filePaths))
    as (a & b & Hjoin); [now apply in_map|].
  exists ("set the clipboard to {" +:+ a), (b +:+ "}").
  assert (clipboard_script filePaths =
          ("set the clipboard to {" +:+ a) +:+
          ("POSIX file " +:+ dquote +:+ p +:+ dquote) +:+ b +:+ "}") as Hocc.
  { unfold clipboard_script. rewrite Hjoin. unfold posix_file. string_assoc. }
  split; [exact Hocc|]. split.
  - intros Hword. apply sh_single_quoted_inv in Hword. destruct Hword as [_ Hnone].
    rewrite Hocc, !includes_app in Hnone.
    apply orb_false_iff in Hnone. destruct Hnone as [_ Hnone].
    apply orb_false_iff in Hnone. destruct Hnone as [Hitem _].
    apply orb_false_iff in Hitem. destruct Hitem as [_ Hitem].
    apply orb_false_iff in Hitem. destruct Hitem as [_ Hitem].
    apply orb_false_iff in Hitem. destruct Hitem as [Hp _]. exact Hp.
  - intros Hlit. now apply literal_verbatim_inv in Hlit.
Qed.

Lemma C10_clipboard_quoting_witness :
  clipboard_command ["/docs/report.pdf"] =
    "osascript -e " +:+ squote +:+ "set the clipboard to {POSIX file " +:+ dquote +:+
    "/docs/report.pdf" +:+ dquote +:+ "}" +:+ squote /\
  JS.includes "039" "/docs/report.pdf" = false.
Proof.
  destruct (C10_clipboard_quoting Samples.ok_host ["/docs/report.pdf"] "/docs/report.pdf"
              (Samples.start "/docs/report.doc"))
    as (_ & Hcmd & head & tail & _ & Hshell & _); [left; reflexivity|].
  split; [exact Hcmd|]. apply Hshell. vm_compute. reflexivity.
Defined.

(** A single quote in a path ends the shell word inside the path; a
    double quote ends the AppleScript literal inside the path. *)
Example clipboard_quotes_break :
  sh_single_quoted (clipboard_script ["/docs/it" +:+ squote +:+ "s.pdf"] +:+ squote) =
    Some ("set the clipboard to {POSIX file " +:+ dquote +:+ "/docs/it",
          "s.pdf" +:+ dquote +:+ "}" +:+ squote) /\
  as_string_literal (("a" +:+ dquote +:+ "b") +:+ dquote +:+ "}") =
    Some ("a", "b" +:+ dquote +:+ "}") /\
  as_string_literal (("a" +:+ backslash) +:+ dquote +:+ "}") = None.
Proof. vm_compute. repeat split; reflexivity. Qed.

(** ** Supported paths, by shape *)

Lemma includes_lower (x : ascii) (r : string) :
  JS.lower_char x = x -> JS.includes x (JS.toLowerCase r) = false ->
  JS.includes x r = false.
Proof.
  intros Hx. induction r as [|c r IH]; simpl; [reflexivity|].
  intros H. apply orb_false_iff in H. destruct H as [Hc Hr].
  rewrite (IH Hr), orb_false_r.
  destruct (Ascii.eqb_spec c x) as [->|Hne]; [|reflexivity].
  rewrite Hx, Ascii.eqb_refl in Hc. discriminate.
Qed.

Lemma toLowerCase_nonempty (r : string) : JS.toLowerCase r <> "" -> r <> "".
Proof. intros H ->. now apply H. Qed.

(** A path is supported exactly when its last component, separators
    after it set aside, ends in [.doc] or [.docx] in any letter case and
    has at least one character before that extension.  A file named
    [.doc] is not supported, [Report.DOCX] is. *)
Theorem supported_iff_shape (p : string) :
  isSupportedFile p = true <->
  exists front c r n,
    c <> "/"%char /\
    p = front +:+ String c (String "." (r +:+ slashes n)) /\
    (JS.toLowerCase r = "doc" \/ JS.toLowerCase r = "docx").
Proof.
  split.
  - intros Hsup.
    destruct (supported_shape p Hsup) as (front & c & r & n & Hc & _ & _ & _ & Hp & Hext).
    exists front, c, r, n. split; [exact Hc|]. split; [exact Hp|].
    destruct (supported_extension p Hsup) as [E|E]; unfold getExtension in E;
      rewrite Hext in E; simpl in E; injection E as E; auto.
  - intros (front & c & r & n & Hc & Hp & Hlow).
    assert (JS.includes "." (JS.toLowerCase r) = false /\
            JS.includes "/" (JS.toLowerCase r) = false /\ JS.toLowerCase r <> "")
      as (H1 & H2 & H3) by (destruct Hlow as [-> | ->]; repeat split; discriminate).
    assert (NodePath.extname p = String "." r) as Hext.
    { rewrite Hp. apply extname_shape; [exact Hc | | |].
      - now apply toLowerCase_nonempty.
      - now apply includes_lower.
      - now apply includes_lower. }
    unfold isSupportedFile, getExtension. rewrite Hext. simpl JS.toLowerCase.
    destruct Hlow as [-> | ->]; reflexivity.
Qed.

Lemma supported_iff_shape_witness :
  isSupportedFile "/docs/Report.DOCX" = true /\ isSupportedFile "/docs/.doc" = false.
Proof.
  split.
  - apply (proj2 (supported_iff_shape "/docs/Report.DOCX")).
    exists "/docs/Repor", "t"%char, "DOCX", 0%nat.
    split; [discriminate|]. split; [reflexivity | right; reflexivity].
  - vm_compute. reflexivity.
Defined.

(** ** Output paths of output paths *)

Lemma exec_ext_inv (s before matched : string) :
  JS.exec_ext s = Some (before, matched) ->
  s = before +:+ matched /\
  exists r, matched = String "." r /\ r <> "" /\ JS.includes "." r = false.
Proof.
  revert before. induction s as [|c s IH]; intros before; simpl; [discriminate|].
  destruct (Ascii.eqb_spec c ".") as [->|Hc]; simpl.
  - destruct (JS.tail_class s) eqn:Ht.
    + intros [= <- <-]. split; [reflexivity|]. exists s.
      apply tail_class_spec in Ht. destruct Ht as [Hne Hdot]. auto.
    + destruct (JS.exec_ext s) as [[b m]|]; [|discriminate].
      intros [= <- <-]. destruct (IH b eq_refl) as [-> Hm]. auto.
  - destruct (JS.exec_ext s) as [[b m]|]; [|discriminate].
    intros [= <- <-]. destruct (IH b eq_refl) as [-> Hm]. auto.
Qed.

(** Deriving an output path from an output path: the specifier of the
    first derivation leaves no mark.  Converting [report.docx] to [.doc]
    and the result to [.pdf] names the same file as converting
    [report.docx] to [.pdf]; in particular deriving twice with one
    specifier is deriving once. *)
Theorem replace_ext_chain (p f1 f2 : string) :
  simple_specifier f1 = true -> JS.includes "$" f2 = false ->
  JS.replace_ext (JS.replace_ext p f1) f2 = JS.replace_ext p f2 /\
  JS.replace_ext (JS.replace_ext p f1) f1 = JS.replace_ext p f1.
Proof.
  intros Hf1 Hf2.
  destruct (simple_specifier_inv f1 Hf1) as (name & -> & Hname & Hndot & _ & Hdollar & _).
  assert (forall f, JS.includes "$" f = false ->
            JS.replace_ext (JS.replace_ext p (String "." name)) f = JS.replace_ext p f)
    as Hchain.
  { intros f Hf. destruct (JS.exec_ext p) as [[before matched]|] eqn:Hexec.
    - destruct (exec_ext_inv p before matched Hexec) as (-> & r & -> & Hr & Hrdot).
      rewrite (replace_ext_plain before r (String "." name) Hr Hrdot Hdollar).
      rewrite (replace_ext_plain before name f Hname Hndot Hf).
      now rewrite (replace_ext_plain before r f Hr Hrdot Hf).
    - assert (JS.replace_ext p (String "." name) = p) as ->
        by (unfold JS.replace_ext; now rewrite Hexec).
      reflexivity. }
  split; [now apply Hchain|]. now apply Hchain.
Qed.

Lemma replace_ext_chain_witness :
  JS.replace_ext (JS.replace_ext "/docs/report.docx" ".doc") ".pdf" = "/docs/report.pdf".
Proof.
  rewrite (proj1 (replace_ext_chain "/docs/report.docx" ".doc" ".pdf" eq_refl eq_refl)).
  vm_compute. reflexivity.
Defined.

(** ** The footprint of a job *)

Lemma read_paths_app (a b : list event) :
  read_paths (a ++ b) = read_paths a ++ read_paths b.
Proof.
  induction a as [|e a IH]; [reflexivity|].
  destruct e; simpl; rewrite IH; reflexivity.
Qed.

Lemma converter_inputs_app (a b : list event) :
  converter_inputs (a ++ b) = converter_inputs a ++ converter_inputs b.
Proof.
  induction a as [|e a IH]; [reflexivity|].
  destruct e; simpl; rewrite IH; reflexivity.
Qed.

Lemma exec_commands_app (a b : list event) :
  exec_commands (a ++ b) = exec_commands a ++ exec_commands b.
Proof.
  induction a as [|e a IH]; [reflexivity|].
  destruct e; simpl; rewrite IH; reflexivity.
Qed.

Lemma conversion_calls_no_exec (new : list event) :
  Forall (fun e => is_conversion_call e = true) new ->
  exec_commands new = [] /\ ~ In EvPopToRoot new.
Proof.
  induction 1 as [|e new He _ [IH1 IH2]]; [split; [reflexivity | intros []]|].
  destruct e; try discriminate He; simpl; (split; [exact IH1|]);
    intros [H|H]; try discriminate H; now apply IH2.
Qed.

Lemma job_effects_refl (h : host) (p : string) (outs : list string) (w : world) :
  job_effects h p outs w w [].
Proof.
  unfold job_effects. rewrite app_nil_r. repeat split; auto; constructor.
Qed.

Lemma job_effects_trans (h : host) (p : string) (outs : list string) (w w1 w2 : world)
    (n1 n2 : list event) :
  job_effects h p outs w w1 n1 -> job_effects h p outs w1 w2 n2 ->
  job_effects h p outs w w2 (n1 ++ n2).
Proof.
  intros (T1 & C1 & R1 & W1 & F1 & K1) (T2 & C2 & R2 & W2 & F2 & K2).
  unfold job_effects. rewrite read_paths_app, written_paths_app.
  split; [rewrite T2, T1; now rewrite app_assoc|].
  split; [now apply Forall_app|].
  split; [now apply Forall_app|].
  split; [now apply Forall_app|].
  split.
  - intros q Hq. now rewrite (F2 q Hq), (F1 q Hq).
  - intros q Hq. apply K2, K1, Hq.
Qed.

Lemma job_effects_weaken (h : host) (p : string) (outs outs' : list string)
    (w w' : world) (new : list event) :
  (forall q, In q outs -> In q outs') ->
  job_effects h p outs w w' new -> job_effects h p outs' w w' new.
Proof.
  intros Hsub (T & C & R & W & F & K). unfold job_effects.
  split; [exact T|]. split; [exact C|]. split; [exact R|].
  split; [eapply Forall_impl; [exact W | exact Hsub]|].
  split; [|exact K]. intros id Hid. apply F. intros Hin. apply Hid.
  apply in_map_iff in Hin. destruct Hin as (q & <- & Hq).
  apply in_map, Hsub, Hq.
Qed.

(** One call of the gateway stays within its footprint, and hands the
    converter the bytes the store holds for the input. *)
Lemma convertDocument_effects (h : host) (p f : string) (w : world) :
  exists new,
    job_effects h p [JS.replace_ext p f] w (snd (convertDocument h p f w)) new /\
    (forall data, files w !! file_id h p = Some data ->
       Forall (fun b => b = data) (converter_inputs new)) /\
    (forall out, fst (convertDocument h p f w) = Return out ->
       out = JS.replace_ext p f /\
       is_Some (files (snd (convertDocument h p f w)) !! file_id h out)).
Proof.
  unfold convertDocument, bind, readFileSync, convertAsync, writeFileSync, ret.
  destruct (read_fault h p) as [e|] eqn:Hfault.
  { exists [EvReadFile p]. simpl. split; [|split].
    - unfold job_effects. simpl. repeat split; auto; repeat constructor.
    - intros d _. constructor.
    - discriminate. }
  destruct (files w !! file_id h p) as [data|] eqn:Hread.
  - destruct (libre_convert h data f) as [e|out] eqn:Hconv.
    + exists [EvReadFile p; EvConvert data f]. simpl. split; [|split].
      * unfold job_effects. simpl. rewrite <- app_assoc.
        repeat split; auto; repeat constructor.
      * intros d [= <-]. repeat constructor.
      * discriminate.
    + destruct (write_fault h (JS.replace_ext p f)) as [e|] eqn:Hwrite.
      * exists [EvReadFile p; EvConvert data f; EvWriteFile (JS.replace_ext p f) out].
        simpl. split; [|split].
        -- unfold job_effects. simpl. rewrite <- !app_assoc.
           repeat split; auto; repeat constructor.
        -- intros d [= <-]. repeat constructor.
        -- discriminate.
      * exists [EvReadFile p; EvConvert data f; EvWriteFile (JS.replace_ext p f) out].
        simpl. split; [|split].
        -- unfold job_effects. simpl. rewrite <- !app_assoc.
           split; [reflexivity|]. split; [repeat constructor|].
           split; [repeat constructor|]. split; [repeat constructor|].
           split.
           ++ intros id Hid. apply lookup_insert_ne. intros E. apply Hid. now left.
           ++ intros id Hid.
              destruct (String.eqb_spec (file_id h (JS.replace_ext p f)) id) as [E|Hne].
              ** rewrite E, lookup_insert_eq. eauto.
              ** now rewrite lookup_insert_ne.
        -- intros d [= <-]. repeat constructor.
        -- intros o [= <-]. split; [reflexivity|]. rewrite lookup_insert_eq. eauto.
  - exists [EvReadFile p]. simpl. split; [|split].
    + unfold job_effects. simpl. repeat split; auto; repeat constructor.
    + intros d [=].
    + discriminate.
Qed.

(** The loop stays within the footprint of its formats; when no output
    path names the file of the input, every converter call gets the
    bytes of the input as they were at the start; and when it returns,
    every output path names a file in the store. *)
Lemma convertDocumentMultiple_loop_effects (h : host) (p : string)
    (formats acc : list string) (w : world) :
  exists new,
    job_effects h p (map (JS.replace_ext p) formats) w
      (snd (convertDocumentMultiple_loop h p formats acc w)) new /\
    (forall data, files w !! file_id h p = Some data ->
       Forall (fun f => file_id h (JS.replace_ext p f) <> file_id h p) formats ->
       Forall (fun b => b = data) (converter_inputs new)) /\
    (forall paths, fst (convertDocumentMultiple_loop h p formats acc w) = Return paths ->
       paths = acc ++ map (JS.replace_ext p) formats /\
       Forall (fun q => is_Some (files (snd (convertDocumentMultiple_loop h p formats acc w))
                                  !! file_id h q))
              (map (JS.replace_ext p) formats)).
Proof.
  revert acc w. induction formats as [|f formats IH]; intros acc w.
  - exists []. simpl. split; [apply job_effects_refl|]. split; [constructor|].
    intros paths [= <-]. rewrite app_nil_r. split; [reflexivity | constructor].
  - simpl. unfold bind.
    destruct (convertDocument_effects h p f w) as (n1 & E1 & I1 & O1).
    destruct (convertDocument h p f w) as [[out|e] w1]; simpl in E1, O1.
    + destruct (O1 out eq_refl) as [-> Hpresent].
      destruct (IH (acc ++ [JS.replace_ext p f]) w1) as (n2 & E2 & I2 & O2).
      exists (n1 ++ n2). split; [|split].
      * eapply job_effects_trans.
        -- eapply job_effects_weaken; [|exact E1]. intros q [<- | []]. now left.
        -- eapply job_effects_weaken; [|exact E2]. intros q Hq. now right.
      * intros data Hread Hdiff. inversion Hdiff as [|? ? Hf Hrest]; subst.
        rewrite converter_inputs_app. apply Forall_app. split; [now apply I1|].
        apply I2; [|exact Hrest].
        destruct E1 as (_ & _ & _ & _ & F1 & _). rewrite F1; [exact Hread|].
        intros [H | []]. congruence.
      * intros paths Hret. destruct (O2 paths Hret) as [-> Hall].
        split; [now rewrite <- app_assoc|].
        constructor; [|exact Hall].
        destruct E2 as (_ & _ & _ & _ & _ & K2). now apply K2.
    + exists n1. split; [|split].
      * eapply job_effects_weaken; [|exact E1]. intros q [<- | []]. now left.
      * intros data Hread _. now apply I1.
      * discriminate.
Qed.

Lemma convert_effects (h : host) (file fmt : string) (w : world) :
  exists new,
    job_effects h file (map (JS.replace_ext file) (job_parts fmt)) w
      (snd (convert h file fmt w)) new /\
    (forall data, files w !! file_id h file = Some data ->
       Forall (fun f => file_id h (JS.replace_ext file f) <> file_id h file)
              (job_parts fmt) ->
       Forall (fun b => b = data) (converter_inputs new)) /\
    (forall paths, fst (convert h file fmt w) = Return paths ->
       paths = map (JS.replace_ext file) (job_parts fmt) /\
       Forall (fun q => is_Some (files (snd (convert h file fmt w)) !! file_id h q)) paths).
Proof.
  rewrite convert_as_loop.
  destruct (convertDocumentMultiple_loop_effects h file (job_parts fmt) [] w)
    as (new & E & I & O).
  exists new. split; [exact E|]. split; [exact I|].
  intros paths Hret. destruct (O paths Hret) as [-> Hall]. simpl. auto.
Qed.

(** A started job, end to end: the conversion, then nothing, or the
    clipboard command, or the clipboard command, the HUD and [open], or
    all of these and [popToRoot]; the last case alone ends with the
    success toast. *)
Lemma handleConvert_run (h : host) (file fmt : string) (w : world) :
  is_falsy file = false -> is_falsy fmt = false ->
  let outs := map (JS.replace_ext file) (job_parts fmt) in
  let w1 := snd (convert h file fmt (started file w)) in
  let w' := snd (handleConvert h (Some file) fmt w) in
  fst (handleConvert h (Some file) fmt w) = Return tt /\
  files w' = files w1 /\
  isConverting w' = false /\
  exists tail,
    trace w' = trace w1 ++ tail /\
    ((exists first,
        fst (convert h file fmt (started file w)) = Return outs /\
        head outs = Some first /\
        toast w' = Some (success_toast outs) /\
        tail = [EvExec (clipboard_command outs); EvShowHUD (hud_text outs);
                EvOpen (NodePath.dirname first); EvPopToRoot]) \/
     (exists e action,
        toast w' = Some (failure_toast e action) /\
        (tail = [] \/
         tail = [EvExec (clipboard_command outs)] \/
         exists first,
           head outs = Some first /\
           tail = [EvExec (clipboard_command outs); EvShowHUD (hud_text outs);
                   EvOpen (NodePath.dirname first)]))).
Proof.
  intros Hfile Hfmt outs w1 w'. subst w1 w'.
  destruct (convert_effects h file fmt (started file w)) as (new & _ & _ & Hret).
  destruct (convert h file fmt (started file w)) as [[paths|e] w1] eqn:Hrun.
  - destruct (Hret paths eq_refl) as [Hpaths _]. fold outs in Hpaths. subst paths.
    pose proof (convert_returns_nonempty h file fmt _ _ _ Hrun) as Hne.
    destruct outs as [|first rest] eqn:Houts; [congruence|].
    rewrite (handleConvert_convert_returns h file fmt w w1 first rest Hfile Hfmt Hrun).
    simpl fst. simpl snd.
    destruct (exec_fault h (clipboard_command (first :: rest))) as [e|].
    + repeat split. exists [EvExec (clipboard_command (first :: rest))].
      split; [reflexivity|]. right. exists e, None. split; [reflexivity|]. auto.
    + destruct (open_fault h (NodePath.dirname first)) as [e|].
      * repeat split. eexists. split; [simpl; rewrite <- !app_assoc; reflexivity|].
        right. exists e, (Some (RevealInFinder (first :: rest))).
        split; [reflexivity|]. right. right. exists first. auto.
      * repeat split. eexists. split; [simpl; rewrite <- !app_assoc; reflexivity|].
        left. exists first. auto.
  - rewrite (handleConvert_convert_throws h file fmt w w1 e Hfile Hfmt Hrun).
    simpl. repeat split. exists []. rewrite app_nil_r. split; [reflexivity|].
    right. exists e, None. auto.
Qed.

Lemma tail_of_run_quiet (tail : list event) (outs : list string) (text dir : string) :
  tail = [] \/ tail = [EvExec (clipboard_command outs)] \/
  tail = [EvExec (clipboard_command outs); EvShowHUD text; EvOpen dir] \/
  tail = [EvExec (clipboard_command outs); EvShowHUD text; EvOpen dir; EvPopToRoot] ->
  read_paths tail = [] /\ written_paths tail = [] /\ converter_inputs tail = [] /\
  (exec_commands tail = [] \/ exec_commands tail = [clipboard_command outs]).
Proof.
  intros [-> | [-> | [-> | ->]]]; simpl; auto.
Qed.

(** Whatever the job and however it ends, [handleConvert] reads no path
    but the selected one, writes no path but the output paths derived
    from it, runs no shell command but the clipboard command for those
    paths, leaves as it was every file other than the ones those output
    paths name, links followed, and removes no file. *)
Theorem handleConvert_footprint (h : host) (file fmt : string) (w : world) :
  let w' := snd (handleConvert h (Some file) fmt w) in
  let outs := map (JS.replace_ext file) (job_parts fmt) in
  exists new,
    trace w' = trace w ++ new /\
    Forall (fun q => q = file) (read_paths new) /\
    Forall (fun q => In q outs) (written_paths new) /\
    (exec_commands new = [] \/ exec_commands new = [clipboard_command outs]) /\
    (forall id, ~ In id (map (file_id h) outs) -> files w' !! id = files w !! id) /\
    (forall id, is_Some (files w !! id) -> is_Some (files w' !! id)).
Proof.
  intros w' outs. subst w'.
  destruct (is_falsy file) eqn:Hfile.
  { exists [EvShowToast missing_toast]. unfold handleConvert. rewrite Hfile. simpl.
    repeat split; auto. }
  destruct (is_falsy fmt) eqn:Hfmt.
  { exists [EvShowToast missing_toast]. unfold handleConvert. rewrite Hfile, Hfmt. simpl.
    repeat split; auto. }
  destruct (handleConvert_run h file fmt w Hfile Hfmt) as (_ & Hfiles & _ & tail & Htail & Hend).
  destruct (convert_effects h file fmt (started file w))
    as (new & (T & C & R & W & F & K) & _ & _).
  fold outs in W, F, Hend.
  assert (exists text dir,
            tail = [] \/ tail = [EvExec (clipboard_command outs)] \/
            tail = [EvExec (clipboard_command outs); EvShowHUD text; EvOpen dir] \/
            tail = [EvExec (clipboard_command outs); EvShowHUD text; EvOpen dir;
                    EvPopToRoot]) as (text & dir & Hshape).
  { destruct Hend as [(first & _ & _ & _ & ->) | (e & action & _ & [-> | [-> | (first & _ & ->)]])];
      do 2 eexists; eauto.
    Unshelve. all: exact "". }
  destruct (tail_of_run_quiet tail outs text dir Hshape) as (Rt & Wt & _ & Et).
  destruct (conversion_calls_no_exec new C) as [Enew _].
  exists ([EvShowToast (MkToast Animated "Converting..." (NodePath.basename file) None)]
          ++ new ++ tail).
  split.
  { rewrite Htail, T. simpl. now rewrite <- !app_assoc. }
  rewrite !read_paths_app, !written_paths_app, !exec_commands_app, Rt, Wt, Enew.
  cbn [read_paths written_paths exec_commands List.app]. rewrite ?app_nil_r.
  split; [exact R|]. split; [exact W|]. split; [exact Et|].
  split.
  - intros q Hq. rewrite Hfiles, (F q Hq). reflexivity.
  - intros q Hq. rewrite Hfiles. apply K. exact Hq.
Qed.

(** A started job always ends with [isConverting] reset and with the
    toast turned into the success toast or a failure toast.  The success
    toast means that every output path is in the store and that the run
    ended with the clipboard command for the outputs in their order, the
    HUD, [open] on the directory of the first output, and [popToRoot];
    after a failure [popToRoot] is not called. *)
Theorem handleConvert_outcome (h : host) (file fmt : string) (w : world) :
  is_falsy file = false -> is_falsy fmt = false ->
  let w' := snd (handleConvert h (Some file) fmt w) in
  let outs := map (JS.replace_ext file) (job_parts fmt) in
  isConverting w' = false /\
  ((toast w' = Some (success_toast outs) /\
    Forall (fun q => is_Some (files w' !! file_id h q)) outs /\
    exists before first,
      head outs = Some first /\
      trace w' = before ++ [EvExec (clipboard_command outs); EvShowHUD (hud_text outs);
                            EvOpen (NodePath.dirname first); EvPopToRoot]) \/
   (exists e action new,
      toast w' = Some (failure_toast e action) /\
      trace w' = trace w ++ new /\ ~ In EvPopToRoot new)).
Proof.
  intros Hfile Hfmt w' outs. subst w'.
  destruct (handleConvert_run h file fmt w Hfile Hfmt)
    as (_ & Hfiles & Hconv & tail & Htail & Hend).
  destruct (convert_effects h file fmt (started file w))
    as (new & (T & C & _) & _ & Hret).
  fold outs in Hend, Hret.
  split; [exact Hconv|].
  destruct Hend as [(first & Hrun & Hhead & Htoast & ->) | (e & action & Htoast & Hshape)].
  - left. split; [exact Htoast|]. split.
    + rewrite Hfiles. destruct (Hret outs Hrun) as [_ Hall]. exact Hall.
    + eexists. exists first. split; [exact Hhead | exact Htail].
  - right. exists e, action.
    exists ([EvShowToast (MkToast Animated "Converting..." (NodePath.basename file) None)]
            ++ new ++ tail).
    split; [exact Htoast|]. split.
    { rewrite Htail, T. simpl. now rewrite <- !app_assoc. }
    destruct (conversion_calls_no_exec new C) as [_ Hnopop].
    intros Hin. apply in_app_or in Hin. destruct Hin as [[H | []] | Hin]; [discriminate H|].
    apply in_app_or in Hin. destruct Hin as [Hin | Hin]; [now apply Hnopop|].
    destruct Hshape as [-> | [-> | (first & _ & ->)]]; simpl in Hin;
      repeat (destruct Hin as [Hin | Hin]; [discriminate Hin|]); exact Hin.
Qed.

Lemma handleConvert_outcome_witness :
  let w' := snd (handleConvert Samples.ok_host (Some "/docs/report.docx") ".pdf+.doc"
                   (Samples.start "/docs/report.docx")) in
  toast w' = Some (success_toast ["/docs/report.pdf"; "/docs/report.doc"]) /\
  isConverting w' = false.
Proof.
  destruct (handleConvert_outcome Samples.ok_host "/docs/report.docx" ".pdf+.doc"
              (Samples.start "/docs/report.docx") eq_refl eq_refl) as [Hc _].
  split; [vm_compute; reflexivity | exact Hc].
Defined.

Lemma supported_not_falsy (file fmt : string) :
  isSupportedFile file = true -> In fmt (getOutputFormats file) ->
  is_falsy file = false /\ is_falsy fmt = false.
Proof.
  intros Hsup Hin. split.
  - destruct file; [discriminate Hsup | reflexivity].
  - destruct (getOutputFormats_cases file)
      as [(_ & _ & Hf) | [(_ & _ & Hf) | (Hno & _)]]; [| | congruence];
      rewrite Hf in Hin; destruct Hin as [<- | [<- | [<- | []]]]; reflexivity.
Qed.

(** A legal job on a supported file never touches its input, unless an
    output path is another name of the input file: when every output
    path other than the input path names another file than the input
    does, then, whether the job succeeds or fails, the selected file
    holds afterwards the bytes it held before, and every converter call
    made, for any part of a composite specifier, was handed those
    bytes. *)
Theorem legal_job_keeps_input (h : host) (file fmt : string) (w : world) (data : bytes) :
  isSupportedFile file = true ->
  In fmt (getOutputFormats file) ->
  Forall (fun f => JS.replace_ext file f <> file ->
                   file_id h (JS.replace_ext file f) <> file_id h file) (job_parts fmt) ->
  files w !! file_id h file = Some data ->
  let w' := snd (handleConvert h (Some file) fmt w) in
  files w' !! file_id h file = Some data /\
  exists new,
    trace w' = trace w ++ new /\
    Forall (fun b => b = data) (converter_inputs new).
Proof.
  intros Hsup Hin Hlinks Hread w'. subst w'.
  destruct (supported_not_falsy file fmt Hsup Hin) as [Hfile Hfmt].
  assert (Forall (fun f => file_id h (JS.replace_ext file f) <> file_id h file)
                 (job_parts fmt)) as Hdiff.
  { pose proof (legal_parts_differ file fmt Hsup Hin) as Hpaths.
    rewrite Forall_forall in Hpaths, Hlinks. apply Forall_forall.
    intros f Hf. apply (Hlinks f Hf), (Hpaths f Hf). }
  destruct (handleConvert_run h file fmt w Hfile Hfmt) as (_ & Hfiles & _ & tail & Htail & Hend).
  destruct (convert_effects h file fmt (started file w))
    as (new & (T & _ & _ & _ & F & _) & Hinputs & _).
  split.
  - rewrite Hfiles, F; [exact Hread|].
    intros Hq. rewrite map_map in Hq. apply in_map_iff in Hq.
    destruct Hq as (f & Hf & Hinf).
    rewrite Forall_forall in Hdiff. apply (Hdiff f); [now apply list_elem_of_In | exact Hf].
  - exists ([EvShowToast (MkToast Animated "Converting..." (NodePath.basename file) None)]
            ++ new ++ tail).
    split.
    { rewrite Htail, T. simpl. now rewrite <- !app_assoc. }
    rewrite !converter_inputs_app. simpl.
    assert (converter_inputs tail = []) as ->.
    { destruct Hend as [(first & _ & _ & _ & ->) | (e & action & _ & [-> | [-> | (first & _ & ->)]])];
        reflexivity. }
    rewrite app_nil_r. apply Hinputs; [exact Hread | exact Hdiff].
Qed.

Lemma legal_job_keeps_input_witness :
  files (snd (handleConvert Samples.no_doc_host (Some "/docs/report.docx") ".pdf+.doc"
                (Samples.start "/docs/report.docx"))) !! "/docs/report.docx"
  = Some Samples.doc_bytes.
Proof.
  apply (legal_job_keeps_input Samples.no_doc_host "/docs/report.docx" ".pdf+.doc"
           (Samples.start "/docs/report.docx") Samples.doc_bytes).
  - vm_compute. reflexivity.
  - vm_compute. auto.
  - vm_compute. repeat constructor; intros _; discriminate.
  - vm_compute. reflexivity.
Defined.

(** The proviso is needed: where [/docs/report.pdf] is a link to
    [/docs/report.docx], the legal job [.pdf] on [/docs/report.docx]
    ends with the success toast and with the converter's output in its
    input file. *)
Example linked_job_overwrites_input :
  let w' := snd (handleConvert Samples.linked_host (Some "/docs/report.docx") ".pdf"
                   (Samples.start "/docs/report.docx")) in
  isSupportedFile "/docs/report.docx" = true /\
  In ".pdf" (getOutputFormats "/docs/report.docx") /\
  toast w' = Some (success_toast ["/docs/report.pdf"]) /\
  files w' !! file_id Samples.linked_host "/docs/report.docx" = Some Samples.pdf_bytes.
Proof.
  cbv zeta. split; [vm_compute; reflexivity|]. split; [vm_compute; auto|].
  split; vm_compute; reflexivity.
Qed.

(** ** Facts about [path.dirname] *)

Section DirnameFacts.
Import NodePath ExtnameFacts.

Lemma dirname_unfold (path : string) :
  path <> "" ->
  dirname path =
  (let st := dirname_loop (rev (JS.chars path)) dir_init in
   if (d_end st =? -1)%Z then (if has_root path then "/" else ".")
   else if has_root path && (d_end st =? 1)%Z then "//"
   else JS.slice path 0 (d_end st)).
Proof. destruct path; [congruence | reflexivity]. Qed.

Lemma dirname_loop_cons (code : ascii) (c : ascii) (before : list ascii) (st : dir_state) :
  dirname_loop (code :: c :: before) st =
  match dirname_step code (Z.of_nat (length (c :: before))) st with
  | Break st' => st'
  | Continue st' => dirname_loop (c :: before) st'
  end.
Proof. reflexivity. Qed.

Lemma dirname_trailing_slashes (n : nat) (l : list ascii) (st : dir_state) :
  d_matchedSlash st = true ->
  dirname_loop (repeat "/"%char n ++ l) st = dirname_loop l st.
Proof.
  intros Hm. induction n as [|n IH]; [reflexivity|].
  change (repeat "/"%char (S n) ++ l) with ("/"%char :: (repeat "/"%char n ++ l)).
  destruct (repeat "/"%char n ++ l) as [|c before] eqn:E.
  - destruct n; [|discriminate E]. simpl in E. subst l. reflexivity.
  - rewrite dirname_loop_cons. unfold dirname_step.
    change (is_slash "/") with true. rewrite Hm. simpl negb. cbv iota. exact IH.
Qed.

(** A last component that starts the path: no separator is met. *)
Lemma dirname_loop_component_only (run : list ascii) (st : dir_state) :
  Forall (fun c => c <> "/"%char) run ->
  d_end (dirname_loop run st) = d_end st.
Proof.
  intros Hrun. revert st. induction Hrun as [|c run Hc _ IH]; intros st; [reflexivity|].
  destruct run as [|c' run]; [reflexivity|].
  rewrite dirname_loop_cons. unfold dirname_step. rewrite (is_slash_false c Hc).
  rewrite IH. reflexivity.
Qed.

(** A last component after a separator: the loop stops at that
    separator, unless it is the first character of the path. *)
Lemma dirname_loop_component (c : ascii) (run before : list ascii) (st : dir_state) :
  c <> "/"%char -> Forall (fun c => c <> "/"%char) run ->
  dirname_loop (c :: run ++ "/"%char :: before) st =
  match before with
  | [] => DirState (d_end st) false
  | _ :: _ => DirState (Z.of_nat (length before)) false
  end.
Proof.
  intros Hc Hrun. revert c Hc st.
  induction Hrun as [|c' run Hc' _ IH]; intros c Hc st.
  - change (c :: [] ++ "/"%char :: before) with (c :: "/"%char :: before).
    rewrite dirname_loop_cons. unfold dirname_step. rewrite (is_slash_false c Hc).
    destruct before as [|b before]; [reflexivity|].
    rewrite dirname_loop_cons. unfold dirname_step. change (is_slash "/") with true.
    reflexivity.
  - change (c :: (c' :: run) ++ "/"%char :: before)
      with (c :: c' :: run ++ "/"%char :: before).
    rewrite dirname_loop_cons. unfold dirname_step. rewrite (is_slash_false c Hc).
    rewrite (IH c' Hc'). reflexivity.
Qed.

Lemma rev_chars_component (seg : string) :
  seg <> "" -> JS.includes "/" seg = false ->
  exists c run, rev (JS.chars seg) = c :: run /\ c <> "/"%char /\
                Forall (fun c => c <> "/"%char) run.
Proof.
  intros Hseg Hslash.
  pose proof (Forall_rev (no_slash_chars seg Hslash)) as Hrun.
  destruct (rev (JS.chars seg)) as [|c run] eqn:E.
  - apply (f_equal (@length ascii)) in E. rewrite length_rev, chars_length in E.
    destruct seg; [congruence | discriminate].
  - inversion Hrun; subst. eauto.
Qed.

Lemma rev_chars_path (dir seg : string) (n : nat) :
  rev (JS.chars (dir +:+ seg +:+ slashes n)) =
  repeat "/"%char n ++ rev (JS.chars seg) ++ rev (JS.chars dir).
Proof.
  rewrite !chars_app, chars_slashes, !rev_app_distr, rev_repeat_slash.
  now rewrite <- app_assoc.
Qed.

(** The directory of a path whose last component starts the path *)
Lemma dirname_no_directory (seg : string) (n : nat) :
  seg <> "" -> JS.includes "/" seg = false ->
  dirname (seg +:+ slashes n) = ".".
Proof.
  intros Hseg Hslash.
  rewrite dirname_unfold by (destruct seg; [congruence | discriminate]).
  pose proof (rev_chars_path "" seg n) as Hrev. simpl in Hrev. rewrite Hrev, app_nil_r.
  rewrite dirname_trailing_slashes by reflexivity.
  cbv zeta. rewrite dirname_loop_component_only
    by (apply Forall_rev, no_slash_chars, Hslash).
  simpl. destruct seg as [|c seg]; [congruence|]. simpl in Hslash |- *.
  apply orb_false_iff in Hslash. destruct Hslash as [Hc _].
  unfold is_slash. now rewrite Hc.
Qed.

(** The directory of a path whose last component follows the
    directory part [d/] *)
Lemma dirname_in_directory (d seg : string) (n : nat) :
  seg <> "" -> JS.includes "/" seg = false ->
  dirname ((d +:+ "/") +:+ seg +:+ slashes n) =
  if String.eqb d "" then "/" else if String.eqb d "/" then "//" else d.
Proof.
  intros Hseg Hslash.
  rewrite dirname_unfold by (destruct d; discriminate).
  rewrite rev_chars_path, dirname_trailing_slashes by reflexivity.
  destruct (rev_chars_component seg Hseg Hslash) as (c & run & -> & Hc & Hrun).
  rewrite chars_app, rev_app_distr. simpl rev at 1.
  change ((c :: run) ++ ["/"%char] ++ rev (JS.chars d))
    with (c :: run ++ "/"%char :: rev (JS.chars d)).
  cbv zeta. rewrite (dirname_loop_component c run _ _ Hc Hrun).
  destruct d as [|c0 d].
  - reflexivity.
  - assert (exists b before, rev (JS.chars (String c0 d)) = b :: before) as (b & before & E).
    { destruct (rev (JS.chars (String c0 d))) as [|b before] eqn:E; [|eauto].
      apply (f_equal (@length ascii)) in E. rewrite length_rev in E. discriminate. }
    rewrite E. rewrite <- E, length_rev, chars_length. simpl d_end.
    destruct (Z.eqb_spec (Z.of_nat (S (String.length d))) (-1)); [lia|].
    change (String c0 d =? "")%string with false. cbv iota.
    change (has_root ((String c0 d +:+ "/") +:+ seg +:+ slashes n)) with (is_slash c0).
    destruct (String.eqb_spec (String c0 d) "/") as [Eroot|Hne].
    + injection Eroot as -> ->. reflexivity.
    + assert (is_slash c0 && (Z.of_nat (S (String.length d)) =? 1)%Z = false) as ->.
      { destruct (Z.eqb_spec (Z.of_nat (S (String.length d))) 1) as [H1|H1];
          [|now rewrite andb_false_r].
        destruct d; [|simpl in H1; lia].
        rewrite andb_true_r. apply Ascii.eqb_neq. intros ->. now apply Hne. }
      replace ((String c0 d +:+ "/") +:+ seg +:+ slashes n)
        with ("" +:+ String c0 d +:+ ("/" +:+ seg +:+ slashes n)) by string_assoc.
      apply (slice_middle "" (String c0 d)).
Qed.

(** The directory of a path depends on its directory part alone, not
    on the last component nor on the separators after it. *)
Lemma dirname_same_directory (dir seg1 seg2 : string) (n1 n2 : nat) :
  dir = "" \/ (exists d, dir = d +:+ "/") ->
  seg1 <> "" -> JS.includes "/" seg1 = false ->
  seg2 <> "" -> JS.includes "/" seg2 = false ->
  dirname (dir +:+ seg1 +:+ slashes n1) = dirname (dir +:+ seg2 +:+ slashes n2).
Proof.
  intros [-> | [d ->]] H1 S1 H2 S2.
  - simpl. now rewrite !dirname_no_directory.
  - now rewrite !dirname_in_directory.
Qed.

End DirnameFacts.

(** ** The directory that is revealed *)

Lemma legal_parts_simple (file fmt f : string) :
  In fmt (getOutputFormats file) -> In f (job_parts fmt) -> simple_specifier f = true.
Proof.
  intros Hin Hf.
  destruct (getOutputFormats_cases file)
    as [(_ & _ & Hfmts) | [(_ & _ & Hfmts) | (_ & Hfmts)]];
    rewrite Hfmts in Hin; [| |destruct Hin];
    destruct Hin as [<- | [<- | [<- | []]]]; vm_compute in Hf;
    repeat (destruct Hf as [<- | Hf]; [reflexivity|]); destruct Hf.
Qed.

(** Every output of a supported file lies in the directory of the file:
    [path.dirname] gives the same result for the input and for each
    output path, so the directory that [handleConvert] opens, that of
    the first output, is the one of the selected file and of every other
    output. *)
Theorem outputs_share_directory (file : string) :
  isSupportedFile file = true ->
  (forall f, simple_specifier f = true ->
     NodePath.dirname (JS.replace_ext file f) = NodePath.dirname file) /\
  (forall fmt f, In fmt (getOutputFormats file) -> In f (job_parts fmt) ->
     NodePath.dirname (JS.replace_ext file f) = NodePath.dirname file).
Proof.
  intros Hsup.
  assert (forall f, simple_specifier f = true ->
            NodePath.dirname (JS.replace_ext file f) = NodePath.dirname file) as Hsimple.
  { intros f Hf.
    destruct (supported_shape file Hsup)
      as (front & c & r & n & Hc & Hr & Hdot & Hslash & Hp & _).
    destruct (simple_specifier_inv f Hf) as (name & -> & _ & _ & Hnslash & Hdollar & _).
    destruct (split_last_component front) as (dir & seg & -> & Hseg & Hdir).
    rewrite Hp at 1. rewrite replace_ext_supported by assumption. rewrite Hp.
    replace ((dir +:+ seg) +:+ String c (String "." name))
      with (dir +:+ (seg +:+ String c (String "." name)) +:+ slashes 0) by string_assoc.
    replace ((dir +:+ seg) +:+ String c (String "." (r +:+ slashes n)))
      with (dir +:+ (seg +:+ String c (String "." r)) +:+ slashes n) by string_assoc.
    apply dirname_same_directory; [exact Hdir | | | |].
    - destruct seg; discriminate.
    - rewrite includes_app, Hseg. simpl. rewrite Hnslash, orb_false_r.
      now apply Ascii.eqb_neq.
    - destruct seg; discriminate.
    - rewrite includes_app, Hseg. simpl. rewrite Hslash, orb_false_r.
      now apply Ascii.eqb_neq. }
  split; [exact Hsimple|].
  intros fmt f Hin Hf. apply Hsimple. exact (legal_parts_simple file fmt f Hin Hf).
Qed.

Lemma outputs_share_directory_witness :
  NodePath.dirname (JS.replace_ext "/docs/report.docx" ".doc") =
  NodePath.dirname "/docs/report.docx".
Proof.
  apply (proj2 (outputs_share_directory "/docs/report.docx" eq_refl) ".pdf+.doc" ".doc").
  - vm_compute. auto.
  - vm_compute. auto.
Defined.

(** ** The form: mounting, picking, choosing *)

Lemma filter_head_inv {A : Type} (P : A -> bool) (l : list A) (x : A) (rest : list A) :
  List.filter P l = x :: rest ->
  exists pre post, l = pre ++ x :: post /\ Forall (fun y => P y = false) pre /\ P x = true.
Proof.
  induction l as [|y l IH]; simpl; [discriminate|].
  destruct (P y) eqn:Hy.
  - intros [= -> _]. exists [], l. repeat split; [constructor | exact Hy].
  - intros Hf. destruct (IH Hf) as (pre & post & -> & Hpre & Hx).
    exists (y :: pre), post. repeat split; [constructor; assumption | exact Hx].
Qed.

Lemma filter_nil_inv {A : Type} (P : A -> bool) (l : list A) :
  List.filter P l = [] -> Forall (fun y => P y = false) l.
Proof.
  induction l as [|y l IH]; simpl; [constructor|].
  destruct (P y) eqn:Hy; [discriminate|]. intros Hf. constructor; auto.
Qed.

Lemma supported_default_format (file : string) :
  isSupportedFile file = true -> exists rest, getOutputFormats file = ".pdf" :: rest.
Proof.
  intros Hsup.
  destruct (getOutputFormats_cases file) as [(_ & _ & ->) | [(_ & _ & ->) | (Hno & _)]];
    [eauto | eauto | congruence].
Qed.

(** Mounting the command.  When the probe fails, the Finder is not
    asked, the form is left as it is (still loading), the install toast
    is shown and the command pops to root.  When the probe succeeds the
    Finder is asked once and loading ends: the file selected is the first
    supported item of the Finder selection, in Finder order, with [.pdf]
    as output format; with no supported item, or when the Finder call
    throws, the selection is kept and the file picker is switched on.  No
    file is touched either way. *)
Theorem initialize_selects_first_supported (h : host) (finder : js_exn + list string)
    (a : command_state) :
  let a' := initialize h finder a in
  files (ui a') = files (ui a) /\
  match exec_fault h probe_command with
  | Some _ =>
      form a' = form a /\
      installToast a' = Some libreoffice_required /\
      finderQueries a' = finderQueries a /\
      trace (ui a') = trace (ui a) ++ [EvExec probe_command; EvPopToRoot]
  | None =>
      isLoading (form a') = false /\
      finderQueries a' = S (finderQueries a) /\
      installToast a' = installToast a /\
      trace (ui a') = trace (ui a) ++ [EvExec probe_command] /\
      let kept :=
        useFilePicker (form a') = true /\
        selectedFile (form a') = selectedFile (form a) /\
        outputFormat (form a') = outputFormat (form a) in
      match finder with
      | inr items =>
          (exists pre file post,
             items = pre ++ file :: post /\
             Forall (fun x => isSupportedFile x = false) pre /\
             isSupportedFile file = true /\
             selectedFile (form a') = Some file /\
             outputFormat (form a') = ".pdf" /\
             useFilePicker (form a') = useFilePicker (form a)) \/
          (Forall (fun x => isSupportedFile x = false) items /\ kept)
      | inl _ => kept
      end
  end.
Proof.
  cbv zeta. unfold initialize, isLibreOfficeInstalled, try_catch, bind, execSync, ret.
  destruct (exec_fault h probe_command) as [e|].
  - simpl. rewrite <- app_assoc. repeat split.
  - simpl. split; [reflexivity|]. do 4 (split; [reflexivity|]).
    destruct finder as [e|items]; [repeat split|].
    unfold initialize_try.
    destruct (List.filter isSupportedFile items) as [|file rest] eqn:Hfilter.
    + right. split; [now apply filter_nil_inv | repeat split].
    + left. destruct (filter_head_inv _ _ _ _ Hfilter) as (pre & post & -> & Hpre & Hsup).
      exists pre, file, post. split; [reflexivity|]. split; [exact Hpre|].
      split; [exact Hsup|].
      destruct (supported_default_format file Hsup) as (others & ->). repeat split.
Qed.

(** The dropdown: every item has its format as key and value and a
    non-empty title from [FORMAT_LABELS]; keys and titles are pairwise
    distinct; and for a supported file the first item is [.pdf], the
    format selected by default. *)
Theorem dropdown_items_labelled (st : form_state) :
  Forall (fun item => item_key item = item_value item /\
                      exists label, item_title item = Some label /\ label <> "")
         (dropdown_items st) /\
  List.NoDup (map item_key (dropdown_items st)) /\
  List.NoDup (map item_title (dropdown_items st)) /\
  (forall file, selectedFile st = Some file -> isSupportedFile file = true ->
     exists rest, map item_value (dropdown_items st) = ".pdf" :: rest).
Proof.
  unfold dropdown_items, availableFormats.
  destruct (selectedFile st) as [file|].
  2:{ simpl. repeat split; try constructor. intros file [=]. }
  destruct (is_falsy file) eqn:Hfile.
  { destruct file; [|discriminate]. simpl. repeat split; try constructor.
    intros file [= <-] Hsup. discriminate Hsup. }
  destruct (getOutputFormats_cases file)
    as [(_ & _ & ->) | [(_ & _ & ->) | (Hno & ->)]].
  - split; [repeat constructor; eexists; (split; [reflexivity | discriminate])|].
    split; [repeat constructor; simpl; intuition discriminate|].
    split; [repeat constructor; simpl; intuition discriminate|].
    intros f _ _. eexists. reflexivity.
  - split; [repeat constructor; eexists; (split; [reflexivity | discriminate])|].
    split; [repeat constructor; simpl; intuition discriminate|].
    split; [repeat constructor; simpl; intuition discriminate|].
    intros f _ _. eexists. reflexivity.
  - simpl. repeat split; try constructor. intros f [= <-] Hsup. congruence.
Qed.

Lemma initialize_legal (h : host) (finder : js_exn + list string) (a : command_state) :
  selection_legal (selectedFile (form a), outputFormat (form a)) ->
  selection_legal (selectedFile (form (initialize h finder a)),
                   outputFormat (form (initialize h finder a))).
Proof.
  intros Hlegal.
  unfold initialize, isLibreOfficeInstalled, try_catch, bind, execSync, ret.
  destruct (exec_fault h probe_command) as [e|]; [exact Hlegal|].
  simpl. destruct finder as [e|items]; [exact Hlegal|].
  unfold initialize_try.
  destruct (List.filter isSupportedFile items) as [|file rest] eqn:Hfilter; [exact Hlegal|].
  destruct (filter_head_inv _ _ _ _ Hfilter) as (_ & _ & _ & _ & Hsup).
  destruct (supported_default_format file Hsup) as (others & Hfmts).
  rewrite Hfmts. unfold selection_legal. simpl. rewrite Hfmts. split; [exact Hsup | now left].
Qed.

(** The form only ever holds legal selections: whatever the Finder
    answers, whatever is picked and whichever dropdown item is chosen,
    the selected file, if any, is supported and the output format is one
    of its legal outputs.  The job that the Convert action hands to
    [handleConvert] is therefore legal whenever a file is selected. *)
Theorem reachable_selection_legal (st : form_state) :
  reachable st ->
  match selectedFile st with
  | Some file =>
      isSupportedFile file = true /\ In (outputFormat st) (getOutputFormats file)
  | None => True
  end.
Proof.
  intros Hreach.
  change (selection_legal (selectedFile st, outputFormat st)).
  induction Hreach as [|h finder a _ IH|picked st _ IH|item st _ IH Hitem].
  - exact I.
  - now apply initialize_legal.
  - unfold pickFiles. simpl.
    pose proof (handleFileChange_legal picked (selectedFile st, outputFormat st) IH) as H.
    destruct (handleFileChange picked (selectedFile st, outputFormat st)). exact H.
  - unfold selection_legal in *. simpl in *.
    unfold dropdown_items, availableFormats in Hitem.
    destruct (selectedFile st) as [file|]; [|exact I].
    destruct IH as [Hsup _]. split; [exact Hsup|].
    destruct (is_falsy file); [destruct Hitem|].
    apply in_map_iff in Hitem. destruct Hitem as (format & <- & Hin). exact Hin.
Qed.

Lemma reachable_selection_legal_witness :
  In ".doc" (getOutputFormats "/docs/b.docx").
Proof.
  pose (a := App (Samples.start "/docs/b.docx") initial_form None 0).
  pose (st1 := form (initialize Samples.ok_host (inr ["/docs/a.txt"; "/docs/b.docx"]) a)).
  assert (reachable st1) as H1 by (apply reach_initialize; apply reach_initial).
  assert (reachable (setOutputFormat (item_value (DropdownItem ".doc" ".doc"
                       (Some "Word Document (.doc)"))) st1)) as H2.
  { apply reach_choose; [exact H1|]. vm_compute. auto. }
  exact (proj2 (reachable_selection_legal _ H2)).
Defined.


(** ** A job on a file that cannot be read *)

(** When the selected file cannot be read, because the path names a
    directory, say, or no file at all, the job stops at its first read:
    the converter is not called, nothing is written, the store is
    unchanged, [isConverting] is reset, and the toast reports the
    failure with the message of the read error and no action. *)
Theorem handleConvert_read_failure (h : host) (file fmt : string) (w : world)
    (e : js_exn) :
  is_falsy file = false -> is_falsy fmt = false ->
  fst (readFileSync h file w) = Throw e ->
  let w' := snd (handleConvert h (Some file) fmt w) in
  fst (handleConvert h (Some file) fmt w) = Return tt /\
  files w' = files w /\
  trace w' =
    trace w ++
    [EvShowToast (MkToast Animated "Converting..." (NodePath.basename file) None);
     EvReadFile file] /\
  isConverting w' = false /\
  toast w' = Some (failure_toast e None).
Proof.
  intros Hfile Hfmt Hread w'. subst w'.
  assert (convert h file fmt (started file w) =
          (Throw e, log (EvReadFile file) (started file w))) as Hrun.
  { rewrite convert_as_loop. pose proof (job_parts_nonempty fmt) as Hne.
    destruct (job_parts fmt) as [|f formats]; [congruence|].
    simpl. unfold bind, convertDocument, bind.
    unfold readFileSync in Hread |- *.
    change (files (started file w)) with (files w).
    destruct (read_fault h file) as [e'|].
    - simpl in Hread. injection Hread as <-. reflexivity.
    - destruct (files w !! file_id h file) as [data|]; [discriminate Hread|].
      simpl in Hread. injection Hread as <-. reflexivity. }
  rewrite (handleConvert_convert_throws h file fmt w _ _ Hfile Hfmt Hrun).
  split; [reflexivity|]. split; [reflexivity|].
  split; [simpl; now rewrite <- app_assoc|].
  split; reflexivity.
Qed.

Lemma handleConvert_read_failure_witness :
  let w' := snd (handleConvert Samples.folder_host (Some "/docs/folder.docx") ".pdf"
                   (Samples.start "/docs/report.doc")) in
  files w' = files (Samples.start "/docs/report.doc") /\
  toast w' = Some (MkToast Failure "Conversion Failed"
                     "EISDIR: illegal operation on a directory, read" None).
Proof.
  cbv zeta.
  destruct (handleConvert_read_failure Samples.folder_host "/docs/folder.docx" ".pdf"
              (Samples.start "/docs/report.doc")
              (JsError "EISDIR: illegal operation on a directory, read"))
    as (_ & Hfiles & _ & _ & Htoast).
  - vm_compute. reflexivity.
  - vm_compute. reflexivity.
  - vm_compute. reflexivity.
  - split; [exact Hfiles | exact Htoast].
Defined.
